(** * MatchUps bot: the candidate-selection and session engine of [src/index.js]

    A shallow embedding of the rate limiter, the candidate queue builder,
    the session map and the swipe handlers (skip, like, message, delete),
    followed by the properties the specification states about them.  The
    handlers around that engine (profile edits, payments, reports, the
    overview of likes and matches, the save that ends the create dialogue)
    come after the engine, and their properties after those of the engine.

    Conventions of the embedding.
    - The [users] collection is a finite map from the numeric user id to the
      profile; the key is the [id] field (the collection has a unique index
      on it and [loadDB] keys its object by [user.id]).
    - Identifiers are integers.  The source normalises every stored id with
      [parseInt] and drops [NaN]; on integers that is the identity, so the
      arrays [likes], [matches], [recentLikes] and [shown] are [list Z].
    - A missing array field behaves as the empty array everywhere it is
      read ([if (!me.likes) me.likes = []], [(me.matches || [])]), and a
      missing counter as [0] ([user.dailySwipes || 0]); the record stores
      the array or the number itself.
    - Display fields (name, age, bio, photos) are not modelled; the queue,
      which holds profile snapshots in the source, holds their ids.
    - Every handler invocation reads the clock once ([Clock]); the local
      time zone is a fixed offset from UTC.
    - Replies to the actor always go through; the notification and the
      forwarded message sent to another user may fail, as in the source.
    - Storage operations succeed, except in the rate limiter, whose reads
      and writes may fail ([getAvailableSwipesF]); handlers are taken one
      at a time, with no interleaving at their awaits. *)

From Equations Require Import Equations.
From stdpp Require Import gmap list sorting.
From Stdlib Require Import ZArith Lia.

Local Open Scope Z_scope.
#[local] Set Warnings "-clear-no-such-hyp".

(** ** Data model *)

Inductive Gender := male | female.
Inductive Looking := men | women.

#[global] Instance Gender_eq_dec : EqDecision Gender.
Proof. solve_decision. Defined.
#[global] Instance Looking_eq_dec : EqDecision Looking.
Proof. solve_decision. Defined.

(** A document of the [users] collection (without its key [id]). *)
Record User := mkUser {
  gender : option Gender;
  looking : option Looking;
  likes : list Z;
  matches : list Z;
  recentLikes : list Z;
  dailySwipes : Z;
  lastSwipeReset : option Z;
  purchasedSwipes : Z
}.

Definition with_likes (l : list Z) (p : User) : User :=
  mkUser (gender p) (looking p) l (matches p) (recentLikes p)
         (dailySwipes p) (lastSwipeReset p) (purchasedSwipes p).
Definition with_matches (l : list Z) (p : User) : User :=
  mkUser (gender p) (looking p) (likes p) l (recentLikes p)
         (dailySwipes p) (lastSwipeReset p) (purchasedSwipes p).
Definition with_recentLikes (l : list Z) (p : User) : User :=
  mkUser (gender p) (looking p) (likes p) (matches p) l
         (dailySwipes p) (lastSwipeReset p) (purchasedSwipes p).
Definition with_dailySwipes (d : Z) (p : User) : User :=
  mkUser (gender p) (looking p) (likes p) (matches p) (recentLikes p)
         d (lastSwipeReset p) (purchasedSwipes p).
Definition with_lastSwipeReset (t : option Z) (p : User) : User :=
  mkUser (gender p) (looking p) (likes p) (matches p) (recentLikes p)
         (dailySwipes p) t (purchasedSwipes p).
Definition with_purchasedSwipes (n : Z) (p : User) : User :=
  mkUser (gender p) (looking p) (likes p) (matches p) (recentLikes p)
         (dailySwipes p) (lastSwipeReset p) n.

(** A message text: the sequence of its UTF-16 code units. *)
Definition Text := list N.

(** A document of the [deletionReasons] collection. *)
Record DeletionReason := mkReason {
  reasonUserId : Z;
  reasonText : Text;
  reasonTimestamp : Z
}.

(** An entry of the process-wide [sessions] object.  [step] is [Some t] for
    the tag [waiting_message_<t>] and [None] for no step; the dialogue steps
    of profile creation and editing are outside this development. *)
Record Session := mkSession {
  queue : option (list Z);
  shown : list Z;
  lastPreference : option Looking;
  waitingForDeletionReason : bool;
  step : option Z;
  messageTargetId : option Z
}.

Definition with_queue (q : option (list Z)) (s : Session) : Session :=
  mkSession q (shown s) (lastPreference s) (waitingForDeletionReason s)
            (step s) (messageTargetId s).
Definition with_shown (l : list Z) (s : Session) : Session :=
  mkSession (queue s) l (lastPreference s) (waitingForDeletionReason s)
            (step s) (messageTargetId s).
Definition with_lastPreference (o : option Looking) (s : Session) : Session :=
  mkSession (queue s) (shown s) o (waitingForDeletionReason s)
            (step s) (messageTargetId s).
Definition with_waiting (b : bool) (s : Session) : Session :=
  mkSession (queue s) (shown s) (lastPreference s) b
            (step s) (messageTargetId s).
Definition with_step (o : option Z) (s : Session) : Session :=
  mkSession (queue s) (shown s) (lastPreference s) (waitingForDeletionReason s)
            o (messageTargetId s).
Definition with_messageTargetId (o : option Z) (s : Session) : Session :=
  mkSession (queue s) (shown s) (lastPreference s) (waitingForDeletionReason s)
            (step s) o.

(** The whole state: two collections and the session map. *)
Record State := mkState {
  users : gmap Z User;
  deletionReasons : list DeletionReason;
  sessions : gmap Z Session
}.

Definition with_users (m : gmap Z User) (st : State) : State :=
  mkState m (deletionReasons st) (sessions st).
Definition with_sessions (m : gmap Z Session) (st : State) : State :=
  mkState (users st) (deletionReasons st) m.

(** What a handler sends out. *)
Inductive Output :=
  | OCreateFirst
  | OLostProfile
  | ONoOthers
  | ONoNewPeople
  | OPurchaseOffer
  | OCandidate (target : Z)
  | OSkipped
  | OLiked
  | OMatched (target : Z)
  | ONotifyMatch (to : Z)
  | ONotifyLike (to : Z)
  | OUserNotFound
  | OAskMessage (target : Z)
  | OForward (to : Z) (text : Text)
  | OMessageSent (limit : bool)
  | OSendFailed (limit : bool)
  | ONoProfileToDelete
  | OAskDeletionReason
  | OAccountDeleted
  | OThrown
  | ORetry.

#[global] Instance Output_eq_dec : EqDecision Output.
Proof. solve_decision. Defined.

(** ** Clock *)

Record Clock := mkClock { now : Z; tzOffset : Z }.

Definition msPerDay : Z := 86400000.

(** [new Date(d.getFullYear(), d.getMonth(), d.getDate()).getTime()]. *)
Definition localMidnight (tz t : Z) : Z := t - (t + tz) `mod` msPerDay.

Definition today (c : Clock) : Z := localMidnight (tzOffset c) (now c).

(** [user.lastSwipeReset ? new Date(...) : null], cut to its day; a stored
    [0] is falsy. *)
Definition lastResetDate (tz : Z) (p : User) : option Z :=
  match lastSwipeReset p with
  | Some t => if decide (t = 0) then None else Some (localMidnight tz t)
  | None => None
  end.

(** ** Rate limiter *)

Record Swipes := mkSwipes { free : Z; purchased : Z; total : Z }.

Definition noSwipes : Swipes := mkSwipes 0 0 0.

Definition resetSwipes (c : Clock) (p : User) : User :=
  with_lastSwipeReset (Some (today c)) (with_dailySwipes 0 p).

(** [checkAndResetDailySwipes]; [readFails] and [writeFails] say whether
    the [findOne] and the [updateOne] throw (both are caught: result [0]). *)
Definition checkAndResetDailySwipesF (readFails writeFails : bool)
    (c : Clock) (userId : Z) (us : gmap Z User) : gmap Z User * Z :=
  if readFails then (us, 0) else
  match us !! userId with
  | None => (us, 0)
  | Some user =>
      if decide (lastResetDate (tzOffset c) user = Some (today c))
      then (us, dailySwipes user)
      else if writeFails then (us, 0)
      else (alter (resetSwipes c) userId us, 0)
  end.

Definition checkAndResetDailySwipes := checkAndResetDailySwipesF false false.

(** [incrementDailySwipes]: reset if needed, [$inc], read back. *)
Definition incrementDailySwipes (c : Clock) (userId : Z) (us : gmap Z User)
    : gmap Z User * Z :=
  let us1 := (checkAndResetDailySwipes c userId us).1 in
  let us2 := alter (λ p, with_dailySwipes (dailySwipes p + 1) p) userId us1 in
  (us2, from_option dailySwipes 0 (us2 !! userId)).

(** [getAvailableSwipes]; [readFails] is its own [findOne], the other two
    flags are those of the nested [checkAndResetDailySwipes]. *)
Definition getAvailableSwipesF (readFails resetReadFails resetWriteFails : bool)
    (c : Clock) (userId : Z) (us : gmap Z User) : gmap Z User * Swipes :=
  if readFails then (us, noSwipes) else
  match us !! userId with
  | None => (us, noSwipes)
  | Some user =>
      let '(us1, daily) :=
        checkAndResetDailySwipesF resetReadFails resetWriteFails c userId us in
      let purchasedSwipes := purchasedSwipes user in
      let freeSwipesRemaining := Z.max 0 (20 - daily) in
      (us1, mkSwipes freeSwipesRemaining purchasedSwipes
                     (freeSwipesRemaining + purchasedSwipes))
  end.

Definition getAvailableSwipes := getAvailableSwipesF false false false.

(** ** Session manager *)

Definition newSession : Session := mkSession (Some []) [] None false None None.

(** [getSession]: the entry is created on first access. *)
Definition getSession (userId : Z) (ss : gmap Z Session) : gmap Z Session :=
  match ss !! userId with
  | Some _ => ss
  | None => <[userId := newSession]> ss
  end.

(** The session object of [userId] (the fresh one if there is none yet). *)
Definition session (ss : gmap Z Session) (userId : Z) : Session :=
  default newSession (ss !! userId).

(** A field assignment through the session reference. *)
Definition setSession (userId : Z) (f : Session → Session) (ss : gmap Z Session)
    : gmap Z Session :=
  <[userId := f (session ss userId)]> ss.

(** [!session.queue || session.queue.length === 0] *)
Definition queueEmpty (s : Session) : bool :=
  match queue s with
  | Some (_ :: _) => false
  | _ => true
  end.

(** ** Candidate queue builder *)

Definition meLikesTargetGender (me u : User) : bool :=
  match looking me, gender u with
  | Some men, Some male => true
  | Some women, Some female => true
  | _, _ => false
  end.

Definition targetLikesMeGender (me u : User) : bool :=
  match looking u, gender me with
  | Some men, Some male => true
  | Some women, Some female => true
  | _, _ => false
  end.

(** The first filter: valid id, not myself, not shown, preferences align. *)
Definition strictCandidate (userId : Z) (me : User) (excludeShown : bool)
    (shownIds : list Z) (u : Z * User) : bool :=
  bool_decide (u.1 ≠ 0) && bool_decide (u.1 ≠ userId)
  && negb (excludeShown && bool_decide (u.1 ∈ shownIds))
  && (meLikesTargetGender me u.2 && targetLikesMeGender me u.2).

(** The second filter: the same without the preference check. *)
Definition anyCandidate (userId : Z) (excludeShown : bool)
    (shownIds : list Z) (u : Z * User) : bool :=
  bool_decide (u.1 ≠ 0) && bool_decide (u.1 ≠ userId)
  && negb (excludeShown && bool_decide (u.1 ∈ shownIds)).

(** [candidates.sort((a, b) => aId - bId)], read off as ids. *)
Definition sortById (l : list (Z * User)) : list Z := merge_sort Z.le (l.*1).

Definition shownIdsOf (excludeShown : bool) (s : Session) : list Z :=
  if excludeShown then shown s else [].

Definition strictCandidates (us : gmap Z User) (userId : Z) (me : User)
    (excludeShown : bool) (s : Session) : list (Z * User) :=
  filter (λ u, strictCandidate userId me excludeShown (shownIdsOf excludeShown s) u)
         (map_to_list us).

Definition anyCandidates (us : gmap Z User) (userId : Z)
    (excludeShown : bool) (s : Session) : list (Z * User) :=
  filter (λ u, anyCandidate userId excludeShown (shownIdsOf excludeShown s) u)
         (map_to_list us).

(** [candidates.length === 0 && excludeShown && shownIds.length > 0] *)
Definition mustResetShown (candidates : list (Z * User)) (excludeShown : bool)
    (s : Session) : bool :=
  bool_decide (candidates = []) && excludeShown
  && bool_decide (shownIdsOf excludeShown s ≠ []).

Definition inspect {A} (a : A) : {b | a = b} := exist _ a eq_refl.

Definition buildMeasure (userId : Z) (excludeShown : bool) (ss : gmap Z Session)
    : nat :=
  if excludeShown then S (length (shown (session ss userId))) else 0%nat.

(** [buildCandidateQueue]: the result is [None] for [null] (no profile).
    Both retries re-enter the function after emptying [session.shown]. *)
Equations? buildCandidateQueue (us : gmap Z User) (userId : Z)
    (excludeShown : bool) (ss : gmap Z Session)
    : gmap Z Session * option (list Z)
    by wf (buildMeasure userId excludeShown ss) lt :=
buildCandidateQueue us userId excludeShown ss with inspect (us !! userId) := {
  | exist _ None _ := (ss, None)
  | exist _ (Some me) _
      with inspect (mustResetShown
                      (strictCandidates us userId me excludeShown
                         (session (getSession userId ss) userId))
                      excludeShown (session (getSession userId ss) userId)) := {
    | exist _ true Hreset :=
        buildCandidateQueue us userId false
          (setSession userId (with_shown []) (getSession userId ss))
    | exist _ false _
        with inspect (bool_decide
                        (strictCandidates us userId me excludeShown
                           (session (getSession userId ss) userId) = [])) := {
      | exist _ false _ :=
          (getSession userId ss,
           Some (sortById (strictCandidates us userId me excludeShown
                             (session (getSession userId ss) userId))))
      | exist _ true _
          with inspect (mustResetShown
                          (anyCandidates us userId excludeShown
                             (session (getSession userId ss) userId))
                          excludeShown (session (getSession userId ss) userId)) := {
        | exist _ true Hagain :=
            buildCandidateQueue us userId true
              (setSession userId (with_shown []) (getSession userId ss))
        | exist _ false _ :=
            (getSession userId ss,
             Some (sortById (anyCandidates us userId excludeShown
                               (session (getSession userId ss) userId))))
        } } } }.
Proof.
  - unfold mustResetShown in Hreset.
    apply andb_prop in Hreset as [Hreset _]. apply andb_prop in Hreset as [_ ->].
    unfold buildMeasure. lia.
  - unfold mustResetShown in Hagain.
    apply andb_prop in Hagain as [Hagain Hne]. apply andb_prop in Hagain as [_ ->].
    apply bool_decide_eq_true in Hne. simpl in Hne.
    unfold buildMeasure, setSession, session at 1.
    rewrite lookup_insert_eq. simpl.
    destruct (shown (session (getSession userId ss) userId)) eqn:E; [done|].
    assert (session (getSession userId ss) userId = session ss userId) as Hs.
    { unfold session, getSession. destruct (ss !! userId) eqn:E'; [by rewrite E'|].
      by rewrite lookup_insert_eq. }
    rewrite <- Hs, E. simpl. lia.
Qed.

(** [session.queue = await buildCandidateQueue(userId, excludeShown)] *)
Definition rebuildQueue (us : gmap Z User) (userId : Z) (excludeShown : bool)
    (ss : gmap Z Session) : gmap Z Session :=
  let '(ss1, q) := buildCandidateQueue us userId excludeShown ss in
  setSession userId (with_queue q) ss1.

(** ** Candidate presentation *)

(** [if (!arr.includes(x)) arr.push(x)] *)
Definition pushNew (x : Z) (l : list Z) : list Z :=
  if bool_decide (x ∈ l) then l else l ++ [x].

(** The first block of [showCandidate]: an empty queue is rebuilt.  [inl] is
    an early exit with what it sends, [inr] goes on.  When both rebuilds
    leave the queue empty, the [console.error] before the reply reads
    [totalUsers], which is not declared in [showCandidate]: the function
    exits with a ReferenceError ([OThrown]) and the reply is not sent. *)
Definition refillQueue (us : gmap Z User) (userId : Z) (ss : gmap Z Session)
    : gmap Z Session * Output + gmap Z Session :=
  if queueEmpty (session ss userId) then
    if bool_decide (1 < size us)%nat then
      let ss1 :=
        if bool_decide (shown (session ss userId) ≠ [])
        then setSession userId (with_shown []) ss else ss in
      let ss2 := rebuildQueue us userId true ss1 in
      let ss3 :=
        if queueEmpty (session ss2 userId)
        then rebuildQueue us userId false ss2 else ss2 in
      if queueEmpty (session ss3 userId) then inl (ss3, OThrown)
      else inr ss3
    else inl (ss, ONoOthers)
  else inr ss.

(** The body of [showCandidate].  The source calls itself again when the
    queue is still empty after every rebuild, or when the entry it shifted
    has no id; [reenter] stands for that call.  [shift] on an empty queue
    gives [undefined] (no id); on [null] it would throw. *)
Definition showCandidateBody (reenter : State → State * list Output)
    (c : Clock) (userId : Z) (st : State) : State * list Output :=
  match users st !! userId with
  | None => (st, [OLostProfile])
  | Some _ =>
    let '(us1, availableSwipes) := getAvailableSwipes c userId (users st) in
    if bool_decide (total availableSwipes ≤ 0)
    then (with_users us1 st, [OPurchaseOffer])
    else
      let stOf := mkState us1 (deletionReasons st) in
      let front (ss : gmap Z Session) : State * list Output :=
        match queue (session ss userId) with
        | Some (target :: rest) =>
            let ss1 := setSession userId (with_queue (Some rest)) ss in
            if bool_decide (target = 0)
            then reenter (stOf (rebuildQueue us1 userId true ss1))
            else
              (stOf (setSession userId
                       (λ s, with_shown (pushNew target (shown s)) s) ss1),
               [OCandidate target])
        | Some [] => reenter (stOf (rebuildQueue us1 userId true ss))
        | None => (stOf ss, [OThrown])
        end in
      match refillQueue us1 userId (getSession userId (sessions st)) with
      | inl (ss, out) => (stOf ss, [out])
      | inr ss =>
          if queueEmpty (session ss userId) then
            let ss1 := rebuildQueue us1 userId true ss in
            if queueEmpty (session ss1 userId)
            then reenter (stOf ss1)
            else front ss1
          else front ss
      end
  end.

(** [fuel] bounds the nesting of the re-entries; [ORetry] stands for the
    re-entry that is cut off. *)
Fixpoint showCandidateN (fuel : nat) (c : Clock) (userId : Z) (st : State)
    : State * list Output :=
  match fuel with
  | O => (st, [ORetry])
  | S fuel' => showCandidateBody (showCandidateN fuel' c userId) c userId st
  end.

(** [showCandidate]: one re-entry is the most the source can make, and no
    larger bound changes the result ([showCandidateN_stable] below). *)
Definition showCandidate : Clock → Z → State → State * list Output :=
  showCandidateN 2.

(** [showNext], the body of [/match]. *)
Definition showNext (c : Clock) (userId : Z) (st : State) : State * list Output :=
  match users st !! userId with
  | None => (st, [OCreateFirst])
  | Some me =>
    let us := users st in
    let ss0 := getSession userId (sessions st) in
    let currentPreference := default men (looking me) in
    let ss1 :=
      if decide (lastPreference (session ss0 userId) = Some currentPreference)
      then ss0
      else setSession userId
             (λ s, with_lastPreference (Some currentPreference)
                     (with_queue None (with_shown [] s))) ss0 in
    let ss2 :=
      if queueEmpty (session ss1 userId) then
        let ssa := rebuildQueue us userId true ss1 in
        if queueEmpty (session ssa userId)
        then rebuildQueue us userId true (setSession userId (with_shown []) ssa)
        else ssa
      else ss1 in
    if bool_decide (size us ≤ 1)%nat
    then (with_sessions ss2 st, [ONoOthers])
    else
      let ss3 :=
        if queueEmpty (session ss2 userId) then
          let ssa :=
            rebuildQueue us userId true (setSession userId (with_shown []) ss2) in
          if queueEmpty (session ssa userId)
          then rebuildQueue us userId false ssa else ssa
        else ss2 in
      if queueEmpty (session ss3 userId)
      then (with_sessions ss3 st, [ONoNewPeople])
      else
        let '(us1, availableSwipes) := getAvailableSwipes c userId us in
        if bool_decide (total availableSwipes ≤ 0)
        then (mkState us1 (deletionReasons st) ss3, [OPurchaseOffer])
        else showCandidate c userId (mkState us1 (deletionReasons st) ss3)
  end.

(** ** Handlers *)

(** [if (session.step && session.step.startsWith("waiting_message_"))]
    clear the step and the target. *)
Definition clearMessageStep (s : Session) : Session :=
  match step s with
  | Some _ => with_messageTargetId None (with_step None s)
  | None => s
  end.

(** The result of a handler followed by [showCandidate]; what that call
    throws is only logged by the handlers that use this (or by
    [bot.catch]). *)
Definition thenShow (c : Clock) (userId : Z) (out : list Output) (st : State)
    : State * list Output :=
  let '(st1, out1) := showCandidate c userId st in (st1, out ++ out1).

(** The end of the skip handler, which catches what [showCandidate]
    throws: it then rebuilds the queue and, if that is not empty, shows a
    candidate again. *)
Definition showCaught (c : Clock) (userId : Z) (out0 : list Output) (st : State)
    : State * list Output :=
  let '(st1, out) := showCandidate c userId st in
  if bool_decide (OThrown ∈ out) then
    let ss1 := rebuildQueue (users st1) userId true (sessions st1) in
    if queueEmpty (session ss1 userId)
    then (with_sessions ss1 st1, out0 ++ out)
    else thenShow c userId (out0 ++ out) (with_sessions ss1 st1)
  else (st1, out0 ++ out).

(** [bot.action(/skip_(.+)/)]; the target id in the button is not used. *)
Definition onSkip (c : Clock) (userId : Z) (st : State) : State * list Output :=
  match users st !! userId with
  | None => (st, [OSkipped; OLostProfile])
  | Some user =>
    let '(us1, availableSwipes) := getAvailableSwipes c userId (users st) in
    if bool_decide (total availableSwipes ≤ 0)
    then (with_users us1 st, [OSkipped; OPurchaseOffer])
    else
      let currentPurchased := purchasedSwipes user in
      let us2 :=
        if bool_decide (0 < currentPurchased)
        then alter (λ p, with_purchasedSwipes (purchasedSwipes p - 1) p) userId us1
        else (incrementDailySwipes c userId us1).1 in
      let ss := setSession userId clearMessageStep
                  (getSession userId (sessions st)) in
      showCaught c userId [OSkipped] (mkState us2 (deletionReasons st) ss)
  end.

(** [bot.action(/message_(.+)/)] *)
Definition onMessage (c : Clock) (userId targetId : Z) (st : State)
    : State * list Output :=
  match users st !! userId with
  | None => (st, [OLostProfile])
  | Some _ =>
    let '(us1, availableSwipes) := getAvailableSwipes c userId (users st) in
    if bool_decide (total availableSwipes ≤ 0)
    then (with_users us1 st, [OPurchaseOffer])
    else
      match us1 !! targetId with
      | None => thenShow c userId [OUserNotFound] (with_users us1 st)
      | Some _ =>
          let ss := setSession userId
                      (λ s, with_messageTargetId (Some targetId)
                              (with_step (Some targetId) s))
                      (getSession userId (sessions st)) in
          (mkState us1 (deletionReasons st) ss, [OAskMessage targetId])
      end
  end.

(** The like of [userId] for [targetId] on the loaded snapshot [loc] (the
    object [db.users], in which [me] and the target are entries): the like
    is recorded, then either both [matches] arrays or the target's
    [recentLikes] are updated.  The Boolean is [matchFound]. *)
Definition recordLike (userId targetId : Z) (loc : gmap Z User)
    : gmap Z User * bool :=
  let loc1 := alter (λ me, with_likes (pushNew targetId (likes me)) me) userId loc in
  if bool_decide (userId ∈ from_option likes [] (loc1 !! targetId)) then
    let loc2 :=
      alter (λ me, with_matches (pushNew targetId (matches me)) me) userId loc1 in
    (alter (λ them, with_matches (pushNew userId (matches them)) them) targetId loc2,
     true)
  else
    (alter (λ them, with_recentLikes
                      (filter (λ id, id ≠ userId) (recentLikes them) ++ [userId])
                      them) targetId loc1,
     false).

(** [updateUserArrays(id, {...})] with values read from the snapshot. *)
Definition saveFrom (loc : gmap Z User) (id : Z) (f : User → User → User)
    (us : gmap Z User) : gmap Z User :=
  match loc !! id with
  | Some src => alter (f src) id us
  | None => us
  end.

(** [bot.action(/like_(.+)/)] *)
Definition onLike (c : Clock) (userId targetId : Z) (st : State)
    : State * list Output :=
  let loc := users st in
  match loc !! userId, loc !! targetId with
  | None, _ => (st, [OLostProfile])
  | Some _, None =>
      let ss := rebuildQueue (users st) userId true
                  (getSession userId (sessions st)) in
      if queueEmpty (session ss userId)
      then (with_sessions ss st, [OUserNotFound])
      else thenShow c userId [OUserNotFound] (with_sessions ss st)
  | Some me, Some _ =>
    let '(us1, availableSwipes) := getAvailableSwipes c userId (users st) in
    if bool_decide (total availableSwipes ≤ 0)
    then (with_users us1 st, [OPurchaseOffer])
    else
      let updatedPurchasedSwipes :=
        if bool_decide (0 < purchasedSwipes me)
        then purchasedSwipes me - 1 else purchasedSwipes me in
      let us2 :=
        if bool_decide (0 < purchasedSwipes me) then us1
        else (incrementDailySwipes c userId us1).1 in
      let '(loc1, matchFound) := recordLike userId targetId loc in
      let out :=
        if matchFound then [ONotifyMatch targetId; OMatched targetId]
        else [OLiked; ONotifyLike targetId] in
      let us3 :=
        saveFrom loc1 userId
          (λ src p, with_purchasedSwipes updatedPurchasedSwipes
                      (with_matches (matches src) (with_likes (likes src) p))) us2 in
      let us4 :=
        saveFrom loc1 targetId
          (λ src p, with_recentLikes (recentLikes src)
                      (with_matches (matches src) (with_likes (likes src) p))) us3 in
      let ss := rebuildQueue us4 userId true
                  (setSession userId clearMessageStep
                     (getSession userId (sessions st))) in
      let st1 := mkState us4 (deletionReasons st) ss in
      if queueEmpty (session ss userId) then (st1, out)
      else thenShow c userId out st1
  end.

(** [bot.command(["delete", "delet"])] *)
Definition onDeleteCommand (userId : Z) (st : State) : State * list Output :=
  match users st !! userId with
  | None => (st, [ONoProfileToDelete])
  | Some _ =>
      (with_sessions
         (setSession userId (with_waiting true) (getSession userId (sessions st))) st,
       [OAskDeletionReason])
  end.

(** ** The text handler *)

(** The code units [String.prototype.trim] strips: WhiteSpace and
    LineTerminator of ECMAScript. *)
Definition isWhiteSpace (ch : N) : bool :=
  bool_decide (ch ∈ [9; 10; 11; 12; 13; 32; 160; 5760; 8232; 8233; 8239; 8287;
                     12288; 65279]%N)
  || ((8192 <=? ch)%N && (ch <=? 8202)%N).

Fixpoint trimStart (t : Text) : Text :=
  match t with
  | ch :: t' => if isWhiteSpace ch then trimStart t' else t
  | [] => []
  end.

Definition trim (t : Text) : Text := reverse (trimStart (reverse (trimStart t))).

(** [text.startsWith("/")] *)
Definition isCommand (t : Text) : bool :=
  match t with
  | ch :: _ => bool_decide (ch = 47%N)
  | [] => false
  end.

(** The three array rewrites of the deletion loop on one other profile. *)
Definition purge (userId : Z) (p : User) : User :=
  with_recentLikes (filter (λ id, id ≠ userId) (recentLikes p))
    (with_matches (filter (λ id, id ≠ userId) (matches p))
       (with_likes (filter (λ id, id ≠ userId) (likes p)) p)).

(** The deletion-reason branch. *)
Definition deleteAccount (c : Clock) (userId : Z) (text : Text) (st : State)
    : State * list Output :=
  match users st !! userId with
  | None =>
      (with_sessions (setSession userId (with_waiting false) (sessions st)) st,
       [ONoProfileToDelete])
  | Some _ =>
      let reasonData := mkReason userId (trim text) (now c) in
      let us1 :=
        map_imap (λ id p, Some (if decide (id = userId) then p else purge userId p))
                 (users st) in
      (mkState (delete userId us1) (deletionReasons st ++ [reasonData])
               (delete userId (sessions st)),
       [OAccountDeleted])
  end.

(** The [waiting_message_] branch; [sendOk] says whether the forward to the
    target went through. *)
Definition sendMessage (c : Clock) (userId : Z) (text : Text) (sendOk : bool)
    (st : State) : State * list Output :=
  let clearStep := setSession userId (with_step None) in
  match messageTargetId (session (sessions st) userId) with
  | None => (with_sessions (clearStep (sessions st)) st, [])
  | Some targetId =>
    if bool_decide (targetId = 0)
    then (with_sessions (clearStep (sessions st)) st, [])
    else
      let loc := users st in
      match loc !! userId, loc !! targetId with
      | None, _ => (with_sessions (clearStep (sessions st)) st, [OLostProfile])
      | Some _, None =>
          thenShow c userId [OUserNotFound]
            (with_sessions (clearStep (sessions st)) st)
      | Some _, Some _ =>
        let '(loc1, matchFound) := recordLike userId targetId loc in
        let notify :=
          if matchFound then ONotifyMatch targetId else ONotifyLike targetId in
        let '(us1, availableSwipes) := getAvailableSwipes c userId (users st) in
        let '(us2, availableSwipes2) :=
          if sendOk then (us1, availableSwipes)
          else getAvailableSwipes c userId us1 in
        let limit := bool_decide (total availableSwipes2 ≤ 0) in
        let out :=
          if sendOk
          then [notify; OForward targetId text;
                if matchFound then OMatched targetId else OMessageSent limit]
          else [notify; OSendFailed limit] in
        let us3 :=
          saveFrom loc1 userId
            (λ src p, with_matches (matches src) (with_likes (likes src) p)) us2 in
        let us4 :=
          saveFrom loc1 targetId
            (λ src p,
               if matchFound
               then with_matches (matches src) (with_likes (likes src) p)
               else with_recentLikes (recentLikes src)
                      (with_likes (likes src) p)) us3 in
        let ss1 := setSession userId
                     (λ s, with_messageTargetId None (with_step None s))
                     (sessions st) in
        if limit then (mkState us4 (deletionReasons st) ss1, out)
        else
          thenShow c userId out
            (mkState us4 (deletionReasons st) (rebuildQueue us4 userId true ss1))
      end
  end.

(** [bot.on("text")], restricted to the branches of the engine. *)
Definition onText (c : Clock) (userId : Z) (text : Text) (sendOk : bool)
    (st : State) : State * list Output :=
  let st0 := with_sessions (getSession userId (sessions st)) st in
  if isCommand text then (st0, [])
  else if waitingForDeletionReason (session (sessions st0) userId)
  then deleteAccount c userId text st0
  else
    match step (session (sessions st0) userId) with
    | None => (st0, [])
    | Some _ => sendMessage c userId text sendOk st0
    end.

(** ** Events *)

Inductive Event :=
  | EMatch (userId : Z)
  | ESkip (userId : Z)
  | EMessage (userId targetId : Z)
  | ELike (userId targetId : Z)
  | EDelete (userId : Z)
  | EText (userId : Z) (text : Text) (sendOk : bool).

Definition handle (c : Clock) (e : Event) (st : State) : State * list Output :=
  match e with
  | EMatch u => showNext c u st
  | ESkip u => onSkip c u st
  | EMessage u t => onMessage c u t st
  | ELike u t => onLike c u t st
  | EDelete u => onDeleteCommand u st
  | EText u text ok => onText c u text ok st
  end.

(** A run: each event comes with the clock reading of its handler. *)
Fixpoint run (evs : list (Clock * Event)) (st : State) : State :=
  match evs with
  | [] => st
  | (c, e) :: evs' => run evs' (handle c e st).1
  end.

(** ** Vocabulary of the properties *)

(** One consumption from the free quota, and one per clock reading. *)
Definition consume (c : Clock) (u : Z) (us : gmap Z User) : gmap Z User :=
  (incrementDailySwipes c u us).1.

Definition consumeAt (tz : Z) (times : list Z) (u : Z) (us : gmap Z User)
    : gmap Z User :=
  foldl (λ acc t, consume (mkClock t tz) u acc) us times.

(** The rollover check as an update of one profile. *)
Definition roll (c : Clock) (p : User) : User :=
  if decide (lastResetDate (tzOffset c) p = Some (today c)) then p
  else resetSwipes c p.

(** Swipes are left, whatever the day. *)
Definition limitOpen (p : User) : Prop :=
  0 ≤ purchasedSwipes p ∧ (dailySwipes p < 20 ∨ 0 < purchasedSwipes p).

(** The list the builder sorts once no retry is due: the strict filter, or
    the filter without preferences when the strict one is empty. *)
Definition candidatesFor (us : gmap Z User) (userId : Z) (me : User)
    (excludeShown : bool) (s : Session) : list (Z * User) :=
  if bool_decide (strictCandidates us userId me excludeShown s = [])
  then anyCandidates us userId excludeShown s
  else strictCandidates us userId me excludeShown s.

(** Another valid profile of the store. *)
Definition otherUser (us : gmap Z User) (u v : Z) : Prop :=
  v ≠ 0 ∧ v ≠ u ∧ is_Some (us !! v).

(** The candidates of a full pass: every other valid profile whose
    preferences and the user's align, in ascending order of id. *)
Definition eligible (us : gmap Z User) (u : Z) (me : User) : list Z :=
  sortById (strictCandidates us u me false newSession).

(** A queue of ids (none of them the falsy [0]). *)
Definition validQueue (s : Session) : Prop :=
  match queue s with
  | Some q => Forall (λ v, v ≠ 0) q
  | None => True
  end.

(** [matches] is symmetric between the profiles of the store. *)
Definition matchSymmetric (us : gmap Z User) : Prop :=
  ∀ a b pa pb, us !! a = Some pa → us !! b = Some pb →
               (b ∈ matches pa ↔ a ∈ matches pb).

(** Two stores with the same [matches] arrays. *)
Definition sameMatches (us' us : gmap Z User) : Prop :=
  ∀ k, matches <$> us' !! k = matches <$> us !! k.

(** The store of a pass that started on [us0]: the other profiles are the
    same; the user's own profile may have had its counters reset. *)
Definition samePool (us0 : gmap Z User) (u : Z) (p0 : User) (us : gmap Z User)
    : Prop :=
  (∀ v, v ≠ u → us !! v = us0 !! v)
  ∧ ∃ p, us !! u = Some p ∧ gender p = gender p0 ∧ looking p = looking p0
         ∧ limitOpen p.

(** The session in the middle of a pass: [k] candidates presented. *)
Definition midPass (E : list Z) (k : nat) (s : Session) : Prop :=
  queue s = Some (drop k E) ∧ shown s = take k E.

(** Successive presentations through one entry point ([showCandidate] or
    [showNext]), one clock reading each. *)
Fixpoint presentations (entry : Clock → Z → State → State * list Output)
    (cs : list Clock) (u : Z) (st : State) : State * list Output :=
  match cs with
  | [] => (st, [])
  | c :: cs' =>
      let '(st1, out1) := entry c u st in
      let '(st2, out2) := presentations entry cs' u st1 in
      (st2, out1 ++ out2)
  end.

(** ** Sample data *)

(** A clock reading, in UTC; the profiles below were last reset that day. *)
Definition noon : Clock := mkClock 1700000000000 0.

(** A man looking for women, with all his free swipes and no credits. *)
Definition sampleUser : User :=
  mkUser (Some male) (Some women) [] [] [] 0 (Some 1700000000000) 0.

(** The same with his 20 free swipes of the day used. *)
Definition exhaustedUser : User :=
  mkUser (Some male) (Some women) [] [] [] 20 (Some 1700000000000) 0.

(** The same with 5 purchased credits and no daily swipe used. *)
Definition richUser : User :=
  mkUser (Some male) (Some women) [] [] [] 0 (Some 1700000000000) 5.

(** The same with 3 daily swipes used. *)
Definition sender (purchased : Z) : User :=
  mkUser (Some male) (Some women) [] [] [] 3 (Some 1700000000000) purchased.

(** A woman looking for men. *)
Definition receiver : User :=
  mkUser (Some female) (Some men) [] [] [] 0 (Some 1700000000000) 0.

(** A woman who has liked and matched user 1. *)
Definition admirer : User :=
  mkUser (Some female) (Some men) [1] [1] [1; 3] 0 (Some 1700000000000) 0.

(** User 1 alone in the store, at his limit. *)
Definition aloneState : State := mkState {[ 1 := exhaustedUser ]} [] ∅.

(** User 1 has pressed the message button under the profile of user 2. *)
Definition chatState (purchased : Z) : State :=
  mkState {[ 1 := sender purchased; 2 := receiver ]} []
          {[ 1 := mkSession (Some []) [2] (Some women) false (Some 2) (Some 2) ]}.

(** Users 1 and 2, 2 referring to 1 in her arrays. *)
Definition leavingState : State :=
  mkState {[ 1 := sampleUser; 2 := admirer ]} [] ∅.

(** Users 1 and 2, with no like yet. *)
Definition pairState : State :=
  mkState {[ 1 := sampleUser; 2 := receiver ]} [] ∅.

(** User 1 has seen 2 and 3; his session remembers the preference [men]. *)
Definition crowdState : State :=
  mkState {[ 1 := sampleUser; 2 := receiver; 3 := receiver ]} []
          {[ 1 := mkSession (Some []) [2; 3] (Some men) false None None ]}.

(** User 1 starts on a pool of two compatible profiles, 2 and 3. *)
Definition freshState : State :=
  mkState {[ 1 := sampleUser; 2 := receiver; 3 := receiver ]} [] ∅.

(** The texts "hi", " bye " and "/help". *)
Definition hi : Text := [104; 105]%N.
Definition bye : Text := [32; 98; 121; 101; 32]%N.
Definition slashHelp : Text := [47; 104; 101; 108; 112]%N.

(** * The handlers around the engine *)

(** ** Replies of the handlers around the engine *)

(** What the handlers below send: a message of the engine, or one of their
    own. *)
Inductive Reply :=
  | Engine (o : Output)
  | NoProfileFound
  | GenderUpdated (g : Gender)
  | PreferenceUpdated (l : Looking)
  | PaymentSuccessful (swipesToAdd : Z) (availableSwipes : Swipes)
  | PaymentProfileNotFound
  | ReportUserNotFound
  | AlreadyReported
  | UserReported
  | NeedTwoPhotos
  | ProfileComplete
  | NoProfile
  | NoMatchesOrLikes
  | RecentLikes (ids : list Z)
  | OtherLikes (ids : list Z)
  | YourMatches (count : nat) (listed : list Z).

(** ** Markdown escaping *)

(** The characters of the class of [escapeMarkdown]:
    _ * [ ] ( ) ~ ` > # + - = | { } . ! *)
Definition isMarkdownSpecial (ch : N) : bool :=
  bool_decide (ch ∈ [95; 42; 91; 93; 40; 41; 126; 96; 62; 35; 43; 45; 61; 124;
                     123; 125; 46; 33]%N).

(** [escapeMarkdown]: a falsy text (the empty string) is returned as it
    is; otherwise a backslash is put before every character of the class. *)
Definition escapeMarkdown (text : Text) : Text :=
  match text with
  | [] => text
  | _ => text ≫= λ ch, if isMarkdownSpecial ch then [92; ch]%N else [ch]
  end.

(** [text.replace(/\\/g, '')]: the fallback of [/matches] for a message
    that was refused with its Markdown. *)
Definition stripBackslashes (text : Text) : Text :=
  filter (λ ch, ch ≠ 92%N) text.

(** ** Profile edits *)

Definition with_gender (g : option Gender) (p : User) : User :=
  mkUser g (looking p) (likes p) (matches p) (recentLikes p)
         (dailySwipes p) (lastSwipeReset p) (purchasedSwipes p).
Definition with_looking (l : option Looking) (p : User) : User :=
  mkUser (gender p) l (likes p) (matches p) (recentLikes p)
         (dailySwipes p) (lastSwipeReset p) (purchasedSwipes p).

(** A handler followed by [showNext] in a [try]: what that call throws is
    only logged. *)
Definition thenNext (c : Clock) (userId : Z) (out : list Reply) (st : State)
    : State * list Reply :=
  let '(st1, out1) := showNext c userId st in (st1, out ++ (Engine <$> out1)).

(** [bot.action("edit_gender_male")] and [bot.action("edit_gender_female")]:
    [saveUser(userId, { ...user, gender })], then [showNext]. *)
Definition onEditGender (c : Clock) (userId : Z) (g : Gender) (st : State)
    : State * list Reply :=
  match users st !! userId with
  | None => (st, [NoProfileFound])
  | Some user =>
      let us1 := <[userId := with_gender (Some g) user]> (users st) in
      thenNext c userId [GenderUpdated g] (with_users us1 st)
  end.

(** [bot.action("edit_look_men")] and [bot.action("edit_look_women")]: the
    profile is saved, the session's shown-set is emptied and its
    [lastPreference] set to the new value, then [showNext]. *)
Definition onEditLooking (c : Clock) (userId : Z) (l : Looking) (st : State)
    : State * list Reply :=
  match users st !! userId with
  | None => (st, [NoProfileFound])
  | Some user =>
      let us1 := <[userId := with_looking (Some l) user]> (users st) in
      let ss := setSession userId
                  (λ s, with_lastPreference (Some l) (with_shown [] s))
                  (getSession userId (sessions st)) in
      thenNext c userId [PreferenceUpdated l] (mkState us1 (deletionReasons st) ss)
  end.

(** ** Payments *)

(** [String.prototype.split] with a separator of one code unit. *)
Fixpoint splitOn (sep : N) (t : Text) : list Text :=
  match t with
  | [] => [[]]
  | ch :: t' =>
      if bool_decide (ch = sep) then [] :: splitOn sep t'
      else match splitOn sep t' with
           | part :: parts => (ch :: part) :: parts
           | [] => [[ch]]
           end
  end.

(** [text.startsWith(pre)] *)
Definition startsWith (pre t : Text) : bool := bool_decide (pre `prefix_of` t).

(** The value of a code unit as a digit of the given radix. *)
Definition digitOf (radix ch : N) : option N :=
  let d :=
    if (48 <=? ch)%N && (ch <=? 57)%N then Some (ch - 48)%N
    else if (97 <=? ch)%N && (ch <=? 122)%N then Some (ch - 87)%N
    else if (65 <=? ch)%N && (ch <=? 90)%N then Some (ch - 55)%N
    else None in
  match d with
  | Some v => if (v <? radix)%N then Some v else None
  | None => None
  end.

(** The longest prefix of digits, as their values. *)
Fixpoint digits (radix : N) (t : Text) : list N :=
  match t with
  | ch :: t' =>
      match digitOf radix ch with
      | Some v => v :: digits radix t'
      | None => []
      end
  | [] => []
  end.

Definition valueOf (radix : N) (ds : list N) : N :=
  foldl (λ acc d, acc * radix + d)%N 0%N ds.

(** [parseInt(text)] without a radix: leading white space, a sign, the
    prefix [0x] or [0X], then the longest run of digits; [None] is [NaN].
    The result is the integer itself (the source's Number rounds it beyond
    2^53 and has a negative zero, which no test made on it here can tell). *)
Definition parseInt (t : Text) : option Z :=
  let s := trimStart t in
  let '(sign, s1) :=
    match s with
    | ch :: r =>
        if bool_decide (ch = 45%N) then (-1, r)
        else if bool_decide (ch = 43%N) then (1, r)
        else (1, s)
    | [] => (1, s)
    end in
  let '(radix, s2) :=
    match s1 with
    | a :: b :: r =>
        if bool_decide (a = 48%N) && bool_decide (b = 120%N ∨ b = 88%N)
        then (16%N, r) else (10%N, s1)
    | _ => (10%N, s1)
    end in
  match digits radix s2 with
  | [] => None
  | ds => Some (sign * Z.of_N (valueOf radix ds))
  end.

(** The texts "swipes" and "swipes_". *)
Definition swipesTag : Text := [115; 119; 105; 112; 101; 115]%N.
Definition swipesPrefix : Text := swipesTag ++ [95%N].

(** The answer to a pre-checkout query. *)
Inductive Checkout := Approved | InvalidPayload | InvalidFormat.

(** [bot.on('pre_checkout_query')] *)
Definition onPreCheckout (payload : Text) : Checkout :=
  if negb (startsWith swipesPrefix payload) then InvalidPayload
  else if bool_decide (length (splitOn 95 payload) < 3)%nat then InvalidFormat
  else Approved.

(** The number of swipes a payload is worth: the checks of
    [successful_payment] on the payload, before it looks at the store. *)
Definition swipesToAdd (payload : Text) : option Z :=
  match splitOn 95 payload with
  | tag :: packageType :: _ :: _ =>
      if bool_decide (tag = swipesTag) then
        match parseInt packageType with
        | Some n => if bool_decide (n = 40 ∨ n = 80) then Some n else None
        | None => None
        end
      else None
  | _ => None
  end.

(** [bot.on('successful_payment')]: the credit goes to the profile of the
    sender ([ctx.from.id]); a payload that fails the checks is logged and
    nothing is sent. *)
Definition onSuccessfulPayment (c : Clock) (userId : Z) (payload : Text)
    (st : State) : State * list Reply :=
  match swipesToAdd payload with
  | None => (st, [])
  | Some n =>
      match users st !! userId with
      | None => (st, [PaymentProfileNotFound])
      | Some user =>
          let newPurchased := purchasedSwipes user + n in
          let us1 := alter (with_purchasedSwipes newPurchased) userId (users st) in
          let '(us2, availableSwipes) := getAvailableSwipes c userId us1 in
          let ss := getSession userId (sessions st) in
          let st1 := mkState us2 (deletionReasons st) ss in
          if queueEmpty (session ss userId)
          then (st1, [PaymentSuccessful n availableSwipes])
          else
            let '(st2, out) := showCandidate c userId st1 in
            (st2, PaymentSuccessful n availableSwipes :: (Engine <$> out))
      end
  end.

(** ** Reports *)

(** A document of the [reports] collection. *)
Record Report := mkReport {
  reporterId : Z;
  reportedId : Z;
  reportTimestamp : Z
}.

(** The engine's state and the [reports] collection. *)
Record World := mkWorld {
  engine : State;
  reports : list Report
}.

(** [reportsCollection.findOne({ reporterId, reportedId })] *)
Definition existingReport (userId targetId : Z) (rs : list Report) : bool :=
  bool_decide (Exists (λ r, reporterId r = userId ∧ reportedId r = targetId) rs).

(** [bot.action(/report_(.+)/)] *)
Definition onReport (c : Clock) (userId targetId : Z) (w : World)
    : World * list Reply :=
  let st := engine w in
  match users st !! userId, users st !! targetId with
  | None, _ => (w, [Engine OLostProfile])
  | Some _, None => (w, [ReportUserNotFound])
  | Some _, Some _ =>
      if existingReport userId targetId (reports w)
      then (w, [AlreadyReported])
      else
        let reportData := mkReport userId targetId (now c) in
        let '(st1, out) := showCandidate c userId st in
        (mkWorld st1 (reports w ++ [reportData]),
         UserReported :: (Engine <$> out))
  end.

(** ** The overview of likes and matches *)

(** [arr.indexOf(x)] *)
Fixpoint indexOf (x : Z) (l : list Z) : Z :=
  match l with
  | [] => -1
  | y :: l' =>
      if decide (y = x) then 0
      else let i := indexOf x l' in if decide (i < 0) then -1 else i + 1
  end.

(** [peopleWhoLikedYou]: the other valid profiles whose [likes] hold the
    user and whom the user has not matched. *)
Definition peopleWhoLikedYou (us : gmap Z User) (userId : Z) (me : User)
    : list (Z * User) :=
  filter (λ o, bool_decide (o.1 ≠ 0) && bool_decide (o.1 ≠ userId)
               && bool_decide (userId ∈ likes o.2)
               && negb (bool_decide (o.1 ∈ matches me)))
         (map_to_list us).

(** The order of the comparator [aIndex - bIndex]. *)
Definition byIndex (l : list Z) (a b : Z) : Prop := indexOf a l ≤ indexOf b l.

#[global] Instance byIndex_dec l a b : Decision (byIndex l a b).
Proof. unfold byIndex. apply _. Defined.

(** [recentLikesProfiles], sorted by their index in the reversed
    [recentLikes]. *)
Definition recentLikesProfiles (us : gmap Z User) (userId : Z) (me : User)
    : list Z :=
  let recentLikesReversed := reverse (recentLikes me) in
  merge_sort (byIndex recentLikesReversed)
    (filter (λ id, id ∈ recentLikes me) (peopleWhoLikedYou us userId me).*1).

(** [olderLikesProfiles], in the order in which [Object.entries] lists the
    profiles (the model does not fix that order). *)
Definition olderLikesProfiles (us : gmap Z User) (userId : Z) (me : User)
    : list Z :=
  filter (λ id, id ∉ recentLikes me) (peopleWhoLikedYou us userId me).*1.

(** The matches that are listed: those whose profile is found. *)
Definition listedMatches (us : gmap Z User) (me : User) : list Z :=
  filter (λ id, id ≠ 0 ∧ is_Some (us !! id)) (matches me).

(** [bot.command("matches")]: the recent likes are cleared once they have
    been shown. *)
Definition onMatches (userId : Z) (st : State) : State * list Reply :=
  match users st !! userId with
  | None => (st, [NoProfile])
  | Some me =>
      let liked := peopleWhoLikedYou (users st) userId me in
      if bool_decide (matches me = []) && bool_decide (liked = [])
      then (st, [NoMatchesOrLikes])
      else
        let recent := recentLikesProfiles (users st) userId me in
        let older := olderLikesProfiles (users st) userId me in
        let us1 :=
          if bool_decide (recent ≠ [])
          then alter (with_recentLikes []) userId (users st) else users st in
        (with_users us1 st,
         (if bool_decide (recent ≠ []) then [RecentLikes recent] else [])
         ++ (if bool_decide (older ≠ []) then [OtherLikes older] else [])
         ++ (if bool_decide (matches me ≠ [])
             then [YourMatches (length (matches me)) (listedMatches (users st) me)]
             else []))
  end.

(** ** Profile creation: the final save *)

(** The fields the create dialogue has left in the session object when the
    photos are complete. *)
Record Draft := mkDraft {
  draftGender : option Gender;
  draftLooking : option Looking;
  draftPhotos : option (list Text)
}.

(** [bot.action("finish_photos")]: with at least two photos, the profile is
    written with [saveUser] (an upsert that sets every field listed, and
    leaves a field not listed, [recentLikes], as stored), the session is
    reset, and [showNext] follows. *)
Definition onFinishPhotos (c : Clock) (userId : Z) (d : Draft) (st : State)
    : State * list Reply :=
  let ss := getSession userId (sessions st) in
  match draftPhotos d with
  | Some (_ :: _ :: _) =>
      let stored := from_option recentLikes [] (users st !! userId) in
      let userData :=
        mkUser (draftGender d) (draftLooking d) [] [] stored 0 (Some (now c)) 0 in
      let us1 := <[userId := userData]> (users st) in
      let ss1 := setSession userId
                   (λ s, with_lastPreference None
                           (with_queue None (with_shown [] (with_step None s))))
                   ss in
      thenNext c userId [ProfileComplete] (mkState us1 (deletionReasons st) ss1)
  | _ => (with_sessions ss st, [NeedTwoPhotos])
  end.

(** ** All handlers *)

Inductive Action :=
  | AEngine (e : Event)
  | AEditGender (userId : Z) (g : Gender)
  | AEditLooking (userId : Z) (l : Looking)
  | APayment (userId : Z) (payload : Text)
  | AReport (userId targetId : Z)
  | AMatches (userId : Z).

Definition liftEngine (w : World) (r : State * list Reply) : World * list Reply :=
  (mkWorld r.1 (reports w), r.2).

Definition act (c : Clock) (a : Action) (w : World) : World * list Reply :=
  match a with
  | AEngine e =>
      let '(st, out) := handle c e (engine w) in
      (mkWorld st (reports w), Engine <$> out)
  | AEditGender u g => liftEngine w (onEditGender c u g (engine w))
  | AEditLooking u l => liftEngine w (onEditLooking c u l (engine w))
  | APayment u payload => liftEngine w (onSuccessfulPayment c u payload (engine w))
  | AReport u t => onReport c u t w
  | AMatches u => liftEngine w (onMatches u (engine w))
  end.

(** A run of handlers, each with the clock reading of its invocation. *)
Fixpoint serve (acts : list (Clock * Action)) (w : World) : World :=
  match acts with
  | [] => w
  | (c, a) :: acts' => serve acts' (act c a w).1
  end.

(** ** Vocabulary and sample data of the handlers *)

(** The text "_". *)
Definition underscore : Text := [95%N].

(** The texts "40" and "80". *)
Definition package40 : Text := [52; 48]%N.
Definition package80 : Text := [56; 48]%N.

(** A name with Markdown characters: "a_b*c". *)
Definition starName : Text := [97; 95; 98; 42; 99]%N.

(** The queue of the session is non-empty and starts with [t]. *)
Definition queueFront (s : Session) (t : Z) (rest : list Z) : Prop :=
  queue s = Some (t :: rest) ∧ t ≠ 0.

(** No two reports with the same reporter and the same reported user. *)
Definition uniqueReports (rs : list Report) : Prop :=
  NoDup ((λ r, (reporterId r, reportedId r)) <$> rs).

(** User 1, at the limit, is looking at a queue that starts with user 2. *)
Definition waitingState : State :=
  mkState {[ 1 := exhaustedUser; 2 := receiver; 3 := receiver ]} []
          {[ 1 := mkSession (Some [2; 3]) [] (Some women) false None None ]}.

(** User 1 looks for women and holds a queue of women; user 4 is a man
    looking for men. *)
Definition suitor : User :=
  mkUser (Some male) (Some men) [] [] [] 0 (Some 1700000000000) 0.

Definition editState : State :=
  mkState {[ 1 := sampleUser; 2 := receiver; 3 := receiver; 4 := suitor ]} []
          {[ 1 := mkSession (Some [2; 3]) [] (Some women) false None None ]}.

(** [v] is listed among the people who liked [u]: another valid profile
    whose [likes] hold [u] and that [u] has not matched. *)
Definition likedBy (us : gmap Z User) (u : Z) (me : User) (v : Z) : Prop :=
  v ≠ 0 ∧ v ≠ u ∧ u ∈ from_option likes [] (us !! v) ∧ v ∉ matches me.

#[global] Instance likedBy_dec us u me v : Decision (likedBy us u me v).
Proof. unfold likedBy. apply _. Defined.

(** User 1 has been liked by 2, then by 3, and long ago by 4. *)
Definition fan : User :=
  mkUser (Some female) (Some men) [1] [] [] 0 (Some 1700000000000) 0.

Definition star : User :=
  mkUser (Some male) (Some women) [] [] [2; 3] 0 (Some 1700000000000) 0.

Definition fanState : State :=
  mkState {[ 1 := star; 2 := fan; 3 := fan; 4 := fan ]} [] ∅.

(** A draft with two photos. *)
Definition twoPhotos : Draft :=
  mkDraft (Some female) (Some men) (Some [hi; bye]).

(** Nobody has reported anybody. *)
Definition quietWorld : World := mkWorld waitingState [].

(** The profile stored under [k] once the like of [u] for [t] has been
    recorded; [mf] is [matchFound]. *)
Definition liked (u t k : Z) (mf : bool) (p : User) : User :=
  mkUser (gender p) (looking p)
    (if decide (k = u) then pushNew t (likes p) else likes p)
    (if mf
     then (if decide (k = t) then pushNew u else id)
            ((if decide (k = u) then pushNew t else id) (matches p))
     else matches p)
    (if mf then recentLikes p
     else if decide (k = t)
          then filter (λ id, id ≠ u) (recentLikes p) ++ [u]
          else recentLikes p)
    (dailySwipes p) (lastSwipeReset p) (purchasedSwipes p).

(** The swipe a like or a skip takes from the profile [p] of the user:
    a purchased credit if there is one, a daily swipe otherwise. *)
Definition charge (p q : User) : User :=
  if bool_decide (0 < purchasedSwipes p)
  then with_purchasedSwipes (purchasedSwipes p - 1) q
  else with_dailySwipes (dailySwipes p + 1) q.

(** The three arrays of a profile that name other users. *)
Definition social (p : User) : list Z * list Z * list Z :=
  (likes p, matches p, recentLikes p).

(** Two stores with the same profiles as far as those arrays go. *)
Definition sameSocial (us' us : gmap Z User) : Prop :=
  ∀ k, social <$> us' !! k = social <$> us !! k.

(** The store once the account of [u] has been deleted. *)
Definition without (u : Z) (us : gmap Z User) : gmap Z User :=
  delete u (map_imap (λ id p, Some (if decide (id = u) then p else purge u p)) us).

(** What one handler can do to the arrays of the store: nothing, record a
    like between two profiles, delete an account, or empty the recent
    likes of one profile. *)
Definition socialMove (us us' : gmap Z User) : Prop :=
  sameSocial us' us
  ∨ (∃ u t, is_Some (us !! u) ∧ is_Some (us !! t)
            ∧ sameSocial us' (recordLike u t us).1)
  ∨ (∃ u, us' = without u us)
  ∨ (∃ u, sameSocial us' (alter (with_recentLikes []) u us)).

(** No array of the store names a user twice. *)
Definition duplicateFree (us : gmap Z User) : Prop :=
  ∀ k p, us !! k = Some p →
         NoDup (likes p) ∧ NoDup (matches p) ∧ NoDup (recentLikes p).


(** Users 1 and 2 have matched. *)
Definition matchedState : World :=
  mkWorld
    (mkState {[ 1 := mkUser (Some male) (Some women) [2] [2] [] 0
                       (Some 1700000000000) 0;
                2 := mkUser (Some female) (Some men) [1] [1] [] 0
                       (Some 1700000000000) 0 ]} [] ∅) [].

(** The counters of a profile are within their bounds: at most 20 free
    swipes counted for the day, and no negative balance. *)
Definition countersOk (p : User) : Prop :=
  0 ≤ dailySwipes p ≤ 20 ∧ 0 ≤ purchasedSwipes p.

Definition balancesOk (us : gmap Z User) : Prop :=
  ∀ k p, us !! k = Some p → countersOk p.

(** User 1 has used 19 free swipes today and holds one purchased swipe. *)
Definition busyWorld : World :=
  mkWorld
    (mkState {[ 1 := mkUser (Some male) (Some women) [] [] [] 19
                       (Some 1700000000000) 1;
                2 := receiver; 3 := receiver; 4 := receiver ]} [] ∅) [].

(** The fields of a session that steer the text handler. *)
Definition dialogue (s : Session) : bool * option Z * option Z :=
  (waitingForDeletionReason s, step s, messageTargetId s).

(** * Properties *)

(** ** Clock and rate limiter *)

Lemma localMidnight_idem tz t :
  localMidnight tz (localMidnight tz t) = localMidnight tz t.
Proof.
  unfold localMidnight, msPerDay.
  pose proof (Z.mod_eq (t + tz) 86400000 ltac:(lia)) as E.
  replace (t - (t + tz) `mod` 86400000 + tz)
    with ((t + tz) `div` 86400000 * 86400000) by lia.
  rewrite Z_mod_mult. lia.
Qed.

Lemma check_same_day c u us p :
  us !! u = Some p → lastResetDate (tzOffset c) p = Some (today c) →
  checkAndResetDailySwipes c u us = (us, dailySwipes p).
Proof.
  intros Hp Hd. unfold checkAndResetDailySwipes, checkAndResetDailySwipesF.
  rewrite Hp. by rewrite decide_True.
Qed.

Lemma check_new_day c u us p :
  us !! u = Some p → lastResetDate (tzOffset c) p ≠ Some (today c) →
  checkAndResetDailySwipes c u us = (alter (resetSwipes c) u us, 0).
Proof.
  intros Hp Hd. unfold checkAndResetDailySwipes, checkAndResetDailySwipesF.
  rewrite Hp. by rewrite decide_False.
Qed.

Lemma check_none c u us :
  us !! u = None → checkAndResetDailySwipes c u us = (us, 0).
Proof.
  intros Hp. unfold checkAndResetDailySwipes, checkAndResetDailySwipesF.
  by rewrite Hp.
Qed.

Lemma lastResetDate_reset c p :
  today c ≠ 0 → lastResetDate (tzOffset c) (resetSwipes c p) = Some (today c).
Proof.
  intros H0. unfold lastResetDate, resetSwipes. simpl.
  rewrite decide_False by done. unfold today. by rewrite localMidnight_idem.
Qed.

(** The stored state after the rollover check, and the count it returns. *)
Lemma check_lookup c u us p :
  us !! u = Some p →
  ∃ p', (checkAndResetDailySwipes c u us).1 !! u = Some p'
        ∧ (checkAndResetDailySwipes c u us).2 = dailySwipes p'
        ∧ purchasedSwipes p' = purchasedSwipes p
        ∧ (lastResetDate (tzOffset c) p = Some (today c) → p' = p)
        ∧ (lastResetDate (tzOffset c) p ≠ Some (today c) → p' = resetSwipes c p).
Proof.
  intros Hp.
  destruct (decide (lastResetDate (tzOffset c) p = Some (today c))) as [Hd|Hd].
  - rewrite (check_same_day c u us p) by done. exists p. naive_solver.
  - rewrite (check_new_day c u us p) by done. exists (resetSwipes c p).
    simpl. rewrite lookup_alter_eq, Hp. naive_solver.
Qed.

Lemma getAvailableSwipes_eq c u us p :
  us !! u = Some p →
  getAvailableSwipes c u us =
    ((checkAndResetDailySwipes c u us).1,
     let free := Z.max 0 (20 - (checkAndResetDailySwipes c u us).2) in
     mkSwipes free (purchasedSwipes p) (free + purchasedSwipes p)).
Proof.
  intros Hp. unfold getAvailableSwipes, getAvailableSwipesF. rewrite Hp.
  fold checkAndResetDailySwipes. by destruct (checkAndResetDailySwipes c u us).
Qed.

Lemma getAvailableSwipes_none c u us :
  us !! u = None → getAvailableSwipes c u us = (us, noSwipes).
Proof. intros Hp. unfold getAvailableSwipes, getAvailableSwipesF. by rewrite Hp. Qed.

Lemma consume_lookup c u us p :
  us !! u = Some p → today c ≠ 0 →
  ∃ p', consume c u us !! u = Some p'
        ∧ purchasedSwipes p' = purchasedSwipes p
        ∧ lastResetDate (tzOffset c) p' = Some (today c)
        ∧ (lastResetDate (tzOffset c) p = Some (today c) →
             dailySwipes p' = dailySwipes p + 1)
        ∧ (lastResetDate (tzOffset c) p ≠ Some (today c) →
             dailySwipes p' = 1 ∧ lastSwipeReset p' = Some (today c)).
Proof.
  intros Hp H0. unfold consume, incrementDailySwipes. simpl.
  destruct (check_lookup c u us p Hp) as (p' & Hp' & _ & Hpur & Hs & Hn).
  rewrite lookup_alter_eq, Hp'. simpl. eexists. split; [done|]. simpl.
  split; [done|].
  destruct (decide (lastResetDate (tzOffset c) p = Some (today c))) as [Hd|Hd].
  - rewrite (Hs Hd). unfold lastResetDate in *. simpl. naive_solver.
  - rewrite (Hn Hd). split; [|naive_solver].
    by apply (lastResetDate_reset c p).
Qed.

(** Consumptions within the day of the last reset add up. *)
Lemma consumeAt_same_day tz D times u us p :
  us !! u = Some p → D ≠ 0 → lastResetDate tz p = Some D →
  Forall (λ t, localMidnight tz t = D) times →
  ∃ p', consumeAt tz times u us !! u = Some p'
        ∧ purchasedSwipes p' = purchasedSwipes p
        ∧ lastResetDate tz p' = Some D
        ∧ dailySwipes p' = dailySwipes p + Z.of_nat (length times).
Proof.
  intros Hp HD Hd Hall. revert us p Hp Hd.
  induction Hall as [|t times Ht Hall IH]; intros us p Hp Hd.
  - exists p. simpl. split_and!; [done..|lia].
  - simpl. set (c := mkClock t tz).
    assert (today c = D) as Hc by done.
    destruct (consume_lookup c u us p Hp) as (p1 & Hp1 & Hpur & Hday & Hs & _).
    { by rewrite Hc. }
    simpl in Hday, Hs. rewrite Hc in Hday, Hs.
    destruct (IH _ p1 Hp1 Hday) as (p' & Hp' & Hpur' & Hday' & Hlen).
    exists p'. split_and!; [done|congruence|done|].
    rewrite Hlen, (Hs Hd). lia.
Qed.

(** Any number of consumptions on one day, wherever the counter started. *)
Lemma consumeAt_lookup tz D times u us p :
  us !! u = Some p → D ≠ 0 → 0 ≤ dailySwipes p →
  Forall (λ t, localMidnight tz t = D) times → times ≠ [] →
  ∃ p', consumeAt tz times u us !! u = Some p'
        ∧ purchasedSwipes p' = purchasedSwipes p
        ∧ lastResetDate tz p' = Some D
        ∧ Z.of_nat (length times) ≤ dailySwipes p'.
Proof.
  intros Hp HD Hd Hall Hne. destruct Hall as [|t times Ht Hall]; [done|].
  simpl. set (c := mkClock t tz).
  assert (today c = D) as Hc by done.
  destruct (consume_lookup c u us p Hp) as (p1 & Hp1 & Hpur & Hday & Hs & Hn).
  { by rewrite Hc. }
  simpl in Hday, Hs, Hn. rewrite Hc in Hday, Hs, Hn.
  destruct (consumeAt_same_day tz D times u _ p1 Hp1 HD Hday Hall)
    as (p' & Hp' & Hpur' & Hday' & Hlen).
  exists p'. split_and!; [done|congruence|done|].
  rewrite Hlen.
  destruct (decide (lastResetDate tz p = Some D)) as [E|E].
  - rewrite (Hs E). lia.
  - destruct (Hn E) as [-> _]. lia.
Qed.

(** C10.  For a user id with no stored profile, [getAvailableSwipes]
    returns [{free: 0, purchased: 0, total: 0}] (not the fresh allowance of
    20) and leaves the store as it is; it returns the same zero default
    when its storage read fails, whatever the store holds. *)
Theorem availableSwipes_zero_default
    (readFails resetReadFails resetWriteFails : bool) c u us :
  us !! u = None ∨ readFails = true →
  getAvailableSwipesF readFails resetReadFails resetWriteFails c u us
  = (us, mkSwipes 0 0 0).
Proof.
  intros [Hp| ->]; unfold getAvailableSwipesF; [|done].
  rewrite Hp. by destruct readFails.
Qed.

Lemma availableSwipes_zero_default_witness :
  (∅ : gmap Z User) !! 7 = None
  ∧ getAvailableSwipes (mkClock 1700000000000 0) 7 ∅ = (∅, mkSwipes 0 0 0).
Proof.
  split; [reflexivity|].
  apply (availableSwipes_zero_default false false false); left; reflexivity.
Defined.

(** The read inside [checkAndResetDailySwipes] is another matter: when
    only that one fails, the count defaults to 0 and the full allowance is
    reported. *)
Remark availableSwipes_nested_read_failure resetWriteFails c u us p :
  us !! u = Some p →
  getAvailableSwipesF false true resetWriteFails c u us
  = (us, mkSwipes 20 (purchasedSwipes p) (20 + purchasedSwipes p)).
Proof. intros Hp. unfold getAvailableSwipesF. by rewrite Hp. Qed.

(** C3.  For a user with a profile and no purchased credits:
    [getAvailableSwipes] reports [free = max(0, 20 - dailySwipes)] (the
    counter as stored after the rollover check) and [total = free +
    purchased]; after 20 consumptions on one calendar day the total is 0;
    and the first consumption of a new day first zeroes the counter and
    stamps the start of that day, so that the total is 19 afterwards. *)
Theorem rate_limit_boundary tz u us p :
  us !! u = Some p → purchasedSwipes p = 0 →
  (∀ t, let r := getAvailableSwipes (mkClock t tz) u us in
        ∃ p', r.1 !! u = Some p'
              ∧ free r.2 = Z.max 0 (20 - dailySwipes p')
              ∧ purchased r.2 = 0
              ∧ total r.2 = free r.2 + purchased r.2)
  ∧ (∀ D times t,
        D ≠ 0 → 0 ≤ dailySwipes p → length times = 20%nat →
        Forall (λ t', localMidnight tz t' = D) (t :: times) →
        total (getAvailableSwipes (mkClock t tz) u (consumeAt tz times u us)).2 = 0)
  ∧ (∀ t, let c := mkClock t tz in
        today c ≠ 0 → lastResetDate tz p ≠ Some (today c) →
        (∃ p0, (checkAndResetDailySwipes c u us).1 !! u = Some p0
               ∧ dailySwipes p0 = 0 ∧ lastSwipeReset p0 = Some (today c))
        ∧ (∃ p1, consume c u us !! u = Some p1
                 ∧ dailySwipes p1 = 1 ∧ lastSwipeReset p1 = Some (today c))
        ∧ total (getAvailableSwipes c u (consume c u us)).2 = 19).
Proof.
  intros Hp Hpur. split_and!.
  - intros t r. subst r. rewrite (getAvailableSwipes_eq _ _ _ p Hp). simpl.
    destruct (check_lookup (mkClock t tz) u us p Hp) as (p' & Hp' & Hd & _).
    exists p'. rewrite Hd. done.
  - intros D times t HD Hd Hlen Hall.
    apply Forall_cons in Hall as [Ht Hall].
    destruct (consumeAt_lookup tz D times u us p Hp HD Hd Hall)
      as (p' & Hp' & Hpur' & Hday & Hcount).
    { intros ->. done. }
    rewrite (getAvailableSwipes_eq _ _ _ p' Hp').
    rewrite (check_same_day _ _ _ p' Hp')
      by (unfold today; simpl; by rewrite Hday, Ht).
    simpl. lia.
  - intros t c Ht Hnew. split_and!.
    + rewrite (check_new_day c u us p Hp Hnew). simpl.
      rewrite lookup_alter_eq, Hp. by eexists.
    + destruct (consume_lookup c u us p Hp Ht) as (p1 & Hp1 & _ & _ & _ & Hn).
      destruct (Hn Hnew) as [Hone Hstamp]. by exists p1.
    + destruct (consume_lookup c u us p Hp Ht) as (p1 & Hp1 & Hpur1 & Hday & _ & Hn).
      destruct (Hn Hnew) as [Hone _].
      rewrite (getAvailableSwipes_eq _ _ _ p1 Hp1).
      rewrite (check_same_day _ _ _ p1 Hp1 Hday). simpl. lia.
Qed.

Lemma rate_limit_boundary_witness :
  ({[ 1 := sampleUser ]} : gmap Z User) !! 1 = Some sampleUser
  ∧ purchasedSwipes sampleUser = 0
  ∧ total (getAvailableSwipes (mkClock 1700000000000 0) 1
             (consumeAt 0 (replicate 20 1700000000000) 1 {[ 1 := sampleUser ]})).2 = 0.
Proof.
  split; [reflexivity|]. split; [reflexivity|].
  refine (proj1 (proj2 (rate_limit_boundary 0 1 {[ 1 := sampleUser ]} sampleUser
                          eq_refl eq_refl))
            (localMidnight 0 1700000000000) (replicate 20 1700000000000)
            1700000000000 _ _ _ _).
  - vm_compute. discriminate.
  - vm_compute. discriminate.
  - reflexivity.
  - repeat constructor.
Defined.

(** ** Sessions *)

Lemma session_getSession u v ss : session (getSession u ss) v = session ss v.
Proof.
  unfold session, getSession. destruct (ss !! u) eqn:E; [done|].
  destruct (decide (u = v)) as [->|Hne].
  - by rewrite lookup_insert_eq, E.
  - by rewrite lookup_insert_ne.
Qed.

Lemma getSession_lookup u ss : getSession u ss !! u = Some (session ss u).
Proof.
  unfold session, getSession. destruct (ss !! u) eqn:E; [by rewrite E|].
  by rewrite lookup_insert_eq.
Qed.

Lemma getSession_lookup_ne u v ss : v ≠ u → getSession u ss !! v = ss !! v.
Proof.
  intros Hne. unfold getSession. destruct (ss !! u); [done|].
  by rewrite lookup_insert_ne.
Qed.

Lemma getSession_id u ss : is_Some (ss !! u) → getSession u ss = ss.
Proof. intros [s Hs]. unfold getSession. by rewrite Hs. Qed.

Lemma getSession_setSession u f ss :
  getSession u (setSession u f ss) = setSession u f ss.
Proof. apply getSession_id. unfold setSession. rewrite lookup_insert_eq. by eexists. Qed.

Lemma getSession_idem u ss : getSession u (getSession u ss) = getSession u ss.
Proof. apply getSession_id. rewrite getSession_lookup. by eexists. Qed.

Lemma session_setSession u f ss : session (setSession u f ss) u = f (session ss u).
Proof. unfold session at 1, setSession. by rewrite lookup_insert_eq. Qed.

Lemma session_setSession_ne u v f ss :
  v ≠ u → session (setSession u f ss) v = session ss v.
Proof. intros Hne. unfold session, setSession. by rewrite lookup_insert_ne. Qed.

Lemma setSession_setSession u f g ss :
  setSession u f (setSession u g ss) = setSession u (f ∘ g) ss.
Proof.
  unfold setSession at 1. rewrite session_setSession.
  unfold setSession. by rewrite insert_insert_eq.
Qed.

Lemma setSession_getSession u f ss :
  setSession u f (getSession u ss) = setSession u f ss.
Proof.
  unfold setSession. rewrite session_getSession.
  unfold getSession. destruct (ss !! u); [done|]. by rewrite insert_insert_eq.
Qed.

(** ** The queue builder *)

Lemma elem_of_strictCandidates us u me ex s x :
  x ∈ strictCandidates us u me ex s ↔
  strictCandidate u me ex (shownIdsOf ex s) x = true ∧ us !! x.1 = Some x.2.
Proof.
  unfold strictCandidates. rewrite list_elem_of_filter, Is_true_true.
  destruct x as [v q]. by rewrite elem_of_map_to_list.
Qed.

Lemma elem_of_anyCandidates us u ex s x :
  x ∈ anyCandidates us u ex s ↔
  anyCandidate u ex (shownIdsOf ex s) x = true ∧ us !! x.1 = Some x.2.
Proof.
  unfold anyCandidates. rewrite list_elem_of_filter, Is_true_true.
  destruct x as [v q]. by rewrite elem_of_map_to_list.
Qed.

Lemma anyCandidates_nil_of_strict us u me ex s :
  anyCandidates us u ex s = [] → strictCandidates us u me ex s = [].
Proof.
  intros Hany. apply elem_of_nil_inv. intros x Hx.
  apply elem_of_strictCandidates in Hx as [Hx Hl].
  assert (x ∈ anyCandidates us u ex s) as Hin.
  { apply elem_of_anyCandidates. split; [|done].
    unfold strictCandidate in Hx. unfold anyCandidate.
    by apply andb_prop in Hx as [-> _]. }
  rewrite Hany in Hin. by apply elem_of_nil in Hin.
Qed.

(** The body of the builder, as the source has it. *)
Local Ltac rhs_if H :=
  match goal with
  | |- _ = (if _ then ?x else ?y) =>
      match type of H with
      | _ = ?b => transitivity (if b then x else y); [|by rewrite H]
      end
  end.

Lemma buildCandidateQueue_body us u ex ss :
  buildCandidateQueue us u ex ss =
  match us !! u with
  | None => (ss, None)
  | Some me =>
      let ss0 := getSession u ss in
      let s := session ss0 u in
      if mustResetShown (strictCandidates us u me ex s) ex s
      then buildCandidateQueue us u false (setSession u (with_shown []) ss0)
      else if bool_decide (strictCandidates us u me ex s = [])
           then if mustResetShown (anyCandidates us u ex s) ex s
                then buildCandidateQueue us u true
                       (setSession u (with_shown []) ss0)
                else (ss0, Some (sortById (anyCandidates us u ex s)))
           else (ss0, Some (sortById (strictCandidates us u me ex s)))
  end.
Proof.
  simp buildCandidateQueue.
  generalize (inspect (us !! u)). intros [o Ho].
  match goal with
  | |- _ = match _ with Some me => @?f me | None => ?g end =>
      transitivity (match o with Some me => f me | None => g end);
        [|by rewrite Ho]
  end.
  destruct o as [me|]; simp buildCandidateQueue; [|done].
  cbv zeta.
  generalize (inspect (mustResetShown
    (strictCandidates us u me ex (session (getSession u ss) u)) ex
    (session (getSession u ss) u))).
  intros [b Hb]. rhs_if Hb. destruct b; simp buildCandidateQueue; [done|].
  generalize (inspect (bool_decide
    (strictCandidates us u me ex (session (getSession u ss) u) = []))).
  intros [b Hb']. rhs_if Hb'. destruct b; simp buildCandidateQueue; [|done].
  generalize (inspect (mustResetShown
    (anyCandidates us u ex (session (getSession u ss) u)) ex
    (session (getSession u ss) u))).
  intros [b Hb'']. rhs_if Hb''. destruct b; by simp buildCandidateQueue.
Qed.

Lemma buildCandidateQueue_none us u ex ss :
  us !! u = None → buildCandidateQueue us u ex ss = (ss, None).
Proof. intros Hu. rewrite buildCandidateQueue_body. by rewrite Hu. Qed.

Lemma buildCandidateQueue_false us u me ss :
  us !! u = Some me →
  buildCandidateQueue us u false ss =
    (getSession u ss,
     Some (sortById (candidatesFor us u me false (session ss u)))).
Proof.
  intros Hu. rewrite buildCandidateQueue_body, Hu. cbv zeta.
  unfold mustResetShown. rewrite !andb_false_r. rewrite session_getSession.
  unfold candidatesFor. by case_bool_decide.
Qed.

(** With [excludeShown] and an exhausted pass: the shown-set is emptied and
    the pool is taken afresh. *)
Lemma buildCandidateQueue_true_reset us u me ss :
  us !! u = Some me →
  strictCandidates us u me true (session ss u) = [] →
  shown (session ss u) ≠ [] →
  buildCandidateQueue us u true ss =
    (setSession u (with_shown []) ss,
     Some (sortById (candidatesFor us u me false (session ss u)))).
Proof.
  intros Hu Hnil Hshown. rewrite buildCandidateQueue_body, Hu. cbv zeta.
  rewrite session_getSession. unfold mustResetShown at 1.
  rewrite Hnil. rewrite bool_decide_eq_true_2 by done. simpl.
  rewrite bool_decide_eq_true_2 by done.
  rewrite (buildCandidateQueue_false _ _ me) by done.
  rewrite getSession_setSession, setSession_getSession. done.
Qed.

Lemma buildCandidateQueue_true_keep us u me ss :
  us !! u = Some me →
  strictCandidates us u me true (session ss u) ≠ []
  ∨ shown (session ss u) = [] →
  buildCandidateQueue us u true ss =
    (getSession u ss,
     Some (sortById (candidatesFor us u me true (session ss u)))).
Proof.
  intros Hu Hkeep. rewrite buildCandidateQueue_body, Hu. cbv zeta.
  rewrite session_getSession. unfold candidatesFor, mustResetShown. simpl.
  destruct Hkeep as [Hne|Hnil].
  - rewrite !(bool_decide_eq_false_2 (strictCandidates _ _ _ _ _ = [])) by done.
    done.
  - rewrite !(bool_decide_eq_false_2 (shown _ ≠ [])) by naive_solver.
    rewrite !andb_false_r. by case_bool_decide.
Qed.

Lemma elem_of_sortById l v : v ∈ sortById l ↔ v ∈ l.*1.
Proof. unfold sortById. by rewrite merge_sort_Permutation. Qed.

Lemma sortById_nil l : sortById l = [] ↔ l = [].
Proof.
  split; [|by intros ->].
  intros Hnil. destruct l as [|x l]; [done|].
  assert (x.1 ∈ sortById (x :: l)) as Hin.
  { apply elem_of_sortById. simpl. left. }
  rewrite Hnil in Hin. by apply elem_of_nil in Hin.
Qed.

Lemma anyCandidate_true u ex shownIds v q :
  anyCandidate u ex shownIds (v, q) = true ↔
  v ≠ 0 ∧ v ≠ u ∧ ¬ (ex = true ∧ v ∈ shownIds).
Proof.
  unfold anyCandidate. simpl.
  rewrite !andb_true_iff, !bool_decide_eq_true, negb_true_iff, andb_false_iff.
  rewrite bool_decide_eq_false. destruct ex; naive_solver.
Qed.

Lemma strictCandidate_any u me ex shownIds x :
  strictCandidate u me ex shownIds x = true →
  anyCandidate u ex shownIds x = true.
Proof. unfold strictCandidate, anyCandidate. by intros [-> _]%andb_prop. Qed.

Lemma elem_of_candidatesFor us u me ex s x :
  x ∈ candidatesFor us u me ex s →
  anyCandidate u ex (shownIdsOf ex s) x = true ∧ us !! x.1 = Some x.2.
Proof.
  unfold candidatesFor. case_bool_decide.
  - by intros ?%elem_of_anyCandidates.
  - intros [? ?]%elem_of_strictCandidates. eauto using strictCandidate_any.
Qed.

Lemma candidatesFor_nil us u me ex s :
  candidatesFor us u me ex s = [] ↔ anyCandidates us u ex s = [].
Proof.
  unfold candidatesFor. case_bool_decide as Hs; [done|].
  split; [done|]. intros Hany. by apply (anyCandidates_nil_of_strict _ _ me) in Hany.
Qed.

Lemma anyCandidates_nil us u ex s :
  anyCandidates us u ex s = [] ↔
  ∀ v, otherUser us u v → ex = true ∧ v ∈ shown s.
Proof.
  split.
  - intros Hnil v (H0 & Hu & [q Hq]).
    destruct (decide (ex = true ∧ v ∈ shown s)) as [|Hn]; [done|].
    assert ((v, q) ∈ anyCandidates us u ex s) as Hin.
    { apply elem_of_anyCandidates. split; [|done].
      apply anyCandidate_true. split_and!; [done..|].
      intros [-> Hin]. by apply Hn. }
    rewrite Hnil in Hin. by apply elem_of_nil in Hin.
  - intros Hall. apply elem_of_nil_inv. intros [v q] Hin.
    apply elem_of_anyCandidates in Hin as [Hany Hl]. simpl in Hl.
    apply anyCandidate_true in Hany as (H0 & Hu & Hn).
    destruct (Hall v) as [-> Hin]; [by split_and!|].
    by apply Hn.
Qed.

Lemma elem_of_sortById_candidatesFor us u me ex s v :
  v ∈ sortById (candidatesFor us u me ex s) → otherUser us u v.
Proof.
  rewrite elem_of_sortById, list_elem_of_fmap. intros ([v' q] & -> & Hin).
  apply elem_of_candidatesFor in Hin as [Hany Hl].
  apply anyCandidate_true in Hany as (? & ? & _). by split_and!.
Qed.

Lemma no_others_iff us u :
  (∀ v, otherUser us u v → false = true ∧ v ∈ @nil Z) ↔ ¬ ∃ v, otherUser us u v.
Proof. naive_solver. Qed.

(** What the builder returns for a user with a profile. *)
Lemma buildCandidateQueue_spec us u me ex ss :
  us !! u = Some me →
  ∃ q, (buildCandidateQueue us u ex ss).2 = Some q
       ∧ (∀ v, v ∈ q → otherUser us u v)
       ∧ (q = [] ↔ ¬ ∃ v, otherUser us u v)
       ∧ (ex = true → strictCandidates us u me true (session ss u) = [] →
          shown (session ss u) ≠ [] →
          shown (session (buildCandidateQueue us u ex ss).1 u) = [])
       ∧ (strictCandidates us u me false (session ss u) = [] →
          ∀ v, v ∈ q ↔ otherUser us u v).
Proof.
  intros Hu.
  assert (∀ s, candidatesFor us u me false s = [] ↔ ¬ ∃ v, otherUser us u v)
    as Hfalse.
  { intros s. rewrite candidatesFor_nil, anyCandidates_nil. naive_solver. }
  assert (∀ s, strictCandidates us u me false s = [] →
            ∀ v, v ∈ sortById (candidatesFor us u me false s) ↔ otherUser us u v)
    as Hall.
  { intros s Hnil v. split; [apply elem_of_sortById_candidatesFor|].
    intros (H0 & Hne & [q Hq]). unfold candidatesFor.
    rewrite bool_decide_eq_true_2 by done.
    apply elem_of_sortById, list_elem_of_fmap. exists (v, q). split; [done|].
    apply elem_of_anyCandidates. split; [|done].
    apply anyCandidate_true. naive_solver. }
  destruct ex.
  - destruct (decide (strictCandidates us u me true (session ss u) = []
                      ∧ shown (session ss u) ≠ [])) as [[Hnil Hsh]|Hkeep].
    + rewrite (buildCandidateQueue_true_reset us u me ss Hu Hnil Hsh). simpl.
      eexists. split; [done|]. split_and!.
      * apply elem_of_sortById_candidatesFor.
      * rewrite sortById_nil. apply Hfalse.
      * intros _ _ _. by rewrite session_setSession.
      * apply Hall.
    + rewrite (buildCandidateQueue_true_keep us u me ss Hu).
      2:{ destruct (decide (strictCandidates us u me true (session ss u) = []));
            [right|by left].
          destruct (shown (session ss u)) eqn:E; [done|]. naive_solver. }
      simpl. eexists. split; [done|]. split_and!.
      * apply elem_of_sortById_candidatesFor.
      * rewrite sortById_nil.
        destruct (decide (strictCandidates us u me true (session ss u) = []))
          as [Hnil|Hne].
        -- assert (shown (session ss u) = []) as Hsh.
           { destruct (shown (session ss u)) eqn:E; [done|]. naive_solver. }
           rewrite candidatesFor_nil, anyCandidates_nil, Hsh.
           split.
           ++ intros Hno [v Hv]. destruct (Hno v Hv) as [_ Hin].
              by apply elem_of_nil in Hin.
           ++ intros Hno v Hv. destruct Hno. by exists v.
        -- split.
           ++ unfold candidatesFor. by rewrite bool_decide_eq_false_2.
           ++ intros Hno. destruct Hne. apply elem_of_nil_inv. intros [v q] Hin.
              apply elem_of_strictCandidates in Hin as [Hs Hl].
              apply strictCandidate_any, anyCandidate_true in Hs as (? & ? & _).
              destruct Hno. exists v. by split_and!.
      * naive_solver.
      * intros Hnil v.
        assert (strictCandidates us u me true (session ss u) = []) as Hnil'.
        { apply elem_of_nil_inv. intros x Hin.
          apply elem_of_strictCandidates in Hin as [Hs Hl].
          assert (x ∈ strictCandidates us u me false (session ss u)) as Hin.
          { apply elem_of_strictCandidates. split; [|done].
            unfold strictCandidate in *. simpl.
            apply andb_prop in Hs as [Hs ->].
            apply andb_prop in Hs as [-> _]. done. }
          rewrite Hnil in Hin. by apply elem_of_nil in Hin. }
        assert (shown (session ss u) = []) as Hsh.
        { destruct (shown (session ss u)) eqn:E; [done|]. naive_solver. }
        split; [apply elem_of_sortById_candidatesFor|].
        intros (H0 & Hne & [q Hq]). unfold candidatesFor.
        rewrite bool_decide_eq_true_2 by done.
        apply elem_of_sortById, list_elem_of_fmap. exists (v, q). split; [done|].
        apply elem_of_anyCandidates. split; [|done].
        apply anyCandidate_true. simpl. rewrite Hsh. split_and!; [done..|].
        intros [_ Hin]. by apply elem_of_nil in Hin.
  - rewrite (buildCandidateQueue_false us u me ss Hu). simpl.
    eexists. split; [done|]. split_and!.
    + apply elem_of_sortById_candidatesFor.
    + rewrite sortById_nil. apply Hfalse.
    + done.
    + apply Hall.
Qed.

(** C6.  For a user with a profile the builder returns a list (not
    [null]) of other valid profiles, and the list is empty only when the
    store holds no other valid profile.  When the strict filter is empty
    and shown users were excluded, the shown-set is emptied; and when no
    profile at all is preference-compatible, the result is every other
    valid profile. *)
Theorem queue_empty_only_without_others us u me ex ss :
  us !! u = Some me →
  ∃ q, (buildCandidateQueue us u ex ss).2 = Some q
       ∧ (∀ v, v ∈ q → otherUser us u v)
       ∧ (q = [] ↔ ¬ ∃ v, otherUser us u v)
       ∧ (ex = true → strictCandidates us u me true (session ss u) = [] →
          shown (session ss u) ≠ [] →
          shown (session (buildCandidateQueue us u ex ss).1 u) = [])
       ∧ (strictCandidates us u me false (session ss u) = [] →
          ∀ v, v ∈ q ↔ otherUser us u v).
Proof. apply buildCandidateQueue_spec. Qed.

Lemma queue_empty_only_without_others_witness :
  ({[ 1 := sampleUser ]} : gmap Z User) !! 1 = Some sampleUser
  ∧ ∃ q, (buildCandidateQueue {[ 1 := sampleUser ]} 1 true ∅).2 = Some q
         ∧ (q = [] ↔ ¬ ∃ v, otherUser {[ 1 := sampleUser ]} 1 v).
Proof.
  assert (({[ 1 := sampleUser ]} : gmap Z User) !! 1 = Some sampleUser) as Hu
    by reflexivity.
  split; [exact Hu|].
  destruct (queue_empty_only_without_others {[ 1 := sampleUser ]} 1 sampleUser
              true ∅ Hu) as (q & Hq & _ & Hnil & _).
  exists q. split; [exact Hq|exact Hnil].
Defined.

(** ** The rollover as a map update *)

Lemma alter_fix {A} (f : A → A) (k : Z) (m : gmap Z A) x :
  m !! k = Some x → f x = x → alter f k m = m.
Proof.
  intros Hk Hf. apply map_eq. intros i. rewrite lookup_alter.
  case_decide as E; [|done]. subst i. rewrite Hk. simpl. by rewrite Hf.
Qed.

Lemma alter_missing {A} (f : A → A) (k : Z) (m : gmap Z A) :
  m !! k = None → alter f k m = m.
Proof.
  intros Hk. apply map_eq. intros i. rewrite lookup_alter.
  case_decide as E; [|done]. subst i. by rewrite Hk.
Qed.

Lemma alter_alter {A} (f g : A → A) (k : Z) (m : gmap Z A) :
  alter f k (alter g k m) = alter (f ∘ g) k m.
Proof.
  apply map_eq. intros i. destruct (decide (k = i)) as [->|Hne].
  - rewrite !lookup_alter_eq. by destruct (m !! i).
  - by rewrite !lookup_alter_ne.
Qed.

Lemma check_roll c u us :
  (checkAndResetDailySwipes c u us).1 = alter (roll c) u us.
Proof.
  destruct (us !! u) as [p|] eqn:Hp.
  - destruct (decide (lastResetDate (tzOffset c) p = Some (today c))) as [E|E].
    + rewrite (check_same_day c u us p Hp E). symmetry.
      apply (alter_fix _ _ _ p Hp). unfold roll. by rewrite decide_True.
    + rewrite (check_new_day c u us p Hp E). simpl.
      apply map_eq. intros i. destruct (decide (u = i)) as [<-|Hne].
      * rewrite !lookup_alter_eq, Hp. simpl. unfold roll. by rewrite decide_False.
      * by rewrite !lookup_alter_ne.
  - rewrite (check_none c u us Hp). by rewrite alter_missing.
Qed.

Lemma getAvailableSwipes_roll c u us :
  (getAvailableSwipes c u us).1 = alter (roll c) u us.
Proof.
  destruct (us !! u) as [p|] eqn:Hp.
  - rewrite (getAvailableSwipes_eq c u us p Hp). simpl. apply check_roll.
  - rewrite (getAvailableSwipes_none c u us Hp). by rewrite alter_missing.
Qed.

Lemma roll_idem c p : roll c (roll c p) = roll c p.
Proof.
  unfold roll at 2. case_decide as E.
  - unfold roll. by rewrite decide_True.
  - unfold roll.
    rewrite (decide_False (P := lastResetDate _ p = _)) by done.
    case_decide; [done|]. by destruct p.
Qed.

Lemma roll_social c p :
  likes (roll c p) = likes p ∧ matches (roll c p) = matches p
  ∧ recentLikes (roll c p) = recentLikes p
  ∧ gender (roll c p) = gender p ∧ looking (roll c p) = looking p
  ∧ purchasedSwipes (roll c p) = purchasedSwipes p.
Proof. unfold roll. case_decide; done. Qed.

Lemma roll_same_day c p :
  lastResetDate (tzOffset c) p = Some (today c) → roll c p = p.
Proof. intros E. unfold roll. by rewrite decide_True. Qed.

(** ** What [showCandidate] does to the collections *)

Lemma showCandidateN_users n c u st :
  users (showCandidateN n c u st).1
  = match n with O => users st | S _ => alter (roll c) u (users st) end
  ∧ deletionReasons (showCandidateN n c u st).1 = deletionReasons st.
Proof.
  revert st. induction n as [|n IH]; intros st; [done|].
  assert (∀ ss, users (showCandidateN n c u
                         (mkState (alter (roll c) u (users st))
                                  (deletionReasons st) ss)).1
                = alter (roll c) u (users st)
                ∧ deletionReasons (showCandidateN n c u
                         (mkState (alter (roll c) u (users st))
                                  (deletionReasons st) ss)).1
                  = deletionReasons st) as Hre.
  { intros ss. destruct (IH (mkState (alter (roll c) u (users st))
                               (deletionReasons st) ss)) as [Hu Hd].
    split; [|done]. rewrite Hu. destruct n; [done|]. simpl.
    rewrite alter_alter. apply map_eq. intros i.
    destruct (decide (u = i)) as [<-|Hne]; [|by rewrite !lookup_alter_ne].
    rewrite !lookup_alter_eq. destruct (users st !! u); [|done]. simpl.
    by rewrite roll_idem. }
  simpl. unfold showCandidateBody.
  destruct (users st !! u) as [p|] eqn:Hp.
  2:{ simpl. by rewrite alter_missing. }
  pose proof (getAvailableSwipes_roll c u (users st)) as Hroll.
  destruct (getAvailableSwipes c u (users st)) as [us1 av]. simpl in Hroll.
  subst us1. case_bool_decide; [done|].
  destruct (refillQueue _ _ _) as [[ss out]|ss]; [done|].
  repeat (case_match; simpl; try done; try apply Hre).
Qed.

(** ** Re-entries of [showCandidate] are bounded *)

Lemma buildCandidateQueue_some us u me ex ss :
  us !! u = Some me →
  ∃ ex' s', (buildCandidateQueue us u ex ss).2
            = Some (sortById (candidatesFor us u me ex' s')).
Proof.
  intros Hu. destruct ex.
  - destruct (decide (strictCandidates us u me true (session ss u) = []
                      ∧ shown (session ss u) ≠ [])) as [[Hnil Hsh]|Hkeep].
    + rewrite (buildCandidateQueue_true_reset us u me ss Hu Hnil Hsh). eauto.
    + rewrite (buildCandidateQueue_true_keep us u me ss Hu); [eauto|].
      destruct (decide (strictCandidates us u me true (session ss u) = []));
        [right|by left].
      destruct (shown (session ss u)) eqn:E; [done|]. naive_solver.
  - rewrite (buildCandidateQueue_false us u me ss Hu). eauto.
Qed.

Lemma session_rebuildQueue us u ex ss :
  queue (session (rebuildQueue us u ex ss) u)
  = (buildCandidateQueue us u ex ss).2.
Proof.
  unfold rebuildQueue. destruct (buildCandidateQueue us u ex ss) as [ss1 q].
  by rewrite session_setSession.
Qed.

Lemma rebuildQueue_valid us u ex ss :
  validQueue (session (rebuildQueue us u ex ss) u).
Proof.
  unfold validQueue. rewrite session_rebuildQueue.
  destruct (us !! u) as [me|] eqn:Hu.
  - destruct (buildCandidateQueue_some us u me ex ss Hu) as (ex' & s' & ->).
    apply Forall_forall. intros v Hv.
    by apply elem_of_sortById_candidatesFor in Hv as [? _].
  - by rewrite buildCandidateQueue_none.
Qed.

Lemma queueEmpty_false s :
  queueEmpty s = false ↔ ∃ t rest, queue s = Some (t :: rest).
Proof.
  unfold queueEmpty. destruct (queue s) as [[|t rest]|]; naive_solver.
Qed.

Lemma refillQueue_inr us u ss ss' :
  validQueue (session ss u) → refillQueue us u ss = inr ss' →
  queueEmpty (session ss' u) = false ∧ validQueue (session ss' u).
Proof.
  intros Hv. unfold refillQueue.
  destruct (queueEmpty (session ss u)) eqn:Hq; [|naive_solver].
  case_bool_decide; [|done].
  set (ss1 := if bool_decide (shown (session ss u) ≠ []) then _ else _).
  destruct (queueEmpty (session (rebuildQueue us u true ss1) u)) eqn:Hq2.
  - destruct (queueEmpty (session (rebuildQueue us u false _) u)) eqn:Hq3; [done|].
    intros [= <-]. split; [done|]. apply rebuildQueue_valid.
  - rewrite Hq2. intros [= <-]. split; [done|]. apply rebuildQueue_valid.
Qed.

(** With ids in the queue the body never re-enters. *)
Lemma showCandidateBody_valid r1 r2 c u st :
  validQueue (session (sessions st) u) →
  showCandidateBody r1 c u st = showCandidateBody r2 c u st
  ∧ ORetry ∉ (showCandidateBody r1 c u st).2.
Proof.
  intros Hv. unfold showCandidateBody.
  destruct (users st !! u); [|by split; [|set_solver]].
  destruct (getAvailableSwipes c u (users st)) as [us1 av].
  case_bool_decide; [by split; [|set_solver]|].
  destruct (refillQueue us1 u (getSession u (sessions st)))
    as [[ss out]|ss] eqn:Hre.
  - split; [done|]. simpl. unfold refillQueue in Hre.
    repeat case_match; simplify_eq; set_solver.
  - apply refillQueue_inr in Hre as [Hne Hv']; [|by rewrite session_getSession].
    rewrite Hne. apply queueEmpty_false in Hne as (t & rest & Hq).
    rewrite Hq. unfold validQueue in Hv'. rewrite Hq in Hv'.
    apply Forall_cons in Hv' as [Ht _].
    rewrite bool_decide_eq_false_2 by done. split; [done|set_solver].
Qed.

Lemma showCandidateBody_stable r1 r2 c u st :
  (∀ st', validQueue (session (sessions st') u) →
          r1 st' = r2 st' ∧ ORetry ∉ (r1 st').2) →
  showCandidateBody r1 c u st = showCandidateBody r2 c u st
  ∧ ORetry ∉ (showCandidateBody r1 c u st).2.
Proof.
  intros Hr. unfold showCandidateBody.
  destruct (users st !! u); [|by split; [|set_solver]].
  destruct (getAvailableSwipes c u (users st)) as [us1 av].
  case_bool_decide; [by split; [|set_solver]|].
  assert (∀ ex ss,
    r1 (mkState us1 (deletionReasons st) (rebuildQueue us1 u ex ss))
    = r2 (mkState us1 (deletionReasons st) (rebuildQueue us1 u ex ss))
    ∧ ORetry ∉ (r1 (mkState us1 (deletionReasons st)
                      (rebuildQueue us1 u ex ss))).2) as Hre.
  { intros ex ss. apply Hr. simpl. apply rebuildQueue_valid. }
  destruct (refillQueue us1 u (getSession u (sessions st)))
    as [[ss out]|ss] eqn:Hrf.
  - split; [done|]. simpl. unfold refillQueue in Hrf.
    repeat case_match; simplify_eq; set_solver.
  - repeat (case_match; try apply Hre; try (split; [done|set_solver])).
Qed.

(** Enough fuel: every bound from 2 on gives the result of [showCandidate],
    and that result is never the cut-off re-entry. *)
Lemma showCandidateN_stable n c u st :
  (2 ≤ n)%nat →
  showCandidateN n c u st = showCandidate c u st
  ∧ ORetry ∉ (showCandidate c u st).2.
Proof.
  intros Hn. destruct n as [|[|m]]; [lia..|].
  assert (showCandidateBody (showCandidateN (S m) c u) c u st
          = showCandidateBody (showCandidateN 1 c u) c u st
          ∧ ORetry ∉ (showCandidateBody (showCandidateN (S m) c u) c u st).2)
    as [Heq Hno].
  { apply showCandidateBody_stable. intros st' Hv. simpl.
    apply (showCandidateBody_valid _ _ c u st' Hv). }
  change (showCandidateN (S (S m)) c u st)
    with (showCandidateBody (showCandidateN (S m) c u) c u st).
  change (showCandidate c u st)
    with (showCandidateBody (showCandidateN 1 c u) c u st).
  split; [done|]. by rewrite <- Heq.
Qed.

(** ** The rate-limit gate *)

Lemma with_users_id st : with_users (users st) st = st.
Proof. by destruct st. Qed.

Lemma with_sessions_id st : with_sessions (sessions st) st = st.
Proof. by destruct st. Qed.

(** A zero total leaves the store as it is: the day has not rolled over
    (that would give 20 free swipes) and nothing is written. *)
Lemma limit_reached c u us p :
  us !! u = Some p → 0 ≤ purchasedSwipes p →
  total (getAvailableSwipes c u us).2 = 0 →
  (getAvailableSwipes c u us).1 = us
  ∧ bool_decide (total (getAvailableSwipes c u us).2 ≤ 0) = true.
Proof.
  intros Hp Hpur Htot. split; [|apply bool_decide_eq_true_2; lia].
  rewrite (getAvailableSwipes_eq c u us p Hp) in Htot |- *. simpl in *.
  destruct (decide (lastResetDate (tzOffset c) p = Some (today c))) as [E|E].
  - by rewrite (check_same_day c u us p Hp E).
  - rewrite (check_new_day c u us p Hp E) in Htot. simpl in Htot. lia.
Qed.

Lemma size_two us u v p :
  us !! u = Some p → otherUser us u v → (1 < size us)%nat.
Proof.
  intros Hp (_ & Hne & Hv).
  assert (size (delete u us) ≠ 0%nat) as Hd.
  { apply (map_size_ne_0_lookup_2 _ v). by rewrite lookup_delete_ne. }
  rewrite map_size_delete, Hp in Hd. simpl in Hd. lia.
Qed.

Lemma rebuildQueue_nonempty us u me ex ss :
  us !! u = Some me → (∃ v, otherUser us u v) →
  queueEmpty (session (rebuildQueue us u ex ss) u) = false.
Proof.
  intros Hu Hv.
  destruct (buildCandidateQueue_spec us u me ex ss Hu) as (q & Hq & _ & Hnil & _).
  unfold queueEmpty. rewrite session_rebuildQueue, Hq.
  destruct q; [|done]. naive_solver.
Qed.

Lemma showCandidate_limit c u st p :
  users st !! u = Some p → 0 ≤ purchasedSwipes p →
  total (getAvailableSwipes c u (users st)).2 = 0 →
  showCandidate c u st = (st, [OPurchaseOffer]).
Proof.
  intros Hp Hpur Htot.
  destruct (limit_reached c u (users st) p Hp Hpur Htot) as [Hus Hgate].
  unfold showCandidate. simpl. unfold showCandidateBody. rewrite Hp.
  destruct (getAvailableSwipes c u (users st)) as [us1 av].
    simpl in Hus, Hgate.
  rewrite Hgate. subst us1. by rewrite with_users_id.
Qed.

(** A rebuild adds nothing to the shown-set: it keeps it or empties it. *)
Lemma shown_rebuild us u ex ss :
  shown (session (rebuildQueue us u ex ss) u) = shown (session ss u)
  ∨ shown (session (rebuildQueue us u ex ss) u) = [].
Proof.
  unfold rebuildQueue.
  destruct (us !! u) as [me|] eqn:Hu.
  2:{ rewrite buildCandidateQueue_none by done. rewrite session_setSession. by left. }
  destruct ex.
  - destruct (decide (strictCandidates us u me true (session ss u) = []
                      ∧ shown (session ss u) ≠ [])) as [[Hnil Hsh]|Hkeep].
    + rewrite (buildCandidateQueue_true_reset us u me ss Hu Hnil Hsh).
      rewrite !session_setSession. by right.
    + rewrite (buildCandidateQueue_true_keep us u me ss Hu).
      * rewrite session_setSession, session_getSession. by left.
      * destruct (decide (strictCandidates us u me true (session ss u) = []));
          [right|by left].
        destruct (shown (session ss u)) eqn:E; [done|]. naive_solver.
  - rewrite (buildCandidateQueue_false us u me ss Hu).
    rewrite session_setSession, session_getSession. by left.
Qed.

Lemma showNext_limit c u st p :
  users st !! u = Some p → 0 ≤ purchasedSwipes p →
  total (getAvailableSwipes c u (users st)).2 = 0 →
  users (showNext c u st).1 = users st
  ∧ deletionReasons (showNext c u st).1 = deletionReasons st
  ∧ ((showNext c u st).2 = [ONoOthers] ∨ (showNext c u st).2 = [ONoNewPeople]
     ∨ (showNext c u st).2 = [OPurchaseOffer])
  ∧ ((∃ v, otherUser (users st) u v) → (showNext c u st).2 = [OPurchaseOffer])
  ∧ (queueEmpty (session (sessions st) u) = false →
     lastPreference (session (sessions st) u) = Some (default men (looking p)) →
     (1 < size (users st))%nat →
     showNext c u st
     = (with_sessions (getSession u (sessions st)) st, [OPurchaseOffer]))
  ∧ (shown (session (sessions (showNext c u st).1) u)
     = shown (session (sessions st) u)
     ∨ shown (session (sessions (showNext c u st).1) u) = []).
Proof.
  intros Hp Hpur Htot.
  destruct (limit_reached c u (users st) p Hp Hpur Htot) as [Hus Hgate].
  unfold showNext. rewrite Hp.
  destruct (getAvailableSwipes c u (users st)) as [us1 av].
    simpl in Hus, Hgate.
  rewrite Hgate. subst us1.
  set (ss1 := if decide (lastPreference _ = _) then _ else _).
  set (ss2 := if queueEmpty (session ss1 u) then _ else ss1).
  set (ss3 := if queueEmpty (session ss2 u) then _ else ss2).
  assert (∀ ss ex,
    shown (session ss u) = shown (session (sessions st) u)
    ∨ shown (session ss u) = [] →
    shown (session (rebuildQueue (users st) u ex ss) u)
    = shown (session (sessions st) u)
    ∨ shown (session (rebuildQueue (users st) u ex ss) u) = []) as Hrb.
  { intros ss ex Hss. destruct (shown_rebuild (users st) u ex ss) as [->| ->];
      [done|by right]. }
  assert (∀ ss ex,
    shown (session (rebuildQueue (users st) u ex
                      (setSession u (with_shown []) ss)) u)
    = shown (session (sessions st) u)
    ∨ shown (session (rebuildQueue (users st) u ex
                        (setSession u (with_shown []) ss)) u) = []) as Hrb0.
  { intros ss ex. apply Hrb. right. by rewrite session_setSession. }
  assert (shown (session ss1 u) = shown (session (sessions st) u)
          ∨ shown (session ss1 u) = []) as H1.
  { subst ss1. destruct (decide _).
    - left. by rewrite session_getSession.
    - right. by rewrite session_setSession. }
  assert (shown (session ss2 u) = shown (session (sessions st) u)
          ∨ shown (session ss2 u) = []) as H2.
  { subst ss2. repeat case_match; auto. }
  assert (shown (session ss3 u) = shown (session (sessions st) u)
          ∨ shown (session ss3 u) = []) as H3.
  { subst ss3. repeat case_match; auto. }
  split_and!; [..|clearbody ss3 ss2 ss1; repeat case_match; done].
  - repeat case_match; done.
  - repeat case_match; done.
  - repeat case_match; simpl; auto.
  - intros [v Hv]. pose proof (size_two _ _ _ _ Hp Hv) as Hsz.
    rewrite bool_decide_eq_false_2 by lia.
    assert (queueEmpty (session ss3 u) = false) as ->; [|done].
    subst ss3. destruct (queueEmpty (session ss2 u)) eqn:E; [|done].
    rewrite (rebuildQueue_nonempty _ _ p) by eauto.
    by apply (rebuildQueue_nonempty _ _ p); eauto.
  - intros Hq Hpref Hsz.
    assert (ss1 = getSession u (sessions st)) as E1.
    { subst ss1. rewrite session_getSession. by rewrite decide_True. }
    assert (ss2 = ss1) as E2.
    { subst ss2. by rewrite E1, session_getSession, Hq. }
    assert (ss3 = ss2) as E3.
    { subst ss3. by rewrite E2, E1, session_getSession, Hq. }
    rewrite bool_decide_eq_false_2 by lia.
    rewrite E3, E2, E1, session_getSession, Hq. by destruct st.
Qed.

(** C9 (as amended).  For a user with a profile (and a credit balance
    that is not negative) whose available total is zero:
    [showCandidate], skip and the message button answer with the
    purchase offer and change nothing; like does so when the target has a
    profile, and otherwise answers "user not found", rebuilds the queue and
    sends the purchase offer only if the rebuilt queue is not empty; and
    [showNext] (the [/match] command) leaves both collections
    untouched, presents no candidate and adds nothing to the shown-set,
    answering with the purchase offer once its population and empty-queue
    checks have passed, which any other valid profile guarantees. *)
Theorem limit_gate c u st p :
  users st !! u = Some p → 0 ≤ purchasedSwipes p →
  total (getAvailableSwipes c u (users st)).2 = 0 →
  showCandidate c u st = (st, [OPurchaseOffer])
  ∧ onSkip c u st = (st, [OSkipped; OPurchaseOffer])
  ∧ (∀ t, onMessage c u t st = (st, [OPurchaseOffer]))
  ∧ (∀ t, is_Some (users st !! t) → onLike c u t st = (st, [OPurchaseOffer]))
  ∧ (∀ t, users st !! t = None →
          let ss := rebuildQueue (users st) u true
                      (getSession u (sessions st)) in
          onLike c u t st
          = (with_sessions ss st,
             if queueEmpty (session ss u) then [OUserNotFound]
             else [OUserNotFound; OPurchaseOffer]))
  ∧ users (showNext c u st).1 = users st
  ∧ (∀ t, OCandidate t ∉ (showNext c u st).2)
  ∧ ((∃ v, otherUser (users st) u v) → (showNext c u st).2 = [OPurchaseOffer])
  ∧ (shown (session (sessions (showNext c u st).1) u)
     = shown (session (sessions st) u)
     ∨ shown (session (sessions (showNext c u st).1) u) = [])
  ∧ (queueEmpty (session (sessions st) u) = false →
     lastPreference (session (sessions st) u) = Some (default men (looking p)) →
     (1 < size (users st))%nat →
     showNext c u st
     = (with_sessions (getSession u (sessions st)) st, [OPurchaseOffer])).
Proof.
  intros Hp Hpur Htot.
  destruct (limit_reached c u (users st) p Hp Hpur Htot) as [Hus Hgate].
  destruct (showNext_limit c u st p Hp Hpur Htot)
    as (Hn1 & _ & Hn2 & Hn3 & Hn4 & Hn5).
  split_and!; [by eapply showCandidate_limit| | | | |done| |done|done|done].
  - unfold onSkip. rewrite Hp.
    destruct (getAvailableSwipes c u (users st)) as [us1 av].
    simpl in Hus, Hgate.
    rewrite Hgate. subst us1. by rewrite with_users_id.
  - intros t. unfold onMessage. rewrite Hp.
    destruct (getAvailableSwipes c u (users st)) as [us1 av].
    simpl in Hus, Hgate.
    rewrite Hgate. subst us1. by rewrite with_users_id.
  - intros t [q Hq]. unfold onLike. rewrite Hp, Hq.
    destruct (getAvailableSwipes c u (users st)) as [us1 av].
    simpl in Hus, Hgate.
    rewrite Hgate. subst us1. by rewrite with_users_id.
  - intros t Ht ss. unfold onLike. rewrite Hp, Ht. fold ss.
    destruct (queueEmpty (session ss u)); [done|].
    unfold thenShow.
    by rewrite (showCandidate_limit c u (with_sessions ss st) p).
  - intros t Hin. destruct Hn2 as [E|[E|E]]; rewrite E in Hin; set_solver.
Qed.

Lemma limit_gate_witness :
  users aloneState !! 1 = Some exhaustedUser
  ∧ 0 ≤ purchasedSwipes exhaustedUser
  ∧ total (getAvailableSwipes noon 1 (users aloneState)).2 = 0
  ∧ onSkip noon 1 aloneState = (aloneState, [OSkipped; OPurchaseOffer]).
Proof.
  assert (users aloneState !! 1 = Some exhaustedUser) as Hp by reflexivity.
  assert (0 ≤ purchasedSwipes exhaustedUser) as Hpur by (simpl; lia).
  assert (total (getAvailableSwipes noon 1 (users aloneState)).2 = 0) as Htot
    by (vm_compute; reflexivity).
  split_and!; [exact Hp|exact Hpur|exact Htot|].
  exact (proj1 (proj2 (limit_gate noon 1 aloneState exhaustedUser Hp Hpur Htot))).
Defined.

(** C9 as stated fails: with a zero total, [/match] in a store that holds
    no other profile answers "no other people", and a like whose target
    has no profile answers "user not found" after rebuilding the queue;
    neither sends the purchase offer. *)
Lemma limit_gate_counterexample :
  users aloneState !! 1 = Some exhaustedUser
  ∧ total (getAvailableSwipes noon 1 (users aloneState)).2 = 0
  ∧ showNext noon 1 aloneState
    = (with_sessions
         {[ 1 := mkSession (Some []) [] (Some women) false None None ]}
         aloneState, [ONoOthers])
  ∧ onLike noon 1 2 aloneState
    = (with_sessions {[ 1 := newSession ]} aloneState, [OUserNotFound]).
Proof. vm_compute. done. Qed.

(** ** Skip *)

Lemma thenShow_users c u out st :
  users (thenShow c u out st).1 = alter (roll c) u (users st)
  ∧ deletionReasons (thenShow c u out st).1 = deletionReasons st.
Proof.
  unfold thenShow.
  pose proof (showCandidateN_users 2 c u st) as H. fold showCandidate in H.
  by destruct (showCandidate c u st).
Qed.

Lemma alter_roll_idem c u (us : gmap Z User) :
  alter (roll c) u (alter (roll c) u us) = alter (roll c) u us.
Proof.
  rewrite alter_alter. apply map_eq. intros i.
  destruct (decide (u = i)) as [<-|Hne]; [|by rewrite !lookup_alter_ne].
  rewrite !lookup_alter_eq. destruct (us !! u); [|done]. simpl.
  by rewrite roll_idem.
Qed.

Lemma showCaught_users c u out st :
  users (showCaught c u out st).1 = alter (roll c) u (users st)
  ∧ deletionReasons (showCaught c u out st).1 = deletionReasons st.
Proof.
  unfold showCaught.
  pose proof (showCandidateN_users 2 c u st) as H. fold showCandidate in H.
  destruct (showCandidate c u st) as [st1 out1]. simpl in H. destruct H as [Hu Hd].
  case_bool_decide; [|done]. case_match; [done|].
  destruct (thenShow_users c u (out ++ out1)
              (with_sessions (rebuildQueue (users st1) u true (sessions st1)) st1))
    as [-> ->].
  simpl. by rewrite Hu, alter_roll_idem.
Qed.

Lemma alter_insert_eq (f : User → User) (u : Z) (us : gmap Z User) p :
  us !! u = Some p → alter f u us = <[u := f p]> us.
Proof.
  intros Hp. apply map_eq. intros i. destruct (decide (u = i)) as [<-|Hne].
  - by rewrite lookup_alter_eq, lookup_insert_eq, Hp.
  - by rewrite lookup_alter_ne, lookup_insert_ne.
Qed.

(** C2 (as amended).  For a user with a profile whose last reset is on the
    current calendar day, a skip with [purchasedSwipes > 0] decrements
    [purchasedSwipes] by one and leaves everything else, [dailySwipes]
    included, as it was; with [purchasedSwipes = 0] and fewer than 20 daily
    swipes used it increments [dailySwipes] by one and leaves everything
    else as it was; with [purchasedSwipes = 0] and 20 or more daily swipes
    used it is answered with the purchase offer and changes nothing. *)
Theorem skip_consumes_one c u st p :
  users st !! u = Some p → lastResetDate (tzOffset c) p = Some (today c) →
  (0 < purchasedSwipes p →
   users (onSkip c u st).1
   = <[u := with_purchasedSwipes (purchasedSwipes p - 1) p]> (users st))
  ∧ (purchasedSwipes p = 0 → dailySwipes p < 20 →
     users (onSkip c u st).1
     = <[u := with_dailySwipes (dailySwipes p + 1) p]> (users st))
  ∧ (purchasedSwipes p = 0 → 20 ≤ dailySwipes p →
     onSkip c u st = (st, [OSkipped; OPurchaseOffer])).
Proof.
  intros Hp Hday.
  assert (getAvailableSwipes c u (users st)
          = (users st,
             let free := Z.max 0 (20 - dailySwipes p) in
             mkSwipes free (purchasedSwipes p) (free + purchasedSwipes p))) as Hav.
  { rewrite (getAvailableSwipes_eq c u _ p Hp).
    by rewrite (check_same_day c u _ p Hp Hday). }
  split_and!.
  - intros Hpur. unfold onSkip. rewrite Hp, Hav. cbv zeta. simpl total.
    rewrite bool_decide_eq_false_2 by lia.
    rewrite bool_decide_eq_true_2 by done.
    destruct (showCaught_users c u [OSkipped]
      (mkState (alter (λ p0, with_purchasedSwipes (purchasedSwipes p0 - 1) p0)
                  u (users st)) (deletionReasons st)
         (setSession u clearMessageStep (getSession u (sessions st)))))
      as [-> _].
    simpl. rewrite alter_alter. rewrite (alter_insert_eq _ _ _ p Hp). simpl.
    by rewrite roll_same_day.
  - intros Hpur Hd. unfold onSkip. rewrite Hp, Hav. cbv zeta. simpl total.
    rewrite bool_decide_eq_false_2 by lia.
    rewrite bool_decide_eq_false_2 by lia.
    destruct (showCaught_users c u [OSkipped]
      (mkState (incrementDailySwipes c u (users st)).1 (deletionReasons st)
         (setSession u clearMessageStep (getSession u (sessions st)))))
      as [-> _].
    simpl. rewrite (check_same_day c u _ p Hp Hday). simpl.
    rewrite alter_alter. rewrite (alter_insert_eq _ _ _ p Hp). simpl.
    by rewrite roll_same_day.
  - intros Hpur Hd. unfold onSkip. rewrite Hp, Hav. cbv zeta. simpl total.
    rewrite bool_decide_eq_true_2 by lia. by rewrite with_users_id.
Qed.

(** The specification's example: 5 purchased credits, no daily swipe used. *)
Lemma skip_consumes_one_witness :
  ({[ 1 := richUser ]} : gmap Z User) !! 1 = Some richUser
  ∧ lastResetDate 0 richUser = Some (today noon)
  ∧ users (onSkip noon 1 (mkState {[ 1 := richUser ]} [] ∅)).1
    = {[ 1 := mkUser (Some male) (Some women) [] [] [] 0 (Some 1700000000000) 4 ]}.
Proof.
  assert (({[ 1 := richUser ]} : gmap Z User) !! 1 = Some richUser) as Hp
    by reflexivity.
  assert (lastResetDate 0 richUser = Some (today noon)) as Hday
    by (vm_compute; reflexivity).
  split_and!; [exact Hp|exact Hday|].
  rewrite (proj1 (skip_consumes_one noon 1 (mkState {[ 1 := richUser ]} [] ∅)
                    richUser Hp Hday)) by (simpl; lia).
  vm_compute. reflexivity.
Defined.

(** C2 as stated fails at the limit: with no purchased credits and 20 daily
    swipes used, a skip is answered with the purchase offer and the daily
    counter stays at 20. *)
Lemma skip_consumes_one_counterexample :
  users aloneState !! 1 = Some exhaustedUser
  ∧ lastResetDate 0 exhaustedUser = Some (today noon)
  ∧ purchasedSwipes exhaustedUser = 0
  ∧ dailySwipes <$> users (onSkip noon 1 aloneState).1 !! 1 = Some 20
  ∧ dailySwipes <$> users (onSkip noon 1 aloneState).1 !! 1
    ≠ Some (dailySwipes exhaustedUser + 1).
Proof. vm_compute. split_and!; done. Qed.

(** ** Sending a message *)

(** C1 fails on the code.  User 1 is waiting to write to user 2 and sends
    "hi": the like is recorded and the message forwarded, but no swipe is
    consumed.  Without purchased credits [dailySwipes] stays at 3 (the
    specification: 4), and with 5 purchased credits [purchasedSwipes] stays
    at 5 (the specification: 4). *)
Theorem message_send_consumes_no_swipe :
  step (session (sessions (chatState 0)) 1) = Some 2
  ∧ users (onText noon 1 hi true (chatState 0)).1 !! 1
    = Some (mkUser (Some male) (Some women) [2] [] [] 3 (Some 1700000000000) 0)
  ∧ users (onText noon 1 hi true (chatState 5)).1 !! 1
    = Some (mkUser (Some male) (Some women) [2] [] [] 3 (Some 1700000000000) 5)
  ∧ (onText noon 1 hi true (chatState 0)).2
    = [ONotifyLike 2; OForward 2 hi; OMessageSent false; OCandidate 2].
Proof. vm_compute. split_and!; reflexivity. Qed.

(** ** Deleting an account *)

Lemma not_elem_of_purged (u : Z) (l : list Z) : u ∉ filter (λ id, id ≠ u) l.
Proof. rewrite list_elem_of_filter. naive_solver. Qed.

(** C7 (as amended).  For a user X with a profile who has issued the delete
    command, the next text message that is not a command (does not start
    with "/") is persisted, trimmed, as the deletion reason; X is removed
    from the [likes], [matches] and [recentLikes] of every other profile,
    X's own profile is deleted, and X's entry is removed from the session
    map.  A text that starts with "/" is left to the command handlers and
    changes nothing: the deletion stays pending. *)
Theorem delete_purges c u text ok st p :
  users st !! u = Some p →
  let st1 := (onDeleteCommand u st).1 in
  let st2 := (onText c u text ok st1).1 in
  waitingForDeletionReason (session (sessions st1) u) = true
  ∧ (isCommand text = true → onText c u text ok st1 = (st1, []))
  ∧ (isCommand text = false →
     deletionReasons st2 = deletionReasons st ++ [mkReason u (trim text) (now c)]
     ∧ users st2 !! u = None
     ∧ (∀ v, v ≠ u → users st2 !! v = purge u <$> users st !! v)
     ∧ (∀ v q, users st2 !! v = Some q →
               (u ∉ likes q) ∧ (u ∉ matches q) ∧ (u ∉ recentLikes q))
     ∧ sessions st2 !! u = None).
Proof.
  intros Hp st1 st2. subst st2 st1.
  unfold onDeleteCommand. rewrite Hp. simpl.
  split; [by rewrite session_setSession|]. split.
  { intros Hcmd. unfold onText. rewrite Hcmd. simpl.
    by rewrite getSession_setSession. }
  intros Hcmd. unfold onText. rewrite Hcmd. simpl.
  rewrite !session_getSession, !session_setSession. simpl.
  unfold deleteAccount. simpl. rewrite Hp. simpl.
  assert (∀ v, v ≠ u →
    delete u (map_imap (λ id p0, Some (if decide (id = u) then p0 else purge u p0))
                (users st)) !! v = purge u <$> users st !! v) as Hother.
  { intros v Hv. rewrite lookup_delete_ne by done. rewrite map_lookup_imap.
    destruct (users st !! v); [|done]. simpl. by rewrite decide_False. }
  split_and!; [done|apply lookup_delete_eq|done| |apply lookup_delete_eq].
  intros v q Hq. destruct (decide (v = u)) as [->|Hv].
  - by rewrite lookup_delete_eq in Hq.
  - rewrite Hother in Hq by done.
    destruct (users st !! v) as [q0|]; [|done]. simpl in Hq.
    injection Hq as <-. simpl. split_and!; apply not_elem_of_purged.
Qed.

Lemma delete_purges_witness :
  users leavingState !! 1 = Some sampleUser
  ∧ isCommand bye = false
  ∧ deletionReasons (onText noon 1 bye true (onDeleteCommand 1 leavingState).1).1
    = [] ++ [mkReason 1 (trim bye) (now noon)]
  ∧ users (onText noon 1 bye true (onDeleteCommand 1 leavingState).1).1 !! 1 = None
  ∧ sessions (onText noon 1 bye true (onDeleteCommand 1 leavingState).1).1 !! 1
    = None.
Proof.
  assert (users leavingState !! 1 = Some sampleUser) as Hp by reflexivity.
  assert (isCommand bye = false) as Hcmd by reflexivity.
  destruct (delete_purges noon 1 bye true leavingState sampleUser Hp)
    as (_ & _ & Hdel).
  destruct (Hdel Hcmd) as (Hreason & Hgone & _ & _ & Hsession).
  split_and!; [exact Hp|exact Hcmd|exact Hreason|exact Hgone|exact Hsession].
Defined.

(** The same run, evaluated: the reason is stored trimmed, user 1 is gone
    from the store, from the arrays of user 2 and from the session map. *)
Example delete_run :
  (onText noon 1 bye true (onDeleteCommand 1 leavingState).1).1
  = mkState
      {[ 2 := mkUser (Some female) (Some men) [] [] [3] 0 (Some 1700000000000) 0 ]}
      [mkReason 1 [98; 121; 101]%N 1700000000000] ∅.
Proof. vm_compute. reflexivity. Qed.

(** C7 as stated fails for a text message that is a command: after the
    delete command, "/help" is passed on to the command handlers; no reason
    is stored, the profile stays, and the session still waits. *)
Lemma delete_purges_counterexample :
  users leavingState !! 1 = Some sampleUser
  ∧ onText noon 1 slashHelp true (onDeleteCommand 1 leavingState).1
    = (mkState {[ 1 := sampleUser; 2 := admirer ]} []
         {[ 1 := mkSession (Some []) [] None true None None ]}, []).
Proof. vm_compute. split; reflexivity. Qed.

(** ** Match symmetry *)

Lemma sameMatches_refl us : sameMatches us us.
Proof. done. Qed.

Lemma sameMatches_trans us1 us2 us3 :
  sameMatches us1 us2 → sameMatches us2 us3 → sameMatches us1 us3.
Proof. intros H1 H2 k. by rewrite H1. Qed.

Lemma matchSymmetric_same us' us :
  sameMatches us' us → matchSymmetric us → matchSymmetric us'.
Proof.
  intros Hs Hsym a b pa' pb' Ha Hb.
  pose proof (Hs a) as Ea. pose proof (Hs b) as Eb. rewrite Ha in Ea.
  rewrite Hb in Eb. destruct (us !! a) as [pa|] eqn:Ha'; [|done].
  destruct (us !! b) as [pb|] eqn:Hb'; [|done]. simpl in *.
  injection Ea as ->. injection Eb as ->. by apply Hsym.
Qed.

Lemma lookup_alter_fmap (f : User → User) (a k : Z) (m : gmap Z User) :
  alter f a m !! k = (if decide (a = k) then f else id) <$> m !! k.
Proof.
  rewrite lookup_alter. case_decide; [by subst|]. by rewrite option_fmap_id.
Qed.

Lemma sameMatches_alter f a us :
  (∀ p, matches (f p) = matches p) → sameMatches (alter f a us) us.
Proof.
  intros Hf k. rewrite lookup_alter_fmap. destruct (us !! k); [|done].
  simpl. case_decide; [|done]. by rewrite Hf.
Qed.

Lemma sameMatches_roll c u us : sameMatches (alter (roll c) u us) us.
Proof. apply sameMatches_alter. intros p. apply roll_social. Qed.

Lemma sameMatches_getAvailableSwipes c u us :
  sameMatches (getAvailableSwipes c u us).1 us.
Proof. rewrite getAvailableSwipes_roll. apply sameMatches_roll. Qed.

Lemma sameMatches_increment c u us :
  sameMatches (incrementDailySwipes c u us).1 us.
Proof.
  unfold incrementDailySwipes. simpl. rewrite check_roll.
  eapply sameMatches_trans; [|apply sameMatches_roll].
  by apply sameMatches_alter.
Qed.

Lemma sameMatches_thenShow c u out st :
  sameMatches (users (thenShow c u out st).1) (users st).
Proof.
  destruct (thenShow_users c u out st) as [-> _]. apply sameMatches_roll.
Qed.

Lemma sameMatches_showNext c u st :
  sameMatches (users (showNext c u st).1) (users st).
Proof.
  unfold showNext. destruct (users st !! u); [|done].
  pose proof (sameMatches_getAvailableSwipes c u (users st)) as Hav.
  destruct (getAvailableSwipes c u (users st)) as [us1 av]. simpl in Hav.
  case_bool_decide; [done|]. case_match; [done|]. case_bool_decide; [done|].
  match goal with
  | |- sameMatches (users (showCandidate c u ?s).1) _ =>
      pose proof (showCandidateN_users 2 c u s) as [Hu _]
  end.
  fold showCandidate in Hu. rewrite Hu. simpl.
  eapply sameMatches_trans; [apply sameMatches_roll|done].
Qed.

Lemma sameMatches_onSkip c u st :
  sameMatches (users (onSkip c u st).1) (users st).
Proof.
  unfold onSkip. destruct (users st !! u); [|done].
  pose proof (sameMatches_getAvailableSwipes c u (users st)) as Hav.
  destruct (getAvailableSwipes c u (users st)) as [us1 av]. simpl in Hav.
  case_bool_decide; [done|].
  match goal with
  | |- sameMatches (users (showCaught c u ?o ?s).1) _ =>
      destruct (showCaught_users c u o s) as [-> _]
  end.
  eapply sameMatches_trans; [apply sameMatches_roll|]. simpl.
  case_bool_decide.
  - eapply sameMatches_trans; [|done]. by apply sameMatches_alter.
  - eapply sameMatches_trans; [apply sameMatches_increment|done].
Qed.

Lemma sameMatches_onMessage c u t st :
  sameMatches (users (onMessage c u t st).1) (users st).
Proof.
  unfold onMessage. destruct (users st !! u); [|done].
  pose proof (sameMatches_getAvailableSwipes c u (users st)) as Hav.
  destruct (getAvailableSwipes c u (users st)) as [us1 av]. simpl in Hav.
  case_bool_decide; [done|]. case_match; [done|].
  eapply sameMatches_trans; [apply sameMatches_thenShow|done].
Qed.

Lemma elem_of_pushNew (x y : Z) (l : list Z) : x ∈ pushNew y l ↔ x = y ∨ x ∈ l.
Proof.
  unfold pushNew. case_bool_decide.
  - naive_solver.
  - rewrite elem_of_app, list_elem_of_singleton. naive_solver.
Qed.

(** The [matches] arrays of the snapshot after a like has been recorded. *)
Lemma recordLike_matches u t us k p' :
  (recordLike u t us).1 !! k = Some p' →
  ∃ p, us !! k = Some p
       ∧ ∀ b, b ∈ matches p' ↔
              b ∈ matches p
              ∨ ((recordLike u t us).2 = true
                 ∧ ((k = u ∧ b = t) ∨ (k = t ∧ b = u))).
Proof.
  unfold recordLike. case_bool_decide as Hm; simpl.
  - rewrite !lookup_alter_fmap. destruct (us !! k) as [p|]; [|done].
    simpl. intros [= <-]. exists p. split; [done|]. intros b.
    repeat case_decide; subst; simpl; rewrite ?elem_of_pushNew; naive_solver.
  - rewrite !lookup_alter_fmap. destruct (us !! k) as [p|]; [|done].
    simpl. intros [= <-]. exists p. split; [done|]. intros b.
    repeat case_decide; subst; simpl; naive_solver.
Qed.

Lemma recordLike_other u t us k :
  k ≠ u → k ≠ t → (recordLike u t us).1 !! k = us !! k.
Proof.
  intros Hu Ht. unfold recordLike. case_bool_decide; simpl;
    rewrite !lookup_alter_ne by done; done.
Qed.

Lemma recordLike_is_Some u t us k :
  is_Some ((recordLike u t us).1 !! k) ↔ is_Some (us !! k).
Proof.
  unfold recordLike. case_bool_decide; simpl; rewrite !lookup_alter_fmap;
    rewrite ?fmap_is_Some; done.
Qed.

Lemma recordLike_no_match u t us :
  (recordLike u t us).2 = false → sameMatches (recordLike u t us).1 us.
Proof.
  intros Hno k. unfold recordLike in *. revert Hno.
  case_bool_decide; simpl; [done|]. intros _.
  rewrite !lookup_alter_fmap. destruct (us !! k); [|done]. simpl. f_equal.
  repeat case_decide; done.
Qed.

Lemma recordLike_symmetric u t us :
  matchSymmetric us → matchSymmetric (recordLike u t us).1.
Proof.
  intros Hsym a b pa' pb' Ha Hb.
  destruct (recordLike_matches u t us a pa' Ha) as (pa & Ha0 & Hma).
  destruct (recordLike_matches u t us b pb' Hb) as (pb & Hb0 & Hmb).
  rewrite Hma, Hmb, (Hsym a b pa pb Ha0 Hb0). naive_solver.
Qed.

(** The two [updateUserArrays] calls that end a like or a message. *)
Lemma sameMatches_saved loc1 us us2 u t su st fU fT :
  sameMatches us2 us →
  loc1 !! u = Some su → loc1 !! t = Some st →
  (∀ k, is_Some (loc1 !! k) ↔ is_Some (us !! k)) →
  (∀ k, k ≠ u → k ≠ t → loc1 !! k = us !! k) →
  (∀ src p, matches (fU src p) = matches src) →
  (∀ src p, matches (fT src p) = matches src)
  ∨ ((∀ src p, matches (fT src p) = matches p) ∧ sameMatches loc1 us) →
  sameMatches (saveFrom loc1 t fT (saveFrom loc1 u fU us2)) loc1.
Proof.
  intros Hs Hu Ht Hdom Hoth HfU HfT k. unfold saveFrom. rewrite Hu, Ht.
  rewrite !lookup_alter_fmap.
  assert (is_Some (loc1 !! k) → is_Some (us2 !! k)) as Hex.
  { intros Hk. apply Hdom in Hk. specialize (Hs k).
    destruct Hk as [p Hp]. rewrite Hp in Hs. destruct (us2 !! k); [by eexists|done]. }
  destruct (decide (t = k)) as [Etk|Hnt]; destruct (decide (u = k)) as [Euk|Hnu].
  - subst u t. destruct Hex as [p ->]; [by eexists|]. simpl.
    rewrite Ht. simpl. f_equal.
    destruct HfT as [HfT|[HfT _]]; rewrite HfT; [done|].
    rewrite HfU. congruence.
  - subst t. destruct Hex as [p Hp]; [by eexists|]. rewrite Hp. simpl.
    rewrite Ht. simpl. f_equal.
    destruct HfT as [HfT|[HfT Hsame]]; rewrite HfT; [done|].
    pose proof (Hs k) as E1. pose proof (Hsame k) as E2.
    rewrite Hp in E1. rewrite Ht in E2. simpl in *. congruence.
  - subst u. destruct Hex as [p ->]; [by eexists|]. simpl.
    rewrite Hu. simpl. by rewrite HfU.
  - rewrite Hoth by done. rewrite <- (Hs k). by destruct (us2 !! k).
Qed.

Lemma matchSymmetric_onLike c u t st :
  matchSymmetric (users st) → matchSymmetric (users (onLike c u t st).1).
Proof.
  intros Hsym. unfold onLike.
  destruct (users st !! u) as [me|] eqn:Hu; [|done].
  destruct (users st !! t) as [them|] eqn:Ht.
  2:{ case_match; [done|].
      eapply matchSymmetric_same; [apply sameMatches_thenShow|done]. }
  pose proof (sameMatches_getAvailableSwipes c u (users st)) as Hav.
  destruct (getAvailableSwipes c u (users st)) as [us1 av]. simpl in Hav.
  case_bool_decide.
  { eapply matchSymmetric_same; [|done]. done. }
  pose proof (recordLike_symmetric u t (users st) Hsym) as Hloc.
  pose proof (recordLike_is_Some u t (users st)) as Hdom.
  pose proof (recordLike_other u t (users st)) as Hoth.
  destruct (recordLike u t (users st)) as [loc1 mf]. simpl in Hloc, Hdom, Hoth.
  destruct (proj2 (Hdom u)) as [su Hsu]; [by eexists|].
  destruct (proj2 (Hdom t)) as [st' Hst]; [by eexists|].
  match goal with
  | |- context [saveFrom loc1 t ?fT (saveFrom loc1 u ?fU ?us2)] =>
      assert (matchSymmetric (saveFrom loc1 t fT (saveFrom loc1 u fU us2))) as Hfin
  end.
  { eapply matchSymmetric_same; [|exact Hloc].
    eapply (sameMatches_saved loc1 (users st)); try done; [|by left].
    case_bool_decide; [done|].
    eapply sameMatches_trans; [apply sameMatches_increment|done]. }
  destruct (queueEmpty _); [exact Hfin|].
  eapply matchSymmetric_same; [apply sameMatches_thenShow|exact Hfin].
Qed.

Lemma matchSymmetric_sendMessage c u text ok st :
  matchSymmetric (users st) →
  matchSymmetric (users (sendMessage c u text ok st).1).
Proof.
  intros Hsym. unfold sendMessage.
  destruct (messageTargetId (session (sessions st) u)) as [t|]; [|done].
  case_bool_decide; [done|].
  destruct (users st !! u) as [me|] eqn:Hu; [|done].
  destruct (users st !! t) as [them|] eqn:Ht.
  2:{ eapply matchSymmetric_same; [apply sameMatches_thenShow|done]. }
  pose proof (recordLike_symmetric u t (users st) Hsym) as Hloc.
  pose proof (recordLike_is_Some u t (users st)) as Hdom.
  pose proof (recordLike_other u t (users st)) as Hoth.
  pose proof (recordLike_no_match u t (users st)) as Hno.
  destruct (recordLike u t (users st)) as [loc1 mf].
  simpl in Hloc, Hdom, Hoth, Hno.
  pose proof (sameMatches_getAvailableSwipes c u (users st)) as Hav.
  destruct (getAvailableSwipes c u (users st)) as [us1 av]. simpl in Hav.
  assert (∃ us2 av2, (if ok then (us1, av) else getAvailableSwipes c u us1)
                     = (us2, av2) ∧ sameMatches us2 (users st))
    as (us2 & av2 & -> & Hav2).
  { destruct ok; [by eauto|].
    pose proof (sameMatches_getAvailableSwipes c u us1) as Hav'.
    destruct (getAvailableSwipes c u us1) as [us2 av2]. simpl in Hav'.
    exists us2, av2. split; [done|]. by eapply sameMatches_trans. }
  destruct (proj2 (Hdom u)) as [su Hsu]; [by eexists|].
  destruct (proj2 (Hdom t)) as [st' Hst]; [by eexists|].
  match goal with
  | |- context [saveFrom loc1 t ?fT (saveFrom loc1 u ?fU ?us)] =>
      assert (matchSymmetric (saveFrom loc1 t fT (saveFrom loc1 u fU us))) as Hfin
  end.
  { eapply matchSymmetric_same; [|exact Hloc].
    eapply (sameMatches_saved loc1 (users st)); try done.
    destruct mf; [by left|right]. split; [done|]. by apply Hno. }
  destruct (bool_decide (total av2 ≤ 0)); [exact Hfin|].
  eapply matchSymmetric_same; [apply sameMatches_thenShow|exact Hfin].
Qed.

Lemma matchSymmetric_deleteAccount c u text st :
  matchSymmetric (users st) →
  matchSymmetric (users (deleteAccount c u text st).1).
Proof.
  intros Hsym. unfold deleteAccount. destruct (users st !! u); [|done]. simpl.
  intros a b pa' pb' Ha Hb.
  destruct (decide (a = u)) as [->|Hau]; [by rewrite lookup_delete_eq in Ha|].
  destruct (decide (b = u)) as [->|Hbu]; [by rewrite lookup_delete_eq in Hb|].
  rewrite lookup_delete_ne, map_lookup_imap in Ha, Hb by done.
  destruct (users st !! a) as [pa|] eqn:Ha0; [|done].
  destruct (users st !! b) as [pb|] eqn:Hb0; [|done].
  simpl in Ha, Hb. rewrite decide_False in Ha by done.
  rewrite decide_False in Hb by done.
  injection Ha as <-. injection Hb as <-. simpl.
  rewrite !list_elem_of_filter. rewrite (Hsym a b pa pb Ha0 Hb0). naive_solver.
Qed.

Lemma matchSymmetric_handle c e st :
  matchSymmetric (users st) → matchSymmetric (users (handle c e st).1).
Proof.
  intros Hsym. destruct e as [u|u|u t|u t|u|u text ok]; simpl.
  - eapply matchSymmetric_same; [apply sameMatches_showNext|done].
  - eapply matchSymmetric_same; [apply sameMatches_onSkip|done].
  - eapply matchSymmetric_same; [apply sameMatches_onMessage|done].
  - by apply matchSymmetric_onLike.
  - unfold onDeleteCommand. by destruct (users st !! u).
  - unfold onText. case_match; [done|]. case_match.
    + by apply matchSymmetric_deleteAccount.
    + case_match; [|done]. by apply matchSymmetric_sendMessage.
Qed.

(** C4.  Match symmetry is an invariant of the store: if [matches] is
    symmetric between any two existing profiles, it is so again after any
    sequence of likes, message sends and deletions (and of the other
    handlers of the engine: [/match], skip, the message button, the delete
    command). *)
Theorem match_symmetry evs st :
  matchSymmetric (users st) → matchSymmetric (users (run evs st)).
Proof.
  revert st. induction evs as [|[c e] evs IH]; intros st Hsym; [done|].
  simpl. apply IH. by apply matchSymmetric_handle.
Qed.

Lemma pairState_symmetric : matchSymmetric (users pairState).
Proof.
  assert (map_Forall (λ _ p, matches p = []) (users pairState)) as Hnil.
  { apply (bool_decide_unpack _). vm_compute. exact I. }
  intros a b pa pb Ha Hb.
  rewrite (Hnil a pa Ha), (Hnil b pb Hb). by rewrite !elem_of_nil.
Qed.

(** The specification's scenario: 1 likes 2, then 2 likes 1. *)
Lemma match_symmetry_witness :
  matchSymmetric (users pairState)
  ∧ matchSymmetric
      (users (run [(noon, ELike 1 2); (noon, ELike 2 1)] pairState)).
Proof.
  split; [exact pairState_symmetric|].
  exact (match_symmetry [(noon, ELike 1 2); (noon, ELike 2 1)] pairState
           pairState_symmetric).
Defined.

Example mutual_like_run :
  matches <$> users (run [(noon, ELike 1 2)] pairState) = {[ 1 := []; 2 := [] ]}
  ∧ recentLikes <$> users (run [(noon, ELike 1 2)] pairState)
    = {[ 1 := []; 2 := [1] ]}
  ∧ matches <$> users (run [(noon, ELike 1 2); (noon, ELike 2 1)] pairState)
    = {[ 1 := [2]; 2 := [1] ]}.
Proof. vm_compute. split_and!; reflexivity. Qed.

(** ** Presenting the front of the queue *)

Lemma total_roll c u us :
  total (getAvailableSwipes c u (alter (roll c) u us)).2
  = total (getAvailableSwipes c u us).2.
Proof.
  destruct (us !! u) as [p|] eqn:Hp; [|by rewrite alter_missing].
  destruct (decide (lastResetDate (tzOffset c) p = Some (today c))) as [E|E].
  { by rewrite (alter_fix _ _ _ p Hp (roll_same_day c p E)). }
  assert (alter (roll c) u us !! u = Some (resetSwipes c p)) as Hp'.
  { rewrite lookup_alter_eq, Hp. simpl. unfold roll. by rewrite decide_False. }
  rewrite (getAvailableSwipes_eq c u _ _ Hp'), (getAvailableSwipes_eq c u _ _ Hp).
  simpl. f_equal. f_equal. f_equal.
  rewrite (check_new_day c u us p Hp E). simpl.
  destruct (decide (lastResetDate (tzOffset c) (resetSwipes c p) = Some (today c)))
    as [E'|E'].
  - by rewrite (check_same_day c u _ _ Hp' E').
  - by rewrite (check_new_day c u _ _ Hp' E').
Qed.

Lemma showCandidate_present c u st p t rest :
  users st !! u = Some p →
  0 < total (getAvailableSwipes c u (users st)).2 →
  queue (session (sessions st) u) = Some (t :: rest) → t ≠ 0 →
  showCandidate c u st
  = (mkState (alter (roll c) u (users st)) (deletionReasons st)
       (setSession u
          (λ s, with_shown (pushNew t (shown s)) (with_queue (Some rest) s))
          (sessions st)),
     [OCandidate t]).
Proof.
  intros Hp Htot Hq Ht. unfold showCandidate. simpl. unfold showCandidateBody.
  rewrite Hp. pose proof (getAvailableSwipes_roll c u (users st)) as Hroll.
  destruct (getAvailableSwipes c u (users st)) as [us1 av].
  simpl in Hroll, Htot. subst us1.
  rewrite bool_decide_eq_false_2 by lia.
  unfold refillQueue. rewrite session_getSession.
  unfold queueEmpty at 1. rewrite Hq.
  unfold queueEmpty. rewrite session_getSession, Hq.
  rewrite bool_decide_eq_false_2 by done.
  rewrite setSession_setSession, setSession_getSession. done.
Qed.

Lemma strictCandidates_fresh us u me s s' :
  shown s = [] →
  strictCandidates us u me true s = strictCandidates us u me false s'.
Proof.
  intros Hs. unfold strictCandidates. apply list_filter_iff. intros [v q].
  unfold strictCandidate. simpl. rewrite Hs.
  rewrite (bool_decide_eq_false_2 (v ∈ [])); [done|].
  intros Hin. by apply elem_of_nil in Hin.
Qed.

Lemma rebuildQueue_fresh us u me ss :
  us !! u = Some me → shown (session ss u) = [] → eligible us u me ≠ [] →
  rebuildQueue us u true ss
  = setSession u (with_queue (Some (eligible us u me))) ss.
Proof.
  intros Hu Hs HE. unfold rebuildQueue.
  rewrite (buildCandidateQueue_true_keep us u me ss Hu) by (by right).
  rewrite setSession_getSession. unfold candidatesFor.
  rewrite (strictCandidates_fresh us u me _ newSession Hs).
  rewrite bool_decide_eq_false_2; [done|].
  intros Hnil. apply HE. unfold eligible. by rewrite Hnil.
Qed.

Lemma elem_of_eligible us u me v :
  v ∈ eligible us u me ↔
  ∃ q, us !! v = Some q ∧ v ≠ 0 ∧ v ≠ u
       ∧ meLikesTargetGender me q = true ∧ targetLikesMeGender me q = true.
Proof.
  unfold eligible. rewrite elem_of_sortById, list_elem_of_fmap. split.
  - intros ([v' q] & -> & Hin). apply elem_of_strictCandidates in Hin as [Hs Hl].
    exists q. split; [done|]. unfold strictCandidate in Hs. simpl in Hs.
    rewrite !andb_true_iff, !bool_decide_eq_true in Hs. naive_solver.
  - intros (q & Hl & H0 & Hu & Hm & Ht). exists (v, q). split; [done|].
    apply elem_of_strictCandidates. split; [|done].
    unfold strictCandidate. simpl.
    rewrite !andb_true_iff, !bool_decide_eq_true. naive_solver.
Qed.

Lemma eligible_other us u me v : v ∈ eligible us u me → otherUser us u v.
Proof. rewrite elem_of_eligible. intros (q & ? & ? & ? & _). by split_and!. Qed.

(** ** The preference fingerprint *)

Lemma lastPreference_build us u ex ss :
  lastPreference (session (buildCandidateQueue us u ex ss).1 u)
  = lastPreference (session ss u).
Proof.
  destruct (us !! u) as [me|] eqn:Hu; [|by rewrite buildCandidateQueue_none].
  destruct ex.
  - destruct (decide (strictCandidates us u me true (session ss u) = []
                      ∧ shown (session ss u) ≠ [])) as [[Hnil Hsh]|Hkeep].
    + rewrite (buildCandidateQueue_true_reset us u me ss Hu Hnil Hsh). simpl.
      by rewrite session_setSession.
    + rewrite (buildCandidateQueue_true_keep us u me ss Hu).
      * simpl. by rewrite session_getSession.
      * destruct (decide (strictCandidates us u me true (session ss u) = []));
          [right|by left].
        destruct (shown (session ss u)) eqn:E; [done|]. naive_solver.
  - rewrite (buildCandidateQueue_false us u me ss Hu). simpl.
    by rewrite session_getSession.
Qed.

Lemma lastPreference_rebuild us u ex ss :
  lastPreference (session (rebuildQueue us u ex ss) u)
  = lastPreference (session ss u).
Proof.
  unfold rebuildQueue. pose proof (lastPreference_build us u ex ss) as H.
  destruct (buildCandidateQueue us u ex ss) as [ss1 q]. simpl in H.
  by rewrite session_setSession.
Qed.

Local Ltac lastPref :=
  repeat first
    [ rewrite lastPreference_rebuild
    | rewrite session_setSession
    | rewrite session_getSession
    | progress cbn [fst snd sessions with_sessions with_users lastPreference
                    with_queue with_shown with_lastPreference] ].

Lemma lastPreference_refill us u ss :
  match refillQueue us u ss with
  | inl (ss', _) | inr ss' =>
      lastPreference (session ss' u) = lastPreference (session ss u)
  end.
Proof.
  unfold refillQueue. repeat case_match; simplify_eq; lastPref; done.
Qed.

Lemma lastPreference_showCandidateN n c u st :
  lastPreference (session (sessions (showCandidateN n c u st).1) u)
  = lastPreference (session (sessions st) u).
Proof.
  revert st. induction n as [|n IH]; intros st; [done|].
  simpl. unfold showCandidateBody.
  destruct (users st !! u); [|done].
  destruct (getAvailableSwipes c u (users st)) as [us1 av].
  case_bool_decide; [done|].
  pose proof (lastPreference_refill us1 u (getSession u (sessions st))) as Hre.
  rewrite session_getSession in Hre.
  destruct (refillQueue us1 u (getSession u (sessions st))) as [[ss out]|ss];
    [done|].
  repeat case_match; rewrite ?IH; lastPref; done.
Qed.

Lemma lastPreference_showNext c u st p :
  users st !! u = Some p →
  lastPreference (session (sessions (showNext c u st).1) u)
  = Some (default men (looking p)).
Proof.
  intros Hp. unfold showNext. rewrite Hp.
  destruct (getAvailableSwipes c u (users st)) as [us1 av].
  set (ss1 := if decide (lastPreference _ = _) then _ else _).
  assert (lastPreference (session ss1 u) = Some (default men (looking p))) as H1.
  { subst ss1. case_decide as E; [done|]. by rewrite session_setSession. }
  clearbody ss1. unfold showCandidate.
  repeat case_match; rewrite ?lastPreference_showCandidateN; lastPref; done.
Qed.

(** C8.  Whenever [showNext] starts with a profile whose current [looking]
    value ([men] when unset) differs from the session's fingerprint, it
    proceeds exactly as from the session with an empty shown-set, no queue
    and the fingerprint set to the current value; the fingerprint is the
    current value afterwards; and when some profile is compatible with the
    new preference and swipes are left, the candidate presented is the
    first of all compatible profiles, previously shown or not, the rest of
    them being the new queue. *)
Theorem preference_change_resets c u st p :
  users st !! u = Some p →
  lastPreference (session (sessions st) u) ≠ Some (default men (looking p)) →
  showNext c u st
  = showNext c u
      (with_sessions
         (setSession u
            (λ s, with_lastPreference (Some (default men (looking p)))
                    (with_queue None (with_shown [] s)))
            (sessions st)) st)
  ∧ lastPreference (session (sessions (showNext c u st).1) u)
    = Some (default men (looking p))
  ∧ (∀ t rest,
       eligible (users st) u p = t :: rest →
       0 < total (getAvailableSwipes c u (users st)).2 →
       (showNext c u st).2 = [OCandidate t]
       ∧ queue (session (sessions (showNext c u st).1) u) = Some rest
       ∧ shown (session (sessions (showNext c u st).1) u) = [t]).
Proof.
  intros Hp Hpref. split_and!.
  - unfold showNext. cbn [users sessions with_sessions deletionReasons].
    rewrite Hp.
    rewrite getSession_setSession, session_setSession, session_getSession.
    cbn [lastPreference with_lastPreference].
    rewrite decide_False by done. rewrite decide_True by done.
    by rewrite setSession_getSession.
  - by apply lastPreference_showNext.
  - intros t rest HE Htot.
    assert (t ∈ eligible (users st) u p) as Hin by (rewrite HE; left).
    pose proof (eligible_other _ _ _ _ Hin) as Hother.
    pose proof (size_two _ _ _ _ Hp Hother) as Hsz.
    unfold showNext. rewrite Hp.
    pose proof (getAvailableSwipes_roll c u (users st)) as Hroll.
    destruct (getAvailableSwipes c u (users st)) as [us1 av] eqn:Hav.
    simpl in Hroll, Htot. subst us1.
    rewrite session_getSession. rewrite decide_False by done.
    rewrite setSession_getSession.
    set (cleared := setSession u _ (sessions st)).
    assert (queueEmpty (session cleared u) = true) as ->.
    { subst cleared. by rewrite session_setSession. }
    assert (rebuildQueue (users st) u true cleared
            = setSession u (with_queue (Some (t :: rest))) cleared) as ->.
    { rewrite (rebuildQueue_fresh _ _ p), HE; [done..| |by rewrite HE].
      subst cleared. by rewrite session_setSession. }
    assert (queueEmpty (session
              (setSession u (with_queue (Some (t :: rest))) cleared) u) = false)
      as Hq by (by rewrite session_setSession).
    rewrite !Hq.
    rewrite bool_decide_eq_false_2 by lia.
    rewrite bool_decide_eq_false_2 by lia.
    rewrite (showCandidate_present c u _ (roll c p) t rest).
    + cbn [fst snd sessions]. rewrite !session_setSession.
      subst cleared. by rewrite session_setSession.
    + cbn [users]. by rewrite lookup_alter_eq, Hp.
    + cbn [users]. by rewrite total_roll, Hav.
    + cbn [sessions]. by rewrite session_setSession.
    + by destruct Hother.
Qed.

(** User 1, who has seen both 2 and 3 while looking for men, now looks for
    women: 2 is presented again and 3 is queued. *)
Lemma preference_change_resets_witness :
  users crowdState !! 1 = Some sampleUser
  ∧ lastPreference (session (sessions crowdState) 1)
    ≠ Some (default men (looking sampleUser))
  ∧ (showNext noon 1 crowdState).2 = [OCandidate 2]
  ∧ queue (session (sessions (showNext noon 1 crowdState).1) 1) = Some [3]
  ∧ shown (session (sessions (showNext noon 1 crowdState).1) 1) = [2].
Proof.
  assert (users crowdState !! 1 = Some sampleUser) as Hp by reflexivity.
  assert (lastPreference (session (sessions crowdState) 1)
          ≠ Some (default men (looking sampleUser))) as Hpref
    by (vm_compute; discriminate).
  split_and!; [exact Hp|exact Hpref|..];
    apply (proj2 (proj2 (preference_change_resets noon 1 crowdState sampleUser
                           Hp Hpref)) 2 [3]);
    vm_compute; reflexivity.
Defined.

(** ** A full pass over the pool *)

Lemma NoDup_candidates us u me ex s : NoDup (strictCandidates us u me ex s).*1.
Proof.
  apply NoDup_fmap_fst.
  - intros v q1 q2 H1 H2.
    apply elem_of_strictCandidates in H1 as [_ H1].
    apply elem_of_strictCandidates in H2 as [_ H2]. simpl in *. congruence.
  - apply NoDup_filter, NoDup_map_to_list.
Qed.

Lemma sortById_Sorted l : Sorted Z.le (sortById l).
Proof. apply (Sorted_merge_sort Z.le). Qed.

Lemma sortById_ext l1 l2 :
  NoDup l1.*1 → NoDup l2.*1 →
  (∀ v, v ∈ sortById l1 ↔ v ∈ sortById l2) → sortById l1 = sortById l2.
Proof.
  intros H1 H2 Hin. apply (Sorted_unique Z.le); try apply sortById_Sorted.
  unfold sortById. rewrite !merge_sort_Permutation.
  apply NoDup_Permutation; [done..|].
  intros v. by rewrite <- !elem_of_sortById.
Qed.

Lemma NoDup_eligible us u me : NoDup (eligible us u me).
Proof.
  unfold eligible, sortById. rewrite merge_sort_Permutation.
  apply NoDup_candidates.
Qed.

Lemma limitOpen_roll c p : limitOpen p → limitOpen (roll c p).
Proof.
  unfold limitOpen, roll. case_decide; [done|]. simpl. lia.
Qed.

Lemma limitOpen_total c u us p :
  us !! u = Some p → limitOpen p → 0 < total (getAvailableSwipes c u us).2.
Proof.
  intros Hp [H0 Hopen]. rewrite (getAvailableSwipes_eq c u us p Hp). simpl.
  destruct (check_lookup c u us p Hp) as (p' & _ & -> & _ & Hs & Hn).
  destruct (decide (lastResetDate (tzOffset c) p = Some (today c))) as [E|E].
  - rewrite (Hs E). lia.
  - rewrite (Hn E). simpl. lia.
Qed.

Lemma samePool_roll c us0 u p0 us :
  samePool us0 u p0 us → samePool us0 u p0 (alter (roll c) u us).
Proof.
  intros [Hoth (p & Hp & Hg & Hl & Ho)]. split.
  - intros v Hv. rewrite lookup_alter_ne by done. by apply Hoth.
  - exists (roll c p). rewrite lookup_alter_eq, Hp.
    destruct (roll_social c p) as (_ & _ & _ & -> & -> & _).
    split_and!; [done..|]. by apply limitOpen_roll.
Qed.

Lemma eligible_pool us0 u p0 us p :
  samePool us0 u p0 us → us !! u = Some p →
  eligible us u p = eligible us0 u p0.
Proof.
  intros [Hoth (p' & Hp' & Hg & Hl & _)] Hp.
  assert (p' = p) as -> by congruence.
  apply sortById_ext; [apply NoDup_candidates..|].
  intros v. fold (eligible us u p) (eligible us0 u p0).
  rewrite !elem_of_eligible. unfold meLikesTargetGender, targetLikesMeGender.
  rewrite Hg, Hl. split; intros (q & Hq & H0 & Hu & Hm); exists q.
  - by rewrite <- Hoth.
  - by rewrite Hoth.
Qed.

Lemma samePool_size us0 u p0 us v :
  samePool us0 u p0 us → otherUser us0 u v → (1 < size us)%nat.
Proof.
  intros [Hoth (p & Hp & _)] (H0 & Hu & Hv).
  apply (size_two us u v p Hp). split_and!; [done..|]. by rewrite Hoth.
Qed.

Lemma pushNew_take (E : list Z) k e :
  NoDup E → E !! k = Some e → pushNew e (take k E) = take (S k) E.
Proof.
  intros Hnd He. unfold pushNew. rewrite bool_decide_eq_false_2.
  - by rewrite (take_S_r _ _ e).
  - rewrite elem_of_take. intros (i & Hi & Hlt).
    pose proof (NoDup_lookup _ _ _ _ Hnd Hi He). lia.
Qed.

Lemma showCandidate_mid us0 u p0 c st k e :
  samePool us0 u p0 (users st) →
  eligible us0 u p0 !! k = Some e →
  midPass (eligible us0 u p0) k (session (sessions st) u) →
  ∃ st', showCandidate c u st = (st', [OCandidate e])
         ∧ samePool us0 u p0 (users st')
         ∧ midPass (eligible us0 u p0) (S k) (session (sessions st') u)
         ∧ lastPreference (session (sessions st') u)
           = lastPreference (session (sessions st) u).
Proof.
  intros Hpool He [Hq Hs].
  pose proof Hpool as [_ (p & Hp & _ & _ & Hopen)].
  assert (e ∈ eligible us0 u p0) as Hin by (by eapply list_elem_of_lookup_2).
  rewrite (drop_S _ e) in Hq by done.
  eexists. split.
  { apply (showCandidate_present c u st p e
             (drop (S k) (eligible us0 u p0)) Hp); [|done|].
    - by apply (limitOpen_total c u _ p).
    - by apply eligible_other in Hin as [? _]. }
  cbn [users sessions]. rewrite session_setSession.
  split_and!; [by apply samePool_roll| |done].
  split; [done|]. simpl. rewrite Hs.
  apply pushNew_take; [apply NoDup_eligible|done].
Qed.

Lemma showCandidate_first us0 u p0 c st e :
  samePool us0 u p0 (users st) →
  eligible us0 u p0 !! 0%nat = Some e →
  shown (session (sessions st) u) = [] →
  queueEmpty (session (sessions st) u) = true →
  ∃ st', showCandidate c u st = (st', [OCandidate e])
         ∧ samePool us0 u p0 (users st')
         ∧ midPass (eligible us0 u p0) 1 (session (sessions st') u)
         ∧ lastPreference (session (sessions st') u)
           = lastPreference (session (sessions st) u).
Proof.
  intros Hpool He Hs Hq.
  pose proof Hpool as [_ (p & Hp & _ & _ & Hopen)].
  pose proof (samePool_roll c _ _ _ _ Hpool) as Hpool1.
  assert (e ∈ eligible us0 u p0) as Hin by (by eapply list_elem_of_lookup_2).
  pose proof (eligible_other _ _ _ _ Hin) as Hother.
  assert (alter (roll c) u (users st) !! u = Some (roll c p)) as Hp1.
  { by rewrite lookup_alter_eq, Hp. }
  pose proof (eligible_pool _ _ _ _ _ Hpool1 Hp1) as HE.
  destruct (eligible us0 u p0) as [|e' rest] eqn:HE0; [done|].
  injection He as ->.
  change (showCandidate c u st)
    with (showCandidateBody (showCandidateN 1 c u) c u st).
  unfold showCandidateBody. rewrite Hp.
  pose proof (getAvailableSwipes_roll c u (users st)) as Hroll.
  pose proof (limitOpen_total c u _ p Hp Hopen) as Htot.
  destruct (getAvailableSwipes c u (users st)) as [us1 av].
  simpl in Hroll, Htot. subst us1.
  rewrite bool_decide_eq_false_2 by lia.
  unfold refillQueue. rewrite !session_getSession, Hq, Hs.
  rewrite (bool_decide_eq_true_2 (1 < _)%nat)
    by (by eapply samePool_size).
  rewrite (bool_decide_eq_false_2 (@nil Z ≠ [])) by naive_solver.
  rewrite (rebuildQueue_fresh _ _ (roll c p)); [|done| |].
  2:{ by rewrite session_getSession. }
  2:{ by rewrite HE. }
  rewrite HE, setSession_getSession.
  assert (queueEmpty (session
            (setSession u (with_queue (Some (e :: rest))) (sessions st)) u)
          = false) as Hne.
  { by rewrite session_setSession. }
  rewrite !Hne. rewrite session_setSession.
  change (queue (with_queue (Some (e :: rest)) (session (sessions st) u)))
    with (Some (e :: rest)).
  cbv iota beta.
  rewrite bool_decide_eq_false_2 by (by destruct Hother).
  eexists. split; [done|]. cbn [users sessions].
  rewrite !setSession_setSession, session_setSession.
  split_and!; [done| |done].
  split; [done|]. simpl. rewrite Hs. unfold pushNew.
  rewrite bool_decide_eq_false_2; [done|]. intros Hx. by apply elem_of_nil in Hx.
Qed.

Lemma showNext_mid us0 u p0 c st k e :
  samePool us0 u p0 (users st) →
  lastPreference (session (sessions st) u) = Some (default men (looking p0)) →
  eligible us0 u p0 !! k = Some e →
  midPass (eligible us0 u p0) k (session (sessions st) u) →
  ∃ st', showNext c u st = (st', [OCandidate e])
         ∧ samePool us0 u p0 (users st')
         ∧ midPass (eligible us0 u p0) (S k) (session (sessions st') u)
         ∧ lastPreference (session (sessions st') u)
           = Some (default men (looking p0)).
Proof.
  intros Hpool Hpref He Hmid.
  pose proof Hpool as [_ (p & Hp & _ & Hl & Hopen)].
  pose proof Hmid as [Hq _].
  assert (e ∈ eligible us0 u p0) as Hin by (by eapply list_elem_of_lookup_2).
  pose proof (eligible_other _ _ _ _ Hin) as Hother.
  pose proof (samePool_size _ _ _ _ _ Hpool Hother) as Hsz.
  rewrite (drop_S _ e) in Hq by done.
  assert (queueEmpty (session (sessions st) u) = false) as Hne.
  { unfold queueEmpty. by rewrite Hq. }
  unfold showNext. rewrite Hp, Hl.
  rewrite session_getSession. rewrite decide_True by done.
  rewrite session_getSession, Hne.
  rewrite bool_decide_eq_false_2 by lia.
  rewrite session_getSession, Hne.
  rewrite session_getSession, Hne.
  pose proof (getAvailableSwipes_roll c u (users st)) as Hroll.
  pose proof (limitOpen_total c u _ p Hp Hopen) as Htot.
  destruct (getAvailableSwipes c u (users st)) as [us1 av].
  simpl in Hroll, Htot. subst us1.
  rewrite bool_decide_eq_false_2 by lia.
  destruct (showCandidate_mid us0 u p0 c
              (mkState (alter (roll c) u (users st)) (deletionReasons st)
                 (getSession u (sessions st))) k e)
    as (st' & Hshow & Hpool' & Hmid' & Hpref'); cbn [users sessions].
  - by apply samePool_roll.
  - done.
  - by rewrite session_getSession.
  - exists st'. cbn [sessions] in Hpref'.
    rewrite session_getSession in Hpref'.
    split_and!; [done..|]. by rewrite Hpref'.
Qed.

Lemma showNext_first us0 u p0 c st e :
  samePool us0 u p0 (users st) →
  eligible us0 u p0 !! 0%nat = Some e →
  shown (session (sessions st) u) = [] →
  queueEmpty (session (sessions st) u) = true →
  ∃ st', showNext c u st = (st', [OCandidate e])
         ∧ samePool us0 u p0 (users st')
         ∧ midPass (eligible us0 u p0) 1 (session (sessions st') u)
         ∧ lastPreference (session (sessions st') u)
           = Some (default men (looking p0)).
Proof.
  intros Hpool He Hs Hq.
  pose proof Hpool as [_ (p & Hp & _ & Hl & Hopen)].
  assert (e ∈ eligible us0 u p0) as Hin by (by eapply list_elem_of_lookup_2).
  pose proof (eligible_other _ _ _ _ Hin) as Hother.
  pose proof (samePool_size _ _ _ _ _ Hpool Hother) as Hsz.
  pose proof (eligible_pool _ _ _ _ _ Hpool Hp) as HE.
  assert (eligible us0 u p0 = e :: drop 1 (eligible us0 u p0)) as Hcons.
  { by rewrite <- (drop_S _ e 0), drop_0. }
  unfold showNext. rewrite Hp, Hl.
  set (ss1 := if decide (lastPreference _ = _) then _ else _).
  assert (shown (session ss1 u) = [] ∧ queueEmpty (session ss1 u) = true
          ∧ lastPreference (session ss1 u) = Some (default men (looking p0)))
    as (Hs1 & Hq1 & Hp1).
  { subst ss1. case_decide as E.
    - by rewrite session_getSession in E |- *.
    - by rewrite session_setSession. }
  clearbody ss1. rewrite Hq1.
  rewrite (rebuildQueue_fresh _ _ p); [|done..|by rewrite HE, Hcons].
  rewrite HE.
  assert (queueEmpty (session
            (setSession u (with_queue (Some (eligible us0 u p0))) ss1) u)
          = false) as Hne.
  { rewrite session_setSession. unfold queueEmpty. simpl. by rewrite Hcons. }
  rewrite !Hne. rewrite bool_decide_eq_false_2 by lia.
  pose proof (getAvailableSwipes_roll c u (users st)) as Hroll.
  pose proof (limitOpen_total c u _ p Hp Hopen) as Htot.
  destruct (getAvailableSwipes c u (users st)) as [us1 av].
  simpl in Hroll, Htot. subst us1.
  rewrite bool_decide_eq_false_2 by lia.
  destruct (showCandidate_mid us0 u p0 c
              (mkState (alter (roll c) u (users st)) (deletionReasons st)
                 (setSession u (with_queue (Some (eligible us0 u p0))) ss1))
              0 e)
    as (st' & Hshow & Hpool' & Hmid' & Hpref'); cbn [users sessions].
  - by apply samePool_roll.
  - done.
  - rewrite session_setSession. split; simpl; [by rewrite drop_0|done].
  - exists st'. cbn [sessions] in Hpref'.
    rewrite session_setSession in Hpref'. simpl in Hpref'.
    split_and!; [done..|]. by rewrite Hpref'.
Qed.

Lemma presentations_mid (entry : Clock → Z → State → State * list Output)
    (Inv : State → Prop) (E : list Z) u :
  (∀ c st k e,
     Inv st → E !! k = Some e → midPass E k (session (sessions st) u) →
     ∃ st', entry c u st = (st', [OCandidate e]) ∧ Inv st'
            ∧ midPass E (S k) (session (sessions st') u)) →
  ∀ cs k st,
    Inv st → midPass E k (session (sessions st) u) →
    (k + length cs ≤ length E)%nat →
    (presentations entry cs u st).2 = OCandidate <$> take (length cs) (drop k E)
    ∧ midPass E (k + length cs)
        (session (sessions (presentations entry cs u st).1) u).
Proof.
  intros Hstep cs. induction cs as [|c cs IH]; intros k st Hinv Hmid Hlen.
  - simpl. by rewrite Nat.add_0_r.
  - simpl in Hlen.
    destruct (lookup_lt_is_Some_2 E k) as [e He]; [lia|].
    destruct (Hstep c st k e Hinv He Hmid) as (st1 & Hent & Hinv1 & Hmid1).
    destruct (IH (S k) st1 Hinv1 Hmid1) as [Hout Hfin]; [lia|].
    simpl. rewrite Hent.
    destruct (presentations entry cs u st1) as [st2 out2]. simpl in *.
    rewrite Hout. rewrite (drop_S _ e k He). simpl.
    split; [done|]. by rewrite <- Nat.add_succ_comm.
Qed.

(** C5.  For a user with a profile and swipes left, starting a pass
    (empty shown-set, no queue) over a pool of N >= 1 eligible candidates:
    the pool is sorted ascending by identifier and has no duplicates, and N
    successive presentations, through [showCandidate] as well as through
    [showNext], present exactly the pool in that order, hence all N
    distinct identifiers before any repeats; each presented identifier has
    been added to the shown-set. *)
Theorem queue_exhaustion_progress u st p cs :
  users st !! u = Some p → limitOpen p →
  shown (session (sessions st) u) = [] →
  queueEmpty (session (sessions st) u) = true →
  eligible (users st) u p ≠ [] →
  length cs = length (eligible (users st) u p) →
  Sorted Z.le (eligible (users st) u p)
  ∧ NoDup (eligible (users st) u p)
  ∧ (presentations showCandidate cs u st).2
    = OCandidate <$> eligible (users st) u p
  ∧ (presentations showNext cs u st).2
    = OCandidate <$> eligible (users st) u p
  ∧ shown (session (sessions (presentations showCandidate cs u st).1) u)
    = eligible (users st) u p.
Proof.
  intros Hp Hopen Hs Hq HE Hlen.
  split; [apply sortById_Sorted|]. split; [apply NoDup_eligible|].
  assert (samePool (users st) u p (users st)) as Hpool.
  { split; [done|]. by exists p. }
  set (E := eligible (users st) u p) in *.
  destruct E as [|e0 rest] eqn:HEq; [done|].
  destruct cs as [|c cs]; [done|]. simpl in Hlen.
  assert (E !! 0%nat = Some e0) as He0 by (by rewrite HEq).
  rewrite <- HEq in *.
  assert (take (length cs) (drop 1 E) = rest) as Hrest.
  { rewrite HEq. simpl. rewrite drop_0. apply take_ge. lia. }
  assert (take (1 + length cs) E = E) as Hall.
  { apply take_ge. rewrite HEq. simpl. lia. }
  split_and!.
  - destruct (showCandidate_first (users st) u p c st e0 Hpool He0 Hs Hq)
      as (st1 & Hent & Hpool1 & Hmid1 & _).
    destruct (presentations_mid showCandidate
                (λ st', samePool (users st) u p (users st')) E u)
      with (cs := cs) (k := 1%nat) (st := st1) as [Hout _]; try done.
    + intros c' st' k e Hinv He Hmid.
      destruct (showCandidate_mid (users st) u p c' st' k e Hinv He Hmid)
        as (st2 & ? & ? & ? & _). by exists st2.
    + rewrite HEq. simpl. lia.
    + simpl. rewrite Hent.
      destruct (presentations showCandidate cs u st1) as [st2 out2].
      simpl in *. rewrite Hout, Hrest. by rewrite HEq.
  - destruct (showNext_first (users st) u p c st e0 Hpool He0 Hs Hq)
      as (st1 & Hent & Hpool1 & Hmid1 & Hpref1).
    destruct (presentations_mid showNext
                (λ st', samePool (users st) u p (users st')
                        ∧ lastPreference (session (sessions st') u)
                          = Some (default men (looking p))) E u)
      with (cs := cs) (k := 1%nat) (st := st1) as [Hout _]; try done.
    + intros c' st' k e [Hinv Hpref] He Hmid.
      destruct (showNext_mid (users st) u p c' st' k e Hinv Hpref He Hmid)
        as (st2 & ? & ? & ? & ?). by exists st2.
    + rewrite HEq. simpl. lia.
    + simpl. rewrite Hent.
      destruct (presentations showNext cs u st1) as [st2 out2].
      simpl in *. rewrite Hout, Hrest. by rewrite HEq.
  - destruct (showCandidate_first (users st) u p c st e0 Hpool He0 Hs Hq)
      as (st1 & Hent & Hpool1 & Hmid1 & _).
    destruct (presentations_mid showCandidate
                (λ st', samePool (users st) u p (users st')) E u)
      with (cs := cs) (k := 1%nat) (st := st1) as [_ [_ Hshown]]; try done.
    + intros c' st' k e Hinv He Hmid.
      destruct (showCandidate_mid (users st) u p c' st' k e Hinv He Hmid)
        as (st2 & ? & ? & ? & _). by exists st2.
    + rewrite HEq. simpl. lia.
    + simpl. rewrite Hent.
      destruct (presentations showCandidate cs u st1) as [st2 out2].
      simpl in *. by rewrite Hshown, Hall.
Qed.

Lemma queue_exhaustion_progress_witness :
  users freshState !! 1 = Some sampleUser
  ∧ limitOpen sampleUser
  ∧ shown (session (sessions freshState) 1) = []
  ∧ queueEmpty (session (sessions freshState) 1) = true
  ∧ eligible (users freshState) 1 sampleUser = [2; 3]
  ∧ (presentations showCandidate [noon; noon] 1 freshState).2
    = OCandidate <$> eligible (users freshState) 1 sampleUser
  ∧ (presentations showNext [noon; noon] 1 freshState).2
    = OCandidate <$> eligible (users freshState) 1 sampleUser.
Proof.
  assert (users freshState !! 1 = Some sampleUser) as Hp by reflexivity.
  assert (limitOpen sampleUser) as Hopen by (unfold limitOpen; simpl; lia).
  assert (shown (session (sessions freshState) 1) = []) as Hs by reflexivity.
  assert (queueEmpty (session (sessions freshState) 1) = true) as Hq
    by reflexivity.
  assert (eligible (users freshState) 1 sampleUser = [2; 3]) as HE
    by (vm_compute; reflexivity).
  assert (eligible (users freshState) 1 sampleUser ≠ []) as Hne
    by (rewrite HE; discriminate).
  assert (length [noon; noon] = length (eligible (users freshState) 1 sampleUser))
    as Hlen by (rewrite HE; reflexivity).
  destruct (queue_exhaustion_progress 1 freshState sampleUser [noon; noon]
              Hp Hopen Hs Hq Hne Hlen) as (_ & _ & Hc & Hn & _).
  split_and!; [exact Hp|exact Hopen|exact Hs|exact Hq|exact HE|exact Hc|exact Hn].
Defined.

(** The third presentation starts the next pass. *)
Example three_presentations :
  (presentations showCandidate [noon; noon; noon] 1 freshState).2
  = [OCandidate 2; OCandidate 3; OCandidate 2].
Proof. vm_compute. reflexivity. Qed.

(** * Properties of the handlers around the engine *)

(** ** More on the queue builder *)

Lemma Sorted_le_lt (l : list Z) : Sorted Z.le l → NoDup l → Sorted Z.lt l.
Proof.
  intros Hs Hnd. apply StronglySorted_Sorted.
  apply Sorted_StronglySorted in Hs; [|intros x y z; lia].
  induction Hs as [|a l Hs IH Hall]; [constructor|].
  apply NoDup_cons in Hnd as [Ha Hnd]. constructor; [by apply IH|].
  rewrite Forall_forall in Hall |- *. intros x Hx.
  specialize (Hall x Hx). assert (a ≠ x) by (by intros ->). lia.
Qed.

Lemma NoDup_anyCandidates us u ex s : NoDup (anyCandidates us u ex s).*1.
Proof.
  apply NoDup_fmap_fst.
  - intros v q1 q2 H1 H2.
    apply elem_of_anyCandidates in H1 as [_ H1].
    apply elem_of_anyCandidates in H2 as [_ H2]. simpl in *. congruence.
  - apply NoDup_filter, NoDup_map_to_list.
Qed.

Lemma NoDup_candidatesFor us u me ex s : NoDup (candidatesFor us u me ex s).*1.
Proof.
  unfold candidatesFor. case_bool_decide;
    [apply NoDup_anyCandidates|apply NoDup_candidates].
Qed.

Lemma sortById_ascending l : NoDup l.*1 → Sorted Z.lt (sortById l).
Proof.
  intros Hnd. apply Sorted_le_lt; [apply sortById_Sorted|].
  unfold sortById. by rewrite merge_sort_Permutation.
Qed.

Lemma not_shown_candidatesFor us u me s v :
  v ∈ sortById (candidatesFor us u me true s) → v ∉ shown s.
Proof.
  rewrite elem_of_sortById, list_elem_of_fmap. intros ([v' q] & -> & Hin).
  apply elem_of_candidatesFor in Hin as [Hany _].
  apply anyCandidate_true in Hany as (_ & _ & Hn). simpl in *. naive_solver.
Qed.

(** The two ways a build that excludes shown profiles ends. *)
Lemma buildCandidateQueue_true_cases us u me ss :
  us !! u = Some me →
  (strictCandidates us u me true (session ss u) = []
   ∧ shown (session ss u) ≠ []
   ∧ buildCandidateQueue us u true ss
     = (setSession u (with_shown []) ss,
        Some (sortById (candidatesFor us u me false (session ss u)))))
  ∨ ((strictCandidates us u me true (session ss u) ≠ []
      ∨ shown (session ss u) = [])
     ∧ buildCandidateQueue us u true ss
       = (getSession u ss,
          Some (sortById (candidatesFor us u me true (session ss u))))).
Proof.
  intros Hu.
  destruct (decide (strictCandidates us u me true (session ss u) = []
                    ∧ shown (session ss u) ≠ [])) as [[Hnil Hsh]|Hkeep].
  - left. split_and!; [done..|]. by apply buildCandidateQueue_true_reset.
  - right.
    assert (strictCandidates us u me true (session ss u) ≠ []
            ∨ shown (session ss u) = []) as Hk.
    { destruct (decide (strictCandidates us u me true (session ss u) = []));
        [right|by left].
      destruct (shown (session ss u)) eqn:E; [done|]. naive_solver. }
    split; [done|]. by apply buildCandidateQueue_true_keep.
Qed.

(** X1.  A build that excludes shown profiles returns the ids in strictly
    ascending order (so without repetition), and none of them is in the
    shown-set the session holds when the build returns. *)
Theorem queue_ascending_unseen us u me ss :
  us !! u = Some me →
  ∃ q, (buildCandidateQueue us u true ss).2 = Some q
       ∧ Sorted Z.lt q
       ∧ ∀ v, v ∈ q → v ∉ shown (session (buildCandidateQueue us u true ss).1 u).
Proof.
  intros Hu.
  destruct (buildCandidateQueue_true_cases us u me ss Hu)
    as [(_ & _ & ->)|[_ ->]]; simpl; eexists; (split; [done|]); split.
  - apply sortById_ascending, NoDup_candidatesFor.
  - intros v _. rewrite session_setSession. simpl. apply not_elem_of_nil.
  - apply sortById_ascending, NoDup_candidatesFor.
  - intros v Hv. rewrite session_getSession.
    by apply not_shown_candidatesFor in Hv.
Qed.

Lemma queue_ascending_unseen_witness :
  users crowdState !! 1 = Some sampleUser
  ∧ ∃ q, (buildCandidateQueue (users crowdState) 1 true (sessions crowdState)).2
         = Some q
         ∧ Sorted Z.lt q.
Proof.
  assert (users crowdState !! 1 = Some sampleUser) as Hu by reflexivity.
  split; [exact Hu|].
  destruct (queue_ascending_unseen (users crowdState) 1 sampleUser
              (sessions crowdState) Hu) as (q & Hq & Hs & _).
  exists q. split; [exact Hq|exact Hs].
Defined.

Lemma strictCandidates_weaken us u me ex s x :
  x ∈ strictCandidates us u me ex s → x ∈ strictCandidates us u me false newSession.
Proof.
  rewrite !elem_of_strictCandidates. intros [Hs Hl]. split; [|done].
  unfold strictCandidate in *. simpl.
  apply andb_prop in Hs as [Hs ->]. apply andb_prop in Hs as [-> _]. done.
Qed.

Lemma strictCandidates_false us u me s s' :
  strictCandidates us u me false s = strictCandidates us u me false s'.
Proof. done. Qed.

(** X2.  While the store holds at least one profile whose preferences and
    the user's align in both directions, every build returns a non-empty
    queue of such profiles only: the filter without preferences is not
    used, whatever the shown-set. *)
Theorem queue_prefers_compatible us u me ex ss :
  us !! u = Some me → eligible us u me ≠ [] →
  ∃ q, (buildCandidateQueue us u ex ss).2 = Some q
       ∧ q ≠ []
       ∧ ∀ v, v ∈ q →
           ∃ p, us !! v = Some p ∧ v ≠ 0 ∧ v ≠ u
                ∧ meLikesTargetGender me p = true
                ∧ targetLikesMeGender me p = true.
Proof.
  intros Hu HE.
  assert (strictCandidates us u me false newSession ≠ []) as Hne.
  { intros Hnil. apply HE. unfold eligible. by rewrite Hnil. }
  assert (∀ s, sortById (candidatesFor us u me false s) = eligible us u me) as Hf.
  { intros s. unfold candidatesFor, eligible.
    rewrite (strictCandidates_false us u me s newSession).
    by rewrite bool_decide_eq_false_2. }
  assert (∀ v, v ∈ eligible us u me →
            ∃ p, us !! v = Some p ∧ v ≠ 0 ∧ v ≠ u
                 ∧ meLikesTargetGender me p = true
                 ∧ targetLikesMeGender me p = true) as Hel.
  { intros v. by rewrite elem_of_eligible. }
  destruct ex.
  - destruct (buildCandidateQueue_true_cases us u me ss Hu)
      as [(_ & _ & ->)|[Hk ->]]; simpl.
    + rewrite Hf. by eexists.
    + assert (strictCandidates us u me true (session ss u) ≠ []) as Hne'.
      { destruct Hk as [|Hsh]; [done|].
        by rewrite (strictCandidates_fresh us u me _ newSession Hsh). }
      unfold candidatesFor. rewrite bool_decide_eq_false_2 by done.
      eexists. split; [done|]. split; [by rewrite sortById_nil|].
      intros v Hv. apply Hel. unfold eligible.
      rewrite elem_of_sortById, list_elem_of_fmap in Hv |- *.
      destruct Hv as (x & -> & Hx). exists x. split; [done|].
      by apply strictCandidates_weaken in Hx.
  - rewrite (buildCandidateQueue_false us u me ss Hu). simpl. rewrite Hf.
    by eexists.
Qed.

Lemma queue_prefers_compatible_witness :
  users crowdState !! 1 = Some sampleUser
  ∧ eligible (users crowdState) 1 sampleUser ≠ []
  ∧ ∃ q, (buildCandidateQueue (users crowdState) 1 true (sessions crowdState)).2
         = Some q ∧ q ≠ [].
Proof.
  assert (users crowdState !! 1 = Some sampleUser) as Hu by reflexivity.
  assert (eligible (users crowdState) 1 sampleUser ≠ []) as HE
    by (vm_compute; discriminate).
  split; [exact Hu|]. split; [exact HE|].
  destruct (queue_prefers_compatible (users crowdState) 1 sampleUser true
              (sessions crowdState) Hu HE) as (q & Hq & Hne & _).
  exists q. split; [exact Hq|exact Hne].
Defined.

(** ** Markdown escaping *)

Lemma escapeMarkdown_bind text :
  escapeMarkdown text
  = text ≫= λ ch, if isMarkdownSpecial ch then [92; ch]%N else [ch].
Proof. by destruct text. Qed.

Lemma escapeMarkdown_cons ch text :
  escapeMarkdown (ch :: text)
  = (if isMarkdownSpecial ch then [92; ch]%N else [ch]) ++ escapeMarkdown text.
Proof. by rewrite !escapeMarkdown_bind. Qed.

(** X3.  In the text [escapeMarkdown] returns, every character of the
    escaped class stands right after a backslash. *)
Theorem escapeMarkdown_guards text i ch :
  escapeMarkdown text !! i = Some ch → isMarkdownSpecial ch = true →
  ∃ j, i = S j ∧ escapeMarkdown text !! j = Some 92%N.
Proof.
  revert i. induction text as [|c text IH]; intros i Hi Hch; [done|].
  rewrite escapeMarkdown_cons in Hi |- *.
  destruct (isMarkdownSpecial c) eqn:Hc.
  - destruct i as [|[|i]]; simpl in Hi.
    + injection Hi as <-. done.
    + exists 0%nat. done.
    + destruct (IH i Hi Hch) as (j & -> & Hj). exists (S (S j)). done.
  - destruct i as [|i]; simpl in Hi.
    + injection Hi as <-. congruence.
    + destruct (IH i Hi Hch) as (j & -> & Hj). exists (S j). done.
Qed.

Lemma escapeMarkdown_guards_witness :
  escapeMarkdown starName !! 2%nat = Some 95%N
  ∧ isMarkdownSpecial 95 = true
  ∧ ∃ j, 2%nat = S j ∧ escapeMarkdown starName !! j = Some 92%N.
Proof.
  assert (escapeMarkdown starName !! 2%nat = Some 95%N) as Hi by reflexivity.
  assert (isMarkdownSpecial 95 = true) as Hch by reflexivity.
  split; [exact Hi|]. split; [exact Hch|].
  exact (escapeMarkdown_guards starName 2 95%N Hi Hch).
Defined.

Lemma stripBackslashes_app t1 t2 :
  stripBackslashes (t1 ++ t2) = stripBackslashes t1 ++ stripBackslashes t2.
Proof. apply filter_app. Qed.

(** X4.  Removing the backslashes from an escaped text, as the fallback
    of [/matches] does, gives the original text without its own
    backslashes: a text that has none comes back unchanged. *)
Theorem escapeMarkdown_stripped text :
  stripBackslashes (escapeMarkdown text) = stripBackslashes text
  ∧ (92%N ∉ text → stripBackslashes (escapeMarkdown text) = text).
Proof.
  assert (stripBackslashes (escapeMarkdown text) = stripBackslashes text) as Hs.
  { induction text as [|c text IH]; [done|].
    rewrite escapeMarkdown_cons, stripBackslashes_app, IH.
    transitivity (stripBackslashes [c] ++ stripBackslashes text);
      [|by rewrite <- stripBackslashes_app].
    f_equal. destruct (isMarkdownSpecial c) eqn:Hc; [|done].
    unfold stripBackslashes. rewrite (filter_cons_False _ 92%N [c]); [done|].
    intros H. by apply H. }
  split; [done|]. intros Hno. rewrite Hs. clear Hs. unfold stripBackslashes.
  induction text as [|c text IH]; [done|].
  apply not_elem_of_cons in Hno as [Hc Hno].
  rewrite (filter_cons_True _ c text) by done. f_equal. by apply IH.
Qed.

Lemma escapeMarkdown_stripped_witness :
(92%N ∉ starName) ∧ stripBackslashes (escapeMarkdown starName) = starName.
Proof.
  assert (92%N ∉ starName) as Hno by (by apply (bool_decide_unpack _)).
  split; [exact Hno|].
  exact (proj2 (escapeMarkdown_stripped starName) Hno).
Defined.

(** ** Payments *)

Lemma splitOn_nonempty sep t : splitOn sep t ≠ [].
Proof.
  destruct t as [|ch t]; [done|]. simpl. case_bool_decide; [done|].
  by destruct (splitOn sep t).
Qed.

Lemma splitOn_app sep a b :
  sep ∉ a → splitOn sep (a ++ sep :: b) = a :: splitOn sep b.
Proof.
  induction a as [|ch a IH]; intros Hno; simpl.
  - by rewrite bool_decide_eq_true_2.
  - apply not_elem_of_cons in Hno as [Hch Hno].
    rewrite bool_decide_eq_false_2 by done. by rewrite IH.
Qed.

(** The first part and the rest of a text with a separator in it. *)
Lemma splitOn_cons sep t a parts :
  splitOn sep t = a :: parts →
  (sep ∉ a)
  ∧ (parts = [] → t = a)
  ∧ (parts ≠ [] → ∃ b, t = a ++ sep :: b ∧ splitOn sep b = parts).
Proof.
  revert a parts. induction t as [|ch t IH]; intros a parts; simpl.
  - intros [= <- <-]. split_and!; [apply not_elem_of_nil|done..].
  - case_bool_decide as Hch.
    + intros [= <- <-]. subst ch. split_and!; [apply not_elem_of_nil| |].
      * intros Hnil. by destruct (splitOn_nonempty sep t).
      * intros _. by exists t.
    + destruct (splitOn sep t) as [|part parts'] eqn:E;
        [by destruct (splitOn_nonempty sep t)|].
      intros [= <- <-]. destruct (IH part parts' eq_refl) as (Hno & Hnil & Hne).
      split_and!.
      * apply not_elem_of_cons. naive_solver.
      * intros ->. by rewrite Hnil.
      * intros Hp. destruct (Hne Hp) as (b & -> & Hb). by exists b.
Qed.

Lemma underscore_app t : underscore ++ t = 95%N :: t.
Proof. done. Qed.

(** What [successful_payment] requires of a payload. *)
Lemma swipesToAdd_Some payload n :
  swipesToAdd payload = Some n ↔
  (n = 40 ∨ n = 80)
  ∧ ∃ packageType rest,
      payload = swipesTag ++ 95%N :: packageType ++ 95%N :: rest
      ∧ (95%N ∉ packageType) ∧ parseInt packageType = Some n.
Proof.
  unfold swipesToAdd. split.
  - destruct (splitOn 95 payload) as [|tag [|packageType [|third parts]]] eqn:E;
      try done.
    case_bool_decide as Htag; [|done]. subst tag.
    destruct (parseInt packageType) as [m|] eqn:Hm; [|done].
    case_bool_decide as Hn; [|done]. intros [= <-]. split; [done|].
    destruct (splitOn_cons _ _ _ _ E) as (_ & _ & Hne).
    destruct Hne as (b & -> & Hb); [done|].
    destruct (splitOn_cons _ _ _ _ Hb) as (Hno & _ & Hne).
    destruct Hne as (rest & -> & _); [done|].
    by exists packageType, rest.
  - intros (Hn & packageType & rest & -> & Hno & Hm).
    rewrite splitOn_app by (by apply (bool_decide_unpack _)).
    rewrite splitOn_app by done.
    destruct (splitOn 95 rest) as [|third parts] eqn:E;
      [by destruct (splitOn_nonempty 95%N rest)|].
    rewrite bool_decide_eq_true_2 by done. rewrite Hm.
    by rewrite bool_decide_eq_true_2.
Qed.

Lemma payload_shape packageType rest :
  swipesPrefix ++ packageType ++ underscore ++ rest
  = swipesTag ++ 95%N :: packageType ++ 95%N :: rest.
Proof. done. Qed.

Lemma prefix_swipes payload :
  startsWith swipesPrefix payload = true ↔ ∃ r, payload = swipesPrefix ++ r.
Proof. unfold startsWith. by rewrite bool_decide_eq_true. Qed.

Lemma length_splitOn_app sep a b :
  sep ∉ a →
  (3 ≤ length (splitOn sep (a ++ sep :: b)) ↔ sep ∈ b)%nat.
Proof.
  intros Hno. rewrite splitOn_app by done. simpl.
  destruct (splitOn sep b) as [|p parts] eqn:E;
    [by destruct (splitOn_nonempty sep b)|].
  destruct (splitOn_cons _ _ _ _ E) as (Hp & Hnil & Hne). simpl. split.
  - intros Hlen. destruct Hne as (b' & -> & _).
    { intros ->. simpl in Hlen. lia. }
    rewrite elem_of_app, elem_of_cons. naive_solver.
  - intros Hin. destruct parts as [|? ?]; [|simpl; lia].
    rewrite Hnil in Hin by done. done.
Qed.

Lemma onPreCheckout_Approved payload :
  onPreCheckout payload = Approved ↔
  ∃ r, payload = swipesPrefix ++ r ∧ 95%N ∈ r.
Proof.
  unfold onPreCheckout.
  destruct (startsWith swipesPrefix payload) eqn:Hpre; simpl.
  - apply prefix_swipes in Hpre as [r ->].
    assert (95%N ∉ swipesTag) as Hno by (by apply (bool_decide_unpack _)).
    pose proof (length_splitOn_app 95%N swipesTag r Hno) as Hlen.
    change (swipesPrefix ++ r) with (swipesTag ++ 95%N :: r).
    case_bool_decide as H3.
    + split; [done|]. intros (r' & Heq & Hin).
      assert (r = r') as <-.
      { unfold swipesPrefix, swipesTag in Heq. simpl in Heq.
        by injection Heq. }
      apply Hlen in Hin. lia.
    + split; [|done]. intros _. exists r. split; [done|]. apply Hlen. lia.
  - split; [done|]. intros (r & -> & _).
    assert (startsWith swipesPrefix (swipesPrefix ++ r) = true) as Ht.
    { apply prefix_swipes. by exists r. }
    change (startsWith swipesPrefix (swipesPrefix ++ r) = false) in Hpre.
    congruence.
Qed.

(** X5.  The pre-checkout query is approved exactly for the payloads that
    start with "swipes_" and hold a second "_"; every payload that
    [successful_payment] credits is among them. *)
Theorem precheckout_approves payload :
  (onPreCheckout payload = Approved ↔
   ∃ r, payload = swipesPrefix ++ r ∧ 95%N ∈ r)
  ∧ (is_Some (swipesToAdd payload) → onPreCheckout payload = Approved).
Proof.
  split; [apply onPreCheckout_Approved|]. intros [n Hn].
  apply onPreCheckout_Approved.
  apply swipesToAdd_Some in Hn as (_ & packageType & rest & -> & _ & _).
  exists (packageType ++ 95%N :: rest). split; [done|].
  rewrite elem_of_app, elem_of_cons. naive_solver.
Qed.

Lemma precheckout_approves_witness :
  is_Some (swipesToAdd (swipesPrefix ++ package40 ++ underscore ++ package80))
  ∧ onPreCheckout (swipesPrefix ++ package40 ++ underscore ++ package80)
    = Approved.
Proof.
  assert (is_Some (swipesToAdd
            (swipesPrefix ++ package40 ++ underscore ++ package80))) as Hn
    by (exists 40; reflexivity).
  split; [exact Hn|].
  exact (proj2 (precheckout_approves _) Hn).
Defined.

(** X6.  A payload of the form "swipes_<package>_..." whose package does
    not parse to 40 or 80 is approved at pre-checkout, and the successful
    payment then changes nothing and sends nothing. *)
Theorem payment_dropped_silently packageType rest c u st :
  95%N ∉ packageType →
  parseInt packageType ≠ Some 40 → parseInt packageType ≠ Some 80 →
  let payload := swipesPrefix ++ packageType ++ underscore ++ rest in
  onPreCheckout payload = Approved
  ∧ onSuccessfulPayment c u payload st = (st, []).
Proof.
  intros Hno H40 H80 payload. subst payload. split.
  - apply onPreCheckout_Approved.
    exists (packageType ++ underscore ++ rest).
    split; [done|]. unfold underscore.
    rewrite !elem_of_app, list_elem_of_singleton. naive_solver.
  - unfold onSuccessfulPayment.
    destruct (swipesToAdd _) as [n|] eqn:Hn; [|done].
    apply swipesToAdd_Some in Hn as (Hn & pt & rest' & Heq & Hno' & Hp).
    rewrite payload_shape in Heq. apply app_inv_head in Heq.
    injection Heq as Heq.
    assert (packageType = pt) as ->.
    { clear -Heq Hno Hno'. revert pt Heq Hno'.
      induction packageType as [|a l IH]; intros [|b l'] Heq Hno'; simpl in *.
      - done.
      - injection Heq as <- _. apply not_elem_of_cons in Hno'. naive_solver.
      - injection Heq as -> _. apply not_elem_of_cons in Hno. naive_solver.
      - injection Heq as -> Heq. f_equal.
        apply not_elem_of_cons in Hno as [_ Hno].
        apply not_elem_of_cons in Hno' as [_ Hno']. by apply IH. }
    naive_solver.
Qed.

Lemma payment_dropped_silently_witness :
(95%N ∉ [50; 48]%N)
  ∧ parseInt [50; 48]%N ≠ Some 40 ∧ parseInt [50; 48]%N ≠ Some 80
  ∧ onSuccessfulPayment noon 1 (swipesPrefix ++ [50; 48]%N ++ underscore ++ hi)
      pairState
    = (pairState, []).
Proof.
  assert (95%N ∉ [50; 48]%N) as Hno by (by apply (bool_decide_unpack _)).
  assert (parseInt [50; 48]%N ≠ Some 40) as H40 by (vm_compute; discriminate).
  assert (parseInt [50; 48]%N ≠ Some 80) as H80 by (vm_compute; discriminate).
  split; [exact Hno|]. split; [exact H40|]. split; [exact H80|].
  exact (proj2 (payment_dropped_silently [50; 48]%N hi noon 1 pairState
                  Hno H40 H80)).
Defined.

(** ** What a presentation does to the profiles *)

Lemma showNext_users c u st :
  (users (showNext c u st).1 = users st
   ∨ users (showNext c u st).1 = alter (roll c) u (users st))
  ∧ deletionReasons (showNext c u st).1 = deletionReasons st.
Proof.
  unfold showNext. destruct (users st !! u); [|by auto].
  pose proof (getAvailableSwipes_roll c u (users st)) as Hroll.
  destruct (getAvailableSwipes c u (users st)) as [us1 av]. simpl in Hroll.
  subst us1. case_bool_decide; [by auto|]. case_match; [by auto|].
  case_bool_decide; [by auto|].
  match goal with
  | |- context [showCandidate c u ?s] =>
      pose proof (showCandidateN_users 2 c u s) as [Hu Hd]
  end.
  fold showCandidate in Hu, Hd. rewrite Hu, Hd. simpl.
  rewrite alter_roll_idem. auto.
Qed.

Lemma showCandidate_users c u st :
  users (showCandidate c u st).1 = alter (roll c) u (users st)
  ∧ deletionReasons (showCandidate c u st).1 = deletionReasons st.
Proof. apply (showCandidateN_users 2). Qed.

Lemma lookup_alter_roll c u (us : gmap Z User) v :
  alter (roll c) u us !! v
  = (if decide (u = v) then roll c else id) <$> us !! v.
Proof. apply lookup_alter_fmap. Qed.

(** X7.  Looking at candidates is free: [showCandidate] and [showNext]
    leave every profile as it is, except that the daily counter of the
    user is reset when the day has changed; no swipe is counted, no credit
    taken, and [likes], [matches] and [recentLikes] stay as they are. *)
Theorem presentation_is_free c u st v p :
  users st !! v = Some p →
  (users (showCandidate c u st).1 !! v
   = Some (if decide (u = v) then roll c p else p))
  ∧ (users (showNext c u st).1 !! v = Some p
     ∨ users (showNext c u st).1 !! v
       = Some (if decide (u = v) then roll c p else p))
  ∧ likes (roll c p) = likes p ∧ matches (roll c p) = matches p
  ∧ recentLikes (roll c p) = recentLikes p
  ∧ purchasedSwipes (roll c p) = purchasedSwipes p
  ∧ (dailySwipes (roll c p) = dailySwipes p ∨ dailySwipes (roll c p) = 0).
Proof.
  intros Hv.
  destruct (showCandidate_users c u st) as [Hc _].
  destruct (showNext_users c u st) as [Hn _].
  destruct (roll_social c p) as (Hl & Hm & Hr & _ & _ & Hpur).
  split_and!; [| |done..|].
  - rewrite Hc, lookup_alter_roll, Hv. simpl. by case_decide.
  - destruct Hn as [-> | ->]; [by left|right].
    rewrite lookup_alter_roll, Hv. simpl. by case_decide.
  - unfold roll. case_decide; [by left|by right].
Qed.

Lemma presentation_is_free_witness :
  users freshState !! 1 = Some sampleUser
  ∧ users (showCandidate noon 1 freshState).1 !! 1
    = Some (if decide (1 = 1) then roll noon sampleUser else sampleUser).
Proof.
  assert (users freshState !! 1 = Some sampleUser) as Hv by reflexivity.
  split; [exact Hv|].
  exact (proj1 (presentation_is_free noon 1 freshState 1 sampleUser Hv)).
Defined.

(** ** The front of a queue that is in place *)

Lemma showNext_present c u st p t rest :
  users st !! u = Some p →
  lastPreference (session (sessions st) u) = Some (default men (looking p)) →
  queue (session (sessions st) u) = Some (t :: rest) → t ≠ 0 →
  (1 < size (users st))%nat →
  0 < total (getAvailableSwipes c u (users st)).2 →
  showNext c u st
  = (mkState (alter (roll c) u (users st)) (deletionReasons st)
       (setSession u
          (λ s, with_shown (pushNew t (shown s)) (with_queue (Some rest) s))
          (sessions st)),
     [OCandidate t]).
Proof.
  intros Hp Hpref Hq Ht Hsz Htot.
  assert (queueEmpty (session (sessions st) u) = false) as Hne.
  { unfold queueEmpty. by rewrite Hq. }
  unfold showNext. rewrite Hp.
  rewrite session_getSession. rewrite decide_True by done.
  rewrite session_getSession, Hne.
  rewrite bool_decide_eq_false_2 by lia.
  rewrite session_getSession, Hne.
  rewrite session_getSession, Hne.
  pose proof (getAvailableSwipes_roll c u (users st)) as Hroll.
  destruct (getAvailableSwipes c u (users st)) as [us1 av] eqn:Eav.
  simpl in Hroll, Htot. subst us1.
  rewrite bool_decide_eq_false_2 by lia.
  rewrite (showCandidate_present c u _ (roll c p) t rest); cbn [users sessions].
  - cbn [deletionReasons]. rewrite alter_roll_idem.
    by rewrite setSession_getSession.
  - by rewrite lookup_alter_eq, Hp.
  - by rewrite total_roll, Eav.
  - by rewrite session_getSession.
  - done.
Qed.

(** ** Crediting a payment *)

(** What the rollover check returns is the counter of the profile it
    leaves in the store. *)
Lemma check_value c u us p :
  us !! u = Some p →
  (checkAndResetDailySwipes c u us).2 = dailySwipes (roll c p).
Proof.
  intros Hp. unfold roll.
  destruct (decide (lastResetDate (tzOffset c) p = Some (today c))) as [E|E].
  - by rewrite (check_same_day c u us p Hp E).
  - by rewrite (check_new_day c u us p Hp E).
Qed.

Lemma getAvailableSwipes_value c u us p :
  us !! u = Some p →
  getAvailableSwipes c u us
  = (alter (roll c) u us,
     mkSwipes (Z.max 0 (20 - dailySwipes (roll c p))) (purchasedSwipes p)
              (Z.max 0 (20 - dailySwipes (roll c p)) + purchasedSwipes p)).
Proof.
  intros Hp. rewrite (getAvailableSwipes_eq c u us p Hp).
  by rewrite check_roll, (check_value c u us p Hp).
Qed.

Lemma roll_counters c p p' :
  lastSwipeReset p' = lastSwipeReset p → dailySwipes p' = dailySwipes p →
  dailySwipes (roll c p') = dailySwipes (roll c p).
Proof.
  intros Hr Hd. unfold roll, lastResetDate. rewrite Hr.
  case_decide; [done|]. done.
Qed.

Lemma swipesToAdd_package pkg n rest :
  (pkg, n) = (package40, 40) ∨ (pkg, n) = (package80, 80) →
  swipesToAdd (swipesPrefix ++ pkg ++ underscore ++ rest) = Some n.
Proof.
  intros Hpkg. apply swipesToAdd_Some.
  split; [naive_solver|]. exists pkg, rest. rewrite payload_shape.
  destruct Hpkg as [[= -> ->]|[= -> ->]];
    (split_and!; [done|by apply (bool_decide_unpack _)|reflexivity]).
Qed.

(** X8.  A successful payment whose payload is "swipes_40_..." or
    "swipes_80_..." adds 40 or 80 to the [purchasedSwipes] of the sender,
    whatever follows the package in the payload; nothing else changes in
    the store but the sender's daily rollover, and the confirmation
    reports the new balance. *)
Theorem payment_credits_sender c u st p pkg n rest :
  users st !! u = Some p →
  (pkg, n) = (package40, 40) ∨ (pkg, n) = (package80, 80) →
  let r := onSuccessfulPayment c u (swipesPrefix ++ pkg ++ underscore ++ rest) st in
  users r.1
  = alter (roll c) u
      (<[u := with_purchasedSwipes (purchasedSwipes p + n) p]> (users st))
  ∧ deletionReasons r.1 = deletionReasons st
  ∧ ∃ out,
      r.2 = PaymentSuccessful n
              (mkSwipes (Z.max 0 (20 - dailySwipes (roll c p)))
                        (purchasedSwipes p + n)
                        (Z.max 0 (20 - dailySwipes (roll c p))
                         + (purchasedSwipes p + n))) :: out.
Proof.
  intros Hp Hpkg r. subst r. unfold onSuccessfulPayment.
  rewrite (swipesToAdd_package pkg n rest Hpkg), Hp.
  rewrite (alter_insert_eq _ _ _ p Hp).
  set (p1 := with_purchasedSwipes (purchasedSwipes p + n) p).
  rewrite (getAvailableSwipes_value c u _ p1) by apply lookup_insert_eq.
  rewrite (roll_counters c p p1) by done. cbn [purchasedSwipes p1 with_purchasedSwipes].
  destruct (queueEmpty _).
  - simpl. split_and!; [done..|]. by eexists.
  - match goal with
    | |- context [showCandidate c u ?s] =>
        pose proof (showCandidate_users c u s) as [Hu Hd];
        destruct (showCandidate c u s) as [st2 out]
    end.
    simpl in *. rewrite Hu, Hd, alter_roll_idem.
    split_and!; [done..|]. by eexists.
Qed.

Lemma payment_credits_sender_witness :
  users pairState !! 1 = Some sampleUser
  ∧ users (onSuccessfulPayment noon 1
             (swipesPrefix ++ package40 ++ underscore ++ hi) pairState).1
    = alter (roll noon) 1
        (<[1 := with_purchasedSwipes (purchasedSwipes sampleUser + 40) sampleUser]>
           (users pairState)).
Proof.
  assert (users pairState !! 1 = Some sampleUser) as Hp by reflexivity.
  split; [exact Hp|].
  exact (proj1 (payment_credits_sender noon 1 pairState sampleUser package40 40
                  hi Hp (or_introl eq_refl))).
Defined.

(** X9.  A credited payment lifts the limit: for a balance that was not
    negative the total reported is at least 40, and when the session
    holds a queue the payment handler goes on to present its front
    entry. *)
Theorem payment_resumes_swiping c u st p pkg n rest t q :
  users st !! u = Some p → 0 ≤ purchasedSwipes p →
  (pkg, n) = (package40, 40) ∨ (pkg, n) = (package80, 80) →
  queueFront (session (sessions st) u) t q →
  let r := onSuccessfulPayment c u (swipesPrefix ++ pkg ++ underscore ++ rest) st in
  (∃ av, r.2 = [PaymentSuccessful n av; Engine (OCandidate t)] ∧ 40 ≤ total av)
  ∧ queue (session (sessions r.1) u) = Some q
  ∧ shown (session (sessions r.1) u) = pushNew t (shown (session (sessions st) u)).
Proof.
  intros Hp Hpur Hpkg [Hq Ht] r. subst r. unfold onSuccessfulPayment.
  rewrite (swipesToAdd_package pkg n rest Hpkg), Hp.
  rewrite (alter_insert_eq _ _ _ p Hp).
  set (p1 := with_purchasedSwipes (purchasedSwipes p + n) p).
  assert (<[u:=p1]> (users st) !! u = Some p1) as Hp1 by apply lookup_insert_eq.
  rewrite (getAvailableSwipes_value c u _ p1 Hp1).
  assert (40 ≤ n) as Hn by (destruct Hpkg as [[= _ ->]|[= _ ->]]; lia).
  assert (queueEmpty (session (getSession u (sessions st)) u) = false) as ->.
  { unfold queueEmpty. by rewrite session_getSession, Hq. }
  rewrite (showCandidate_present c u _ (roll c p1) t q); cbn [users sessions].
  - cbn [fst snd sessions]. rewrite !session_setSession, session_getSession.
    cbn [queue shown with_shown with_queue].
    split_and!; [|done..]. eexists. split; [done|].
    cbn [total purchasedSwipes p1 with_purchasedSwipes]. lia.
  - by rewrite lookup_alter_eq, Hp1.
  - rewrite total_roll, (getAvailableSwipes_value c u _ p1 Hp1). simpl. lia.
  - by rewrite session_getSession.
  - done.
Qed.

Lemma payment_resumes_swiping_witness :
  users waitingState !! 1 = Some exhaustedUser
  ∧ 0 ≤ purchasedSwipes exhaustedUser
  ∧ queueFront (session (sessions waitingState) 1) 2 [3]
  ∧ total (getAvailableSwipes noon 1 (users waitingState)).2 = 0
  ∧ ∃ av, (onSuccessfulPayment noon 1
             (swipesPrefix ++ package80 ++ underscore ++ hi) waitingState).2
          = [PaymentSuccessful 80 av; Engine (OCandidate 2)] ∧ 40 ≤ total av.
Proof.
  assert (users waitingState !! 1 = Some exhaustedUser) as Hp by reflexivity.
  assert (0 ≤ purchasedSwipes exhaustedUser) as Hpur by (simpl; lia).
  assert (queueFront (session (sessions waitingState) 1) 2 [3]) as Hq
    by (split; [reflexivity|lia]).
  split; [exact Hp|]. split; [exact Hpur|]. split; [exact Hq|].
  split; [reflexivity|].
  exact (proj1 (payment_resumes_swiping noon 1 waitingState exhaustedUser
                  package80 80 hi 2 [3] Hp Hpur (or_intror eq_refl) Hq)).
Defined.

(** ** Editing the gender and the preference *)

Lemma getAvailableSwipes_insert c u us p p' :
  us !! u = Some p →
  dailySwipes p' = dailySwipes p → lastSwipeReset p' = lastSwipeReset p →
  purchasedSwipes p' = purchasedSwipes p →
  (getAvailableSwipes c u (<[u := p']> us)).2 = (getAvailableSwipes c u us).2.
Proof.
  intros Hp Hd Hr Hpur.
  rewrite (getAvailableSwipes_value c u _ p') by apply lookup_insert_eq.
  rewrite (getAvailableSwipes_value c u _ p Hp). simpl.
  by rewrite (roll_counters c p p'), Hpur.
Qed.

Lemma size_insert_same (us : gmap Z User) u p p' :
  us !! u = Some p → size (<[u := p']> us) = size us.
Proof. intros Hp. by apply map_size_insert_Some. Qed.

(** X10.  Changing the preference does not rebuild a queue that is in
    place.  The edit handler itself stores the new value as the session's
    [lastPreference], so the [showNext] it calls sees no change: with
    swipes left, the front entry of the queue built for the old preference
    is presented, and the rest of that queue stays. *)
Theorem edit_looking_keeps_queue c u l st p t q :
  users st !! u = Some p →
  queueFront (session (sessions st) u) t q →
  (1 < size (users st))%nat →
  0 < total (getAvailableSwipes c u (users st)).2 →
  let r := onEditLooking c u l st in
  r.2 = [PreferenceUpdated l; Engine (OCandidate t)]
  ∧ queue (session (sessions r.1) u) = Some q
  ∧ shown (session (sessions r.1) u) = [t]
  ∧ lastPreference (session (sessions r.1) u) = Some l
  ∧ looking <$> users r.1 !! u = Some (Some l).
Proof.
  intros Hp [Hq Ht] Hsz Htot r. subst r. unfold onEditLooking, thenNext.
  rewrite Hp.
  set (p1 := with_looking (Some l) p).
  set (ss := setSession u _ _).
  rewrite (showNext_present c u _ p1 t q); cbn [users sessions deletionReasons].
  - cbn [fst snd sessions users]. subst ss.
    rewrite !session_setSession, session_getSession.
    rewrite lookup_alter_eq, lookup_insert_eq. simpl.
    split_and!; [done..|].
    destruct (roll_social c p1) as (_ & _ & _ & _ & -> & _). done.
  - apply lookup_insert_eq.
  - subst ss. by rewrite session_setSession.
  - subst ss. rewrite session_setSession, session_getSession. by simpl.
  - done.
  - by rewrite (size_insert_same _ _ p).
  - by rewrite (getAvailableSwipes_insert c u _ p p1).
Qed.

Lemma edit_looking_keeps_queue_witness :
  users editState !! 1 = Some sampleUser
  ∧ queueFront (session (sessions editState) 1) 2 [3]
  ∧ (1 < size (users editState))%nat
  ∧ 0 < total (getAvailableSwipes noon 1 (users editState)).2
  ∧ eligible (users (onEditLooking noon 1 men editState).1) 1
      (with_looking (Some men) sampleUser) = [4]
  ∧ (onEditLooking noon 1 men editState).2
    = [PreferenceUpdated men; Engine (OCandidate 2)].
Proof.
  assert (users editState !! 1 = Some sampleUser) as Hp by reflexivity.
  assert (queueFront (session (sessions editState) 1) 2 [3]) as Hq
    by (split; [reflexivity|lia]).
  assert (1 < size (users editState))%nat as Hsz by (vm_compute; lia).
  assert (0 < total (getAvailableSwipes noon 1 (users editState)).2) as Htot
    by (vm_compute; reflexivity).
  split; [exact Hp|]. split; [exact Hq|]. split; [exact Hsz|].
  split; [exact Htot|]. split; [vm_compute; reflexivity|].
  exact (proj1 (edit_looking_keeps_queue noon 1 men editState sampleUser 2 [3]
                  Hp Hq Hsz Htot)).
Defined.

(** X11.  When the session holds no queue, the edit of the preference
    is followed by a fresh pass under the new preference: the first
    profile compatible with it is presented and the others are queued. *)
Theorem edit_looking_rebuilds c u l st p t q :
  users st !! u = Some p → limitOpen p →
  queueEmpty (session (sessions st) u) = true →
  eligible (<[u := with_looking (Some l) p]> (users st)) u
    (with_looking (Some l) p) = t :: q →
  let r := onEditLooking c u l st in
  r.2 = [PreferenceUpdated l; Engine (OCandidate t)]
  ∧ queue (session (sessions r.1) u) = Some q
  ∧ shown (session (sessions r.1) u) = [t].
Proof.
  intros Hp Hopen Hempty HE r. subst r. unfold onEditLooking, thenNext.
  rewrite Hp.
  set (p1 := with_looking (Some l) p) in *.
  set (us1 := <[u:=p1]> (users st)) in *.
  set (ss := setSession u _ _).
  destruct (showNext_first us1 u p1 c (mkState us1 (deletionReasons st) ss) t)
    as (st' & -> & _ & [Hq' Hs'] & _); cbn [users sessions].
  - split; [done|]. exists p1. split; [apply lookup_insert_eq|]. done.
  - by rewrite HE.
  - subst ss. by rewrite session_setSession.
  - subst ss. rewrite session_setSession, session_getSession.
    unfold queueEmpty in *. simpl. done.
  - cbn [fst snd]. rewrite HE in Hq', Hs'. simpl in Hq', Hs'.
    rewrite drop_0 in Hq'. done.
Qed.

Lemma edit_looking_rebuilds_witness :
  users pairState !! 2 = Some receiver ∧ limitOpen receiver
  ∧ queueEmpty (session (sessions pairState) 2) = true
  ∧ (onEditLooking noon 2 men pairState).2
    = [PreferenceUpdated men; Engine (OCandidate 1)].
Proof.
  assert (users pairState !! 2 = Some receiver) as Hp by reflexivity.
  assert (limitOpen receiver) as Hopen by (unfold limitOpen; simpl; lia).
  assert (queueEmpty (session (sessions pairState) 2) = true) as He
    by reflexivity.
  split; [exact Hp|]. split; [exact Hopen|]. split; [exact He|].
  refine (proj1 (edit_looking_rebuilds noon 2 men pairState receiver 1 []
                   Hp Hopen He _)).
  vm_compute. reflexivity.
Defined.

(** X12.  Changing the gender leaves the session as it is: with the
    preference unchanged, a queue in place and swipes left, the front
    entry of the old queue is presented and added to the shown-set, and
    the profile keeps everything but its gender. *)
Theorem edit_gender_keeps_queue c u g st p t q :
  users st !! u = Some p →
  lastPreference (session (sessions st) u) = Some (default men (looking p)) →
  queueFront (session (sessions st) u) t q →
  (1 < size (users st))%nat →
  0 < total (getAvailableSwipes c u (users st)).2 →
  let r := onEditGender c u g st in
  r.2 = [GenderUpdated g; Engine (OCandidate t)]
  ∧ queue (session (sessions r.1) u) = Some q
  ∧ shown (session (sessions r.1) u) = pushNew t (shown (session (sessions st) u))
  ∧ users r.1 = alter (roll c) u (<[u := with_gender (Some g) p]> (users st)).
Proof.
  intros Hp Hpref [Hq Ht] Hsz Htot r. subst r. unfold onEditGender, thenNext.
  rewrite Hp.
  set (p1 := with_gender (Some g) p).
  rewrite (showNext_present c u _ p1 t q);
    cbn [users sessions deletionReasons with_users].
  - cbn [fst snd sessions users]. rewrite !session_setSession. done.
  - apply lookup_insert_eq.
  - done.
  - done.
  - done.
  - by rewrite (size_insert_same _ _ p).
  - by rewrite (getAvailableSwipes_insert c u _ p p1).
Qed.

Lemma edit_gender_keeps_queue_witness :
  users editState !! 1 = Some sampleUser
  ∧ lastPreference (session (sessions editState) 1)
    = Some (default men (looking sampleUser))
  ∧ queueFront (session (sessions editState) 1) 2 [3]
  ∧ (1 < size (users editState))%nat
  ∧ 0 < total (getAvailableSwipes noon 1 (users editState)).2
  ∧ (onEditGender noon 1 female editState).2
    = [GenderUpdated female; Engine (OCandidate 2)].
Proof.
  assert (users editState !! 1 = Some sampleUser) as Hp by reflexivity.
  assert (lastPreference (session (sessions editState) 1)
          = Some (default men (looking sampleUser))) as Hl by reflexivity.
  assert (queueFront (session (sessions editState) 1) 2 [3]) as Hq
    by (split; [reflexivity|lia]).
  assert (1 < size (users editState))%nat as Hsz by (vm_compute; lia).
  assert (0 < total (getAvailableSwipes noon 1 (users editState)).2) as Htot
    by (vm_compute; reflexivity).
  split; [exact Hp|]. split; [exact Hl|]. split; [exact Hq|].
  split; [exact Hsz|]. split; [exact Htot|].
  exact (proj1 (edit_gender_keeps_queue noon 1 female editState sampleUser 2 [3]
                  Hp Hl Hq Hsz Htot)).
Defined.

(** ** Reports *)

Lemma existingReport_false u t rs :
  existingReport u t rs = false ↔
  (u, t) ∉ (λ r, (reporterId r, reportedId r)) <$> rs.
Proof.
  unfold existingReport. rewrite bool_decide_eq_false, Exists_exists.
  rewrite list_elem_of_fmap. split.
  - intros Hno [r [[= -> ->] Hr]]. apply Hno. by exists r.
  - intros Hno (r & Hr & <- & <-). apply Hno. by exists r.
Qed.

(** X13.  A report is neither counted as a swipe nor held back by the
    limit: for a reporter and a reported user with profiles and no
    earlier report of the pair, the report is stored with the time of the
    click, no profile changes but for the reporter's daily rollover, and
    at the limit the answer is the acknowledgement followed by the
    purchase offer. *)
Theorem report_is_free c u t w p :
  users (engine w) !! u = Some p → is_Some (users (engine w) !! t) →
  existingReport u t (reports w) = false →
  let r := onReport c u t w in
  reports r.1 = reports w ++ [mkReport u t (now c)]
  ∧ users (engine r.1) = alter (roll c) u (users (engine w))
  ∧ (∃ out, r.2 = UserReported :: (Engine <$> out))
  ∧ (0 ≤ purchasedSwipes p →
     total (getAvailableSwipes c u (users (engine w))).2 = 0 →
     r = (mkWorld (engine w) (reports w ++ [mkReport u t (now c)]),
          [UserReported; Engine OPurchaseOffer])).
Proof.
  intros Hp [q Hq] Hnew r. subst r. unfold onReport. rewrite Hp, Hq, Hnew.
  split_and!.
  - by destruct (showCandidate c u (engine w)).
  - destruct (showCandidate_users c u (engine w)) as [Hu _].
    by destruct (showCandidate c u (engine w)).
  - destruct (showCandidate c u (engine w)). by eexists.
  - intros Hpur Htot.
    by rewrite (showCandidate_limit c u (engine w) p Hp Hpur Htot).
Qed.

Lemma report_is_free_witness :
  users (engine quietWorld) !! 1 = Some exhaustedUser
  ∧ is_Some (users (engine quietWorld) !! 2)
  ∧ existingReport 1 2 (reports quietWorld) = false
  ∧ reports (onReport noon 1 2 quietWorld).1 = [] ++ [mkReport 1 2 (now noon)].
Proof.
  assert (users (engine quietWorld) !! 1 = Some exhaustedUser) as Hp
    by reflexivity.
  assert (is_Some (users (engine quietWorld) !! 2)) as Hq
    by (exists receiver; reflexivity).
  assert (existingReport 1 2 (reports quietWorld) = false) as Hnew
    by reflexivity.
  split; [exact Hp|]. split; [exact Hq|]. split; [exact Hnew|].
  exact (proj1 (report_is_free noon 1 2 quietWorld exhaustedUser Hp Hq Hnew)).
Defined.

Lemma reports_act c a w :
  reports (act c a w).1 = reports w
  ∨ ∃ u t, a = AReport u t ∧ existingReport u t (reports w) = false
           ∧ reports (act c a w).1 = reports w ++ [mkReport u t (now c)].
Proof.
  destruct a as [e|u g|u l|u payload|u t|u]; simpl; try (by left).
  - left. by destruct (handle c e (engine w)).
  - unfold onReport. destruct (users (engine w) !! u); [|by left].
    destruct (users (engine w) !! t); [|by left].
    destruct (existingReport u t (reports w)) eqn:E; [by left|].
    right. exists u, t. split_and!; [done..|].
    by destruct (showCandidate c u (engine w)).
Qed.

(** X14.  Each user is reported at most once by each reporter: if no two
    stored reports have the same reporter and the same reported user, no
    run of handlers produces such a pair of reports. *)
Theorem reports_stay_unique acts w :
  uniqueReports (reports w) → uniqueReports (reports (serve acts w)).
Proof.
  revert w. induction acts as [|[c a] acts IH]; intros w Hw; [done|].
  simpl. apply IH.
  destruct (reports_act c a w) as [->|(u & t & _ & Hnew & ->)]; [done|].
  unfold uniqueReports in *. rewrite fmap_app. simpl.
  apply NoDup_app. split_and!; [done| |apply NoDup_singleton].
  intros x Hx ->%list_elem_of_singleton.
  by apply existingReport_false in Hnew.
Qed.

Lemma reports_stay_unique_witness :
  uniqueReports (reports quietWorld)
  ∧ uniqueReports
      (reports (serve [(noon, AReport 1 2); (noon, AReport 1 2)] quietWorld)).
Proof.
  assert (uniqueReports (reports quietWorld)) as Hw by apply NoDup_nil_2.
  split; [exact Hw|].
  exact (reports_stay_unique [(noon, AReport 1 2); (noon, AReport 1 2)]
           quietWorld Hw).
Defined.

(** ** The overview of likes and matches *)

Lemma elem_of_peopleWhoLikedYou us u me v :
  v ∈ (peopleWhoLikedYou us u me).*1 ↔ likedBy us u me v.
Proof.
  unfold peopleWhoLikedYou, likedBy. rewrite list_elem_of_fmap. split.
  - intros ([v' q] & -> & Hin). apply list_elem_of_filter in Hin as [Hf Hl].
    apply elem_of_map_to_list in Hl. simpl in *. rewrite Hl. simpl.
    apply Is_true_true in Hf.
    rewrite !andb_true_iff, negb_true_iff, !bool_decide_eq_true,
      bool_decide_eq_false in Hf. naive_solver.
  - intros (H0 & Hu & Hl & Hm).
    destruct (us !! v) as [q|] eqn:Hq; [|by apply elem_of_nil in Hl].
    exists (v, q). split; [done|]. apply list_elem_of_filter. split.
    + apply Is_true_true. simpl in *.
      rewrite !andb_true_iff, negb_true_iff, !bool_decide_eq_true,
        bool_decide_eq_false. naive_solver.
    + by apply elem_of_map_to_list.
Qed.

Lemma NoDup_peopleWhoLikedYou us u me : NoDup (peopleWhoLikedYou us u me).*1.
Proof.
  apply NoDup_fmap_fst.
  - intros v q1 q2 H1 H2.
    apply list_elem_of_filter in H1 as [_ H1].
    apply list_elem_of_filter in H2 as [_ H2].
    apply elem_of_map_to_list in H1, H2. congruence.
  - apply NoDup_filter, NoDup_map_to_list.
Qed.

Lemma indexOf_nonneg x l : 0 ≤ indexOf x l ↔ x ∈ l.
Proof.
  induction l as [|y l IH]; simpl.
  - split; [lia|]. intros H. by apply elem_of_nil in H.
  - rewrite elem_of_cons. case_decide as E; [subst; split; [by left|lia]|].
    case_decide as Hi.
    + split; [lia|]. intros [->|Hin]; [done|]. apply IH in Hin. lia.
    + split; [|lia]. intros _. right. apply IH. lia.
Qed.

Lemma indexOf_bound x l : -1 ≤ indexOf x l.
Proof.
  induction l as [|y l IH]; simpl; [lia|].
  case_decide; [lia|]. case_decide; lia.
Qed.

Lemma indexOf_inj x y l :
  x ∈ l → indexOf x l = indexOf y l → x = y.
Proof.
  induction l as [|z l IH]; simpl; intros Hx; [by apply elem_of_nil in Hx|].
  pose proof (indexOf_bound x l). pose proof (indexOf_bound y l).
  repeat case_decide; try lia; try congruence;
    (intros Heq; apply IH; [|lia]; by apply elem_of_cons in Hx as [->|Hx]).
Qed.

Lemma byIndex_trans l : Transitive (byIndex l).
Proof. intros x y z. unfold byIndex. lia. Qed.

Lemma byIndex_total l : Total (byIndex l).
Proof. intros x y. unfold byIndex. lia. Qed.

Lemma StronglySorted_impl_on {A} (R1 R2 : relation A) (l : list A) :
  (∀ a b, a ∈ l → b ∈ l → R1 a b → R2 a b) →
  StronglySorted R1 l → StronglySorted R2 l.
Proof.
  intros Himp Hs. induction Hs as [|a l Hs IH Hall]; [constructor|].
  constructor.
  - apply IH. intros x y Hx Hy. apply Himp; by right.
  - rewrite Forall_forall in Hall |- *. intros x Hx.
    apply Himp; [by left|by right|by apply Hall].
Qed.

(** A duplicate-free list, filtered, is sorted by the index in itself. *)
Lemma StronglySorted_filter_index (P : Z → Prop) `{∀ x, Decision (P x)} l :
  NoDup l → StronglySorted (byIndex l) (filter P l).
Proof.
  induction l as [|y l IH]; intros Hnd; [constructor|].
  apply NoDup_cons in Hnd as [Hy Hnd].
  assert (StronglySorted (byIndex (y :: l)) (filter P l)) as Htl.
  { apply (StronglySorted_impl_on (byIndex l)); [|by apply IH].
    intros a b Ha Hb. apply list_elem_of_filter in Ha as [_ Ha].
    apply list_elem_of_filter in Hb as [_ Hb].
    unfold byIndex. simpl.
    apply indexOf_nonneg in Ha as Ha'. apply indexOf_nonneg in Hb as Hb'.
    repeat case_decide; subst; try done; lia. }
  rewrite filter_cons. case_decide; [|done].
  constructor; [done|]. rewrite Forall_forall. intros b Hb.
  apply list_elem_of_filter in Hb as [_ Hb]. unfold byIndex. simpl.
  apply indexOf_nonneg in Hb. repeat case_decide; subst; try done; lia.
Qed.

Lemma recentLikesProfiles_eq us u me :
  NoDup (recentLikes me) →
  recentLikesProfiles us u me
  = filter (likedBy us u me) (reverse (recentLikes me)).
Proof.
  intros Hnd. unfold recentLikesProfiles.
  set (rev := reverse (recentLikes me)).
  assert (NoDup rev) as Hrev by (subst rev; by rewrite reverse_Permutation).
  set (ids := filter (λ id, id ∈ recentLikes me) (peopleWhoLikedYou us u me).*1).
  assert (∀ v, v ∈ ids ↔ v ∈ filter (likedBy us u me) rev) as Hel.
  { intros v. subst ids rev.
    rewrite !list_elem_of_filter, elem_of_reverse, elem_of_peopleWhoLikedYou.
    naive_solver. }
  pose proof (byIndex_trans rev) as Htrans.
  pose proof (byIndex_total rev) as Htotal.
  apply (Sorted_unique_strong (byIndex rev)).
  - intros x1 x2 H1 H2 H12 H21. apply (indexOf_inj x1 x2 rev).
    + rewrite merge_sort_Permutation in H1. apply Hel in H1.
      by apply list_elem_of_filter in H1 as [_ H1].
    + unfold byIndex in *. lia.
  - apply (Sorted_merge_sort _).
  - apply StronglySorted_Sorted. by apply StronglySorted_filter_index.
  - rewrite merge_sort_Permutation. apply NoDup_Permutation; [| |done].
    + subst ids. apply NoDup_filter, NoDup_peopleWhoLikedYou.
    + by apply NoDup_filter.
Qed.

(** X15.  What [/matches] lists.  For a duplicate-free [recentLikes], the
    recent likes are the people of [recentLikes] who still like the user
    and are not matched, newest first; the other likes are the remaining
    people who like the user and are not matched, each once; and a match
    is listed by name only if its profile is still in the store. *)
Theorem matches_overview_lists us u me :
  NoDup (recentLikes me) →
  recentLikesProfiles us u me
  = filter (likedBy us u me) (reverse (recentLikes me))
  ∧ (∀ v, v ∈ olderLikesProfiles us u me ↔
          likedBy us u me v ∧ v ∉ recentLikes me)
  ∧ NoDup (olderLikesProfiles us u me)
  ∧ (∀ v, v ∈ listedMatches us me ↔
          v ∈ matches me ∧ v ≠ 0 ∧ is_Some (us !! v)).
Proof.
  intros Hnd. split_and!.
  - by apply recentLikesProfiles_eq.
  - intros v. unfold olderLikesProfiles.
    rewrite list_elem_of_filter, elem_of_peopleWhoLikedYou. naive_solver.
  - apply NoDup_filter, NoDup_peopleWhoLikedYou.
  - intros v. unfold listedMatches. rewrite list_elem_of_filter. naive_solver.
Qed.

Lemma matches_overview_lists_witness :
  NoDup (recentLikes star)
  ∧ recentLikesProfiles (users fanState) 1 star = [3; 2]
  ∧ (4 ∈ olderLikesProfiles (users fanState) 1 star).
Proof.
  assert (NoDup (recentLikes star)) as Hnd
    by (by apply (bool_decide_unpack _)).
  destruct (matches_overview_lists (users fanState) 1 star Hnd)
    as (Hrecent & Holder & _).
  split; [exact Hnd|]. split.
  - rewrite Hrecent. vm_compute. reflexivity.
  - apply Holder. split; [|by apply (bool_decide_unpack _)].
    by apply (bool_decide_unpack _).
Defined.



(** ** Saving over a profile *)

(** X17.  The save that ends the create dialogue writes a new profile
    over the one in the store: [likes] and [matches] are emptied, the
    daily counter and the purchased credits are set to zero, and only
    [recentLikes] is kept.  No other profile is touched, so a profile
    that held the user in its [matches] still does. *)
Theorem recreate_resets_profile c u d st ph1 ph2 phs :
  draftPhotos d = Some (ph1 :: ph2 :: phs) → now c ≠ 0 →
  let r := onFinishPhotos c u d st in
  users r.1 !! u
  = Some (mkUser (draftGender d) (draftLooking d) [] []
            (from_option recentLikes [] (users st !! u)) 0 (Some (now c)) 0)
  ∧ (∀ v, v ≠ u → users r.1 !! v = users st !! v).
Proof.
  intros Hph Hnow r. subst r. unfold onFinishPhotos, thenNext. rewrite Hph.
  set (userData := mkUser _ _ _ _ _ _ _ _).
  match goal with
  | |- context [showNext c u ?s] =>
      pose proof (showNext_users c u s) as [Hu _];
      destruct (showNext c u s) as [st1 out]
  end.
  cbn [fst users] in *.
  assert (roll c userData = userData) as Hroll.
  { apply roll_same_day. unfold lastResetDate, userData. simpl.
    by rewrite decide_False. }
  split.
  - destruct Hu as [-> | ->].
    + apply lookup_insert_eq.
    + rewrite lookup_alter_eq, lookup_insert_eq.
      change (Some (roll c userData) = Some userData). by rewrite Hroll.
  - intros v Hv. destruct Hu as [-> | ->].
    + by rewrite lookup_insert_ne.
    + by rewrite lookup_alter_ne, lookup_insert_ne.
Qed.

Lemma recreate_resets_profile_witness :
  draftPhotos twoPhotos = Some (hi :: bye :: []) ∧ now noon ≠ 0
  ∧ users leavingState !! 2 = Some admirer
  ∧ users (onFinishPhotos noon 2 twoPhotos leavingState).1 !! 2
    = Some (mkUser (Some female) (Some men) [] [] [1; 3] 0 (Some (now noon)) 0).
Proof.
  assert (draftPhotos twoPhotos = Some (hi :: bye :: [])) as Hph by reflexivity.
  assert (now noon ≠ 0) as Hnow by (simpl; lia).
  split; [exact Hph|]. split; [exact Hnow|]. split; [reflexivity|].
  exact (proj1 (recreate_resets_profile noon 2 twoPhotos leavingState hi bye []
                  Hph Hnow)).
Defined.

(** ** What a like records *)

Lemma recordLike_lookup u t us k :
  (recordLike u t us).1 !! k = liked u t k (recordLike u t us).2 <$> us !! k.
Proof.
  unfold recordLike. case_bool_decide; cbn [fst snd];
    rewrite !lookup_alter_fmap; destruct (us !! k) as [p|]; [|done| |done];
    cbn [fmap option_fmap option_map]; f_equal; unfold liked;
    repeat case_decide; subst; try done; by destruct p.
Qed.

Lemma elem_of_pushNew_same (x : Z) l : x ∈ pushNew x l.
Proof. apply elem_of_pushNew. by left. Qed.

Lemma recordLike_found u t us pt :
  us !! t = Some pt →
  (recordLike u t us).2 = bool_decide (u ∈ likes pt ∨ u = t).
Proof.
  intros Ht. unfold recordLike. rewrite lookup_alter_fmap, Ht.
  cbn [fmap option_fmap option_map from_option].
  case_decide as E.
  - subst t. cbn [likes with_likes].
    rewrite bool_decide_eq_true_2 by apply elem_of_pushNew_same.
    cbn [snd]. symmetry. apply bool_decide_eq_true_2. by right.
  - cbn [id]. case_bool_decide as Hin; cbn [snd]; symmetry.
    + apply bool_decide_eq_true_2. by left.
    + apply bool_decide_eq_false_2. naive_solver.
Qed.

Lemma roll_keeps c p q :
  lastResetDate (tzOffset c) p = Some (today c) →
  lastSwipeReset q = lastSwipeReset p → roll c q = q.
Proof.
  intros Hday Hr. apply roll_same_day. unfold lastResetDate in *.
  by rewrite Hr.
Qed.

(** The store after a like, for a user whose last reset is today. *)
Lemma onLike_same_day c u t st p pt :
  users st !! u = Some p → users st !! t = Some pt →
  lastResetDate (tzOffset c) p = Some (today c) →
  0 < total (getAvailableSwipes c u (users st)).2 →
  ∀ k, users (onLike c u t st).1 !! k
       = (λ q, let q1 := liked u t k (recordLike u t (users st)).2 q in
               if decide (k = u) then charge p q1 else q1) <$> users st !! k.
Proof.
  intros Hp Ht Hday Htot k.
  assert (alter (roll c) u (users st) = users st) as Hsame.
  { apply (alter_fix _ _ _ p Hp). by apply roll_same_day. }
  rewrite (getAvailableSwipes_value c u _ p Hp), Hsame in Htot.
  cbn [snd total] in Htot.
  unfold onLike. rewrite Hp, Ht.
  rewrite (getAvailableSwipes_value c u _ p Hp), Hsame.
  cbn [total]. rewrite bool_decide_eq_false_2 by lia.
  pose proof (recordLike_lookup u t (users st)) as Hloc.
  pose proof (recordLike_found u t (users st) pt Ht) as Hmf.
  destruct (recordLike u t (users st)) as [loc1 mf]. cbn [fst snd] in *.
  unfold saveFrom. rewrite !Hloc, Hp, Ht.
  cbn [fmap option_fmap option_map].
  set (us2 := if bool_decide (0 < purchasedSwipes p) then users st
              else (incrementDailySwipes c u (users st)).1).
  assert (us2 = if bool_decide (0 < purchasedSwipes p) then users st
                else alter (λ q, with_dailySwipes (dailySwipes q + 1) q) u
                       (users st)) as Hus2.
  { subst us2. destruct (bool_decide (0 < purchasedSwipes p)); [done|].
    unfold incrementDailySwipes.
    cbn [fst]. by rewrite (check_same_day c u _ p Hp Hday). }
  clearbody us2. subst us2.
  match goal with
  | |- context [alter ?fT t (alter ?fU u ?us2)] =>
      set (us4 := alter fT t (alter fU u us2))
  end.
  assert (us4 !! k
          = (λ q, let q1 := liked u t k mf q in
                  if decide (k = u) then charge p q1 else q1) <$> users st !! k)
    as Hus4.
  { subst us4. rewrite !lookup_alter_fmap.
    assert ((if bool_decide (0 < purchasedSwipes p) then users st
             else alter (λ q, with_dailySwipes (dailySwipes q + 1) q) u
                    (users st)) !! k
            = (if decide (u = k)
               then (if bool_decide (0 < purchasedSwipes p) then id
                     else λ q, with_dailySwipes (dailySwipes q + 1) q)
               else id) <$> users st !! k) as ->.
    { destruct (bool_decide (0 < purchasedSwipes p)).
      - destruct (decide (u = k)); by rewrite option_fmap_id.
      - by rewrite lookup_alter_fmap. }
    destruct (users st !! k) as [q|] eqn:Hq; [|done].
    cbn [fmap option_fmap option_map]. f_equal. unfold charge, liked.
    assert (t = u → mf = true) as Hself.
    { intros ->. rewrite Hmf. apply bool_decide_eq_true_2. by right. }
    clear Hmf Hloc Htot.
    destruct (decide (u = k)) as [<-|Hku];
      (destruct (decide (t = u)) as [Etu|Htu];
        [specialize (Hself Etu)|clear Hself]);
      simplify_eq;
      destruct (bool_decide (0 < purchasedSwipes p));
      repeat (case_decide; simplify_eq; try done); cbn;
      first [done | by destruct q | by destruct mf
            | destruct mf; by destruct q]. }
  assert (alter (roll c) u us4 !! k = us4 !! k) as Hroll.
  { rewrite lookup_alter_roll.
    destruct (decide (u = k)) as [E|E]; [|by rewrite option_fmap_id].
    subst k. rewrite Hus4, Hp. cbn [fmap option_fmap option_map]. f_equal.
    rewrite decide_True by done. apply (roll_keeps c p); [done|].
    unfold charge. by destruct (bool_decide (0 < purchasedSwipes p)). }
  destruct (queueEmpty _).
  - done.
  - destruct (thenShow_users c u
                (if mf then [ONotifyMatch t; OMatched t]
                 else [OLiked; ONotifyLike t])
                (mkState us4 (deletionReasons st)
                   (rebuildQueue us4 u true
                      (setSession u clearMessageStep
                         (getSession u (sessions st)))))) as [Hu _].
    cbn [users] in Hu. rewrite Hu, Hroll, Hus4. done.
Qed.

Lemma total_open c u us p :
  us !! u = Some p → lastResetDate (tzOffset c) p = Some (today c) →
  0 < purchasedSwipes p ∨ (purchasedSwipes p = 0 ∧ dailySwipes p < 20) →
  0 < total (getAvailableSwipes c u us).2.
Proof.
  intros Hp Hday Hopen. rewrite (getAvailableSwipes_value c u us p Hp).
  rewrite (roll_same_day c p Hday). cbn [snd total]. lia.
Qed.

(** X18.  A like takes exactly one swipe from the user, for a target with
    a profile and a last reset on the current day: a purchased credit if
    there is one, and then the daily counter is left alone; otherwise one
    daily swipe.  The counters of every other profile stay as they are. *)
Theorem like_consumes_one c u t st p :
  users st !! u = Some p → is_Some (users st !! t) →
  lastResetDate (tzOffset c) p = Some (today c) →
  0 < purchasedSwipes p ∨ (purchasedSwipes p = 0 ∧ dailySwipes p < 20) →
  let us' := users (onLike c u t st).1 in
  (∃ p', us' !! u = Some p'
         ∧ lastSwipeReset p' = lastSwipeReset p
         ∧ (0 < purchasedSwipes p →
            purchasedSwipes p' = purchasedSwipes p - 1
            ∧ dailySwipes p' = dailySwipes p)
         ∧ (purchasedSwipes p = 0 →
            purchasedSwipes p' = 0 ∧ dailySwipes p' = dailySwipes p + 1))
  ∧ (∀ v q, v ≠ u → users st !! v = Some q →
       ∃ q', us' !! v = Some q'
             ∧ dailySwipes q' = dailySwipes q
             ∧ lastSwipeReset q' = lastSwipeReset q
             ∧ purchasedSwipes q' = purchasedSwipes q).
Proof.
  intros Hp [pt Ht] Hday Hopen us'. subst us'.
  pose proof (onLike_same_day c u t st p pt Hp Ht Hday
                (total_open c u _ p Hp Hday Hopen)) as Hk.
  split.
  - rewrite Hk, Hp. cbn [fmap option_fmap option_map].
    rewrite decide_True by done. eexists. split; [done|].
    unfold charge. split_and!.
    + by destruct (bool_decide (0 < purchasedSwipes p)).
    + intros Hpur. by rewrite bool_decide_eq_true_2.
    + intros Hpur. rewrite bool_decide_eq_false_2 by lia. done.
  - intros v q Hv Hq. rewrite Hk, Hq. cbn [fmap option_fmap option_map].
    rewrite decide_False by done. by eexists.
Qed.

Lemma like_consumes_one_witness :
  users pairState !! 1 = Some sampleUser
  ∧ is_Some (users pairState !! 2)
  ∧ lastResetDate (tzOffset noon) sampleUser = Some (today noon)
  ∧ (0 < purchasedSwipes sampleUser
     ∨ (purchasedSwipes sampleUser = 0 ∧ dailySwipes sampleUser < 20))
  ∧ ∃ p', users (onLike noon 1 2 pairState).1 !! 1 = Some p'
          ∧ purchasedSwipes p' = 0 ∧ dailySwipes p' = dailySwipes sampleUser + 1.
Proof.
  assert (users pairState !! 1 = Some sampleUser) as Hp by reflexivity.
  assert (is_Some (users pairState !! 2)) as Ht
    by (exists receiver; reflexivity).
  assert (lastResetDate (tzOffset noon) sampleUser = Some (today noon)) as Hday
    by reflexivity.
  assert (0 < purchasedSwipes sampleUser
          ∨ (purchasedSwipes sampleUser = 0 ∧ dailySwipes sampleUser < 20))
    as Hopen by (right; simpl; lia).
  split; [exact Hp|]. split; [exact Ht|]. split; [exact Hday|].
  split; [exact Hopen|].
  destruct (like_consumes_one noon 1 2 pairState sampleUser Hp Ht Hday Hopen)
    as [(p' & Hp' & _ & _ & Hfree) _].
  exists p'. split; [exact Hp'|]. exact (Hfree eq_refl).
Defined.

(** X19.  What a like records, for two distinct users with profiles, a
    last reset on the current day and a swipe left.  The target is added
    to the user's [likes] (once).  If the target already likes the user,
    each is added to the other's [matches] and both are told of the
    match; otherwise the user becomes the newest entry of the target's
    [recentLikes] and the target is told that somebody liked them. *)
Theorem like_records c u t st p pt :
  users st !! u = Some p → users st !! t = Some pt → u ≠ t →
  lastResetDate (tzOffset c) p = Some (today c) →
  0 < purchasedSwipes p ∨ (purchasedSwipes p = 0 ∧ dailySwipes p < 20) →
  let r := onLike c u t st in
  ∃ p' pt',
    users r.1 !! u = Some p' ∧ users r.1 !! t = Some pt'
    ∧ likes p' = pushNew t (likes p) ∧ recentLikes p' = recentLikes p
    ∧ likes pt' = likes pt
    ∧ (u ∈ likes pt →
       matches p' = pushNew t (matches p)
       ∧ matches pt' = pushNew u (matches pt)
       ∧ recentLikes pt' = recentLikes pt
       ∧ ∃ out, r.2 = [ONotifyMatch t; OMatched t] ++ out)
    ∧ (u ∉ likes pt →
       matches p' = matches p ∧ matches pt' = matches pt
       ∧ recentLikes pt' = filter (λ id, id ≠ u) (recentLikes pt) ++ [u]
       ∧ ∃ out, r.2 = [OLiked; ONotifyLike t] ++ out).
Proof.
  intros Hp Ht Hut Hday Hopen r. subst r.
  pose proof (total_open c u _ p Hp Hday Hopen) as Htot.
  pose proof (onLike_same_day c u t st p pt Hp Ht Hday Htot) as Hk.
  pose proof (recordLike_found u t (users st) pt Ht) as Hmf.
  assert (∃ out,
    (onLike c u t st).2
    = (if (recordLike u t (users st)).2 then [ONotifyMatch t; OMatched t]
       else [OLiked; ONotifyLike t]) ++ out) as [out Hout].
  { unfold onLike. rewrite Hp, Ht.
    destruct (getAvailableSwipes c u (users st)) as [us1 av] eqn:Eav.
    cbn [snd] in Htot. rewrite bool_decide_eq_false_2 by lia.
    destruct (recordLike u t (users st)) as [loc1 mf]. cbn [snd].
    destruct (queueEmpty _).
    - exists []. by rewrite app_nil_r.
    - unfold thenShow. destruct (showCandidate _ _ _) as [st1 out1].
      by exists out1. }
  exists (charge p (liked u t u (recordLike u t (users st)).2 p)),
         (liked u t t (recordLike u t (users st)).2 pt).
  split_and!.
  - rewrite Hk, Hp. cbn [fmap option_fmap option_map].
    by rewrite decide_True.
  - rewrite Hk, Ht. cbn [fmap option_fmap option_map].
    by rewrite decide_False.
  - unfold charge, liked. destruct (bool_decide (0 < purchasedSwipes p)); cbn;
      by rewrite decide_True.
  - unfold charge, liked. destruct (bool_decide (0 < purchasedSwipes p)); cbn;
      rewrite ?decide_False by done; by destruct (recordLike _ _ _).2.
  - unfold liked. cbn. by rewrite decide_False.
  - intros Hin. rewrite Hmf, bool_decide_eq_true_2 in Hout |- * by (by left).
    unfold charge, liked.
    split_and!; [..|by exists out];
      destruct (bool_decide (0 < purchasedSwipes p)); cbn;
      repeat (case_decide; simplify_eq); done.
  - intros Hin.
    rewrite Hmf, bool_decide_eq_false_2 in Hout |- * by naive_solver.
    unfold charge, liked.
    split_and!; [..|by exists out];
      destruct (bool_decide (0 < purchasedSwipes p)); cbn;
      repeat (case_decide; simplify_eq); done.
Qed.

Lemma like_records_witness :
  users leavingState !! 1 = Some sampleUser
  ∧ users leavingState !! 2 = Some admirer
  ∧ lastResetDate (tzOffset noon) sampleUser = Some (today noon)
  ∧ (1 ∈ likes admirer)
  ∧ ∃ p', users (onLike noon 1 2 leavingState).1 !! 1 = Some p'
          ∧ likes p' = pushNew 2 (likes sampleUser)
          ∧ matches p' = pushNew 2 (matches sampleUser).
Proof.
  assert (users leavingState !! 1 = Some sampleUser) as Hp by reflexivity.
  assert (users leavingState !! 2 = Some admirer) as Ht by reflexivity.
  assert (lastResetDate (tzOffset noon) sampleUser = Some (today noon)) as Hday
    by reflexivity.
  assert (1 ∈ likes admirer) as Hin by (by apply (bool_decide_unpack _)).
  assert (0 < purchasedSwipes sampleUser
          ∨ (purchasedSwipes sampleUser = 0 ∧ dailySwipes sampleUser < 20))
    as Hopen by (right; simpl; lia).
  assert (1 ≠ 2) as Hne by lia.
  split; [exact Hp|]. split; [exact Ht|]. split; [exact Hday|].
  split; [exact Hin|].
  destruct (like_records noon 1 2 leavingState sampleUser admirer
              Hp Ht Hne Hday Hopen)
    as (p' & pt' & Hp' & _ & Hl & _ & _ & Hm & _).
  exists p'. split; [exact Hp'|]. split; [exact Hl|].
  exact (proj1 (Hm Hin)).
Defined.

(** ** The arrays of the store under every handler *)

Lemma sameSocial_refl us : sameSocial us us.
Proof. done. Qed.

Lemma sameSocial_trans us1 us2 us3 :
  sameSocial us1 us2 → sameSocial us2 us3 → sameSocial us1 us3.
Proof. intros H1 H2 k. by rewrite H1. Qed.

Lemma sameSocial_alter f a us :
  (∀ p, social (f p) = social p) → sameSocial (alter f a us) us.
Proof.
  intros Hf k. rewrite lookup_alter_fmap. destruct (us !! k); [|done].
  cbn [fmap option_fmap option_map]. case_decide; [|done]. by rewrite Hf.
Qed.

Lemma social_roll c p : social (roll c p) = social p.
Proof.
  destruct (roll_social c p) as (Hl & Hm & Hr & _). unfold social.
  by rewrite Hl, Hm, Hr.
Qed.

Lemma sameSocial_roll c u us : sameSocial (alter (roll c) u us) us.
Proof. apply sameSocial_alter, social_roll. Qed.

Lemma sameSocial_insert us u p p' :
  us !! u = Some p → social p' = social p → sameSocial (<[u := p']> us) us.
Proof.
  intros Hp Hs k. destruct (decide (u = k)) as [<-|Hne].
  - rewrite lookup_insert_eq, Hp. cbn. by rewrite Hs.
  - by rewrite lookup_insert_ne.
Qed.

Lemma sameSocial_showCandidate c u st :
  sameSocial (users (showCandidate c u st).1) (users st).
Proof.
  destruct (showCandidate_users c u st) as [-> _]. apply sameSocial_roll.
Qed.

Lemma sameSocial_thenShow c u out st :
  sameSocial (users (thenShow c u out st).1) (users st).
Proof. destruct (thenShow_users c u out st) as [-> _]. apply sameSocial_roll. Qed.

Ltac after_thenShow :=
  match goal with
  | |- sameSocial (users (thenShow ?c ?u ?o ?s).1) _ =>
      apply (sameSocial_trans _ (users s)); [apply sameSocial_thenShow|];
      cbn [users with_sessions with_users]
  end.

Lemma sameSocial_showNext c u st :
  sameSocial (users (showNext c u st).1) (users st).
Proof.
  destruct (showNext_users c u st) as [[-> | ->] _];
    [done|apply sameSocial_roll].
Qed.

Lemma sameSocial_thenNext c u out st :
  sameSocial (users (thenNext c u out st).1) (users st).
Proof.
  unfold thenNext. pose proof (sameSocial_showNext c u st) as H.
  by destruct (showNext c u st).
Qed.

Lemma sameSocial_increment c u us :
  sameSocial (incrementDailySwipes c u us).1 us.
Proof.
  unfold incrementDailySwipes. cbn [fst]. rewrite check_roll.
  eapply sameSocial_trans; [|apply sameSocial_roll].
  by apply sameSocial_alter.
Qed.

Lemma sameSocial_onSkip c u st :
  sameSocial (users (onSkip c u st).1) (users st).
Proof.
  unfold onSkip. destruct (users st !! u); [|done].
  rewrite (surjective_pairing (getAvailableSwipes c u (users st))).
  rewrite getAvailableSwipes_roll.
  destruct (bool_decide (total _ ≤ 0)); [apply sameSocial_roll|].
  match goal with
  | |- sameSocial (users (showCaught c u ?o ?s).1) _ =>
      destruct (showCaught_users c u o s) as [-> _]
  end.
  eapply sameSocial_trans; [apply sameSocial_roll|]. cbn [users].
  destruct (bool_decide (0 < _)).
  - eapply sameSocial_trans; [|apply sameSocial_roll]. by apply sameSocial_alter.
  - eapply sameSocial_trans; [apply sameSocial_increment|apply sameSocial_roll].
Qed.

Lemma sameSocial_onMessage c u t st :
  sameSocial (users (onMessage c u t st).1) (users st).
Proof.
  unfold onMessage. destruct (users st !! u); [|done].
  rewrite (surjective_pairing (getAvailableSwipes c u (users st))).
  rewrite getAvailableSwipes_roll.
  destruct (bool_decide (total _ ≤ 0)); [apply sameSocial_roll|].
  destruct (alter (roll c) u (users st) !! t); [apply sameSocial_roll|].
  after_thenShow. apply sameSocial_roll.
Qed.

(** The two [updateUserArrays] calls that end a like or a message write
    the arrays of the snapshot. *)
Lemma sameSocial_saved loc1 us us2 u t mf fU fT :
  (∀ k, loc1 !! k = liked u t k mf <$> us !! k) →
  (u = t → mf = true) →
  sameSocial us2 us → is_Some (us !! u) → is_Some (us !! t) →
  (∀ src q, likes (fU src q) = likes src ∧ matches (fU src q) = matches src
            ∧ recentLikes (fU src q) = recentLikes q) →
  (∀ src q, likes (fT src q) = likes src
            ∧ matches (fT src q) = (if mf then matches src else matches q)
            ∧ recentLikes (fT src q)
              = (if mf then recentLikes q else recentLikes src))
  ∨ (∀ src q, social (fT src q) = social src) →
  sameSocial (saveFrom loc1 t fT (saveFrom loc1 u fU us2)) loc1.
Proof.
  intros Hloc Hself Hs [pu Hu] [pt Ht] HfU HfT k.
  unfold saveFrom. rewrite (Hloc u), (Hloc t), Hu, Ht.
  cbn [fmap option_fmap option_map]. rewrite !lookup_alter_fmap, Hloc.
  pose proof (Hs k) as Hk.
  destruct (decide (t = k)) as [Etk|Htk]; destruct (decide (u = k)) as [Euk|Huk];
    subst.
  - specialize (Hself eq_refl). subst mf.
    rewrite Hu in Ht. injection Ht as <-. rewrite Hu in Hk |- *.
    destruct (us2 !! k) as [q2|]; [|done].
    cbn [fmap option_fmap option_map] in *. injection Hk as Hl Hm Hr.
    f_equal. unfold social.
    destruct HfT as [HfT|HfT].
    + destruct (HfT (liked k k k true pu) (fU (liked k k k true pu) q2))
        as (-> & -> & ->).
      destruct (HfU (liked k k k true pu) q2) as (_ & _ & ->).
      cbn. by rewrite Hr.
    + apply (HfT (liked k k k true pu)).
  - rewrite Ht in Hk |- *. destruct (us2 !! k) as [q2|]; [|done].
    cbn [fmap option_fmap option_map id] in *. injection Hk as Hl Hm Hr.
    f_equal. unfold social.
    destruct HfT as [HfT|HfT].
    + destruct (HfT (liked u k k mf pt) q2) as (-> & -> & ->).
      cbn. rewrite Hm, Hr. by destruct mf.
    + apply (HfT (liked u k k mf pt)).
  - rewrite Hu in Hk |- *. destruct (us2 !! k) as [q2|]; [|done].
    cbn [fmap option_fmap option_map id] in *. injection Hk as Hl Hm Hr.
    f_equal. unfold social.
    destruct (HfU (liked k t k mf pu) q2) as (-> & -> & ->).
    cbn. rewrite Hr. destruct (decide (k = t)); [done|]. by destruct mf.
  - destruct (us2 !! k) as [q2|], (us !! k) as [q|]; try done.
    cbn [fmap option_fmap option_map id] in *. injection Hk as Hl Hm Hr.
    f_equal. unfold social. cbn. rewrite Hl, Hm, Hr.
    destruct (decide (k = t)), (decide (k = u)); try done. by destruct mf.
Qed.

Lemma recordLike_self u us pu :
  us !! u = Some pu → (recordLike u u us).2 = true.
Proof.
  intros Hu. rewrite (recordLike_found u u us pu Hu).
  apply bool_decide_eq_true_2. by right.
Qed.

Lemma socialMove_onLike c u t st :
  socialMove (users st) (users (onLike c u t st).1).
Proof.
  unfold onLike.
  destruct (users st !! u) as [me|] eqn:Hu; [|by left].
  destruct (users st !! t) as [them|] eqn:Ht.
  2:{ left. destruct (queueEmpty _); [done|]. by after_thenShow. }
  rewrite (surjective_pairing (getAvailableSwipes c u (users st))).
  rewrite getAvailableSwipes_roll.
  destruct (bool_decide (total _ ≤ 0)); [left; apply sameSocial_roll|].
  right. left. exists u, t. split; [by eexists|]. split; [by eexists|].
  pose proof (recordLike_lookup u t (users st)) as Hloc.
  assert (u = t → (recordLike u t (users st)).2 = true) as Hself.
  { intros <-. by apply (recordLike_self u _ me). }
  destruct (recordLike u t (users st)) as [loc1 mf]. cbn [fst snd] in *.
  match goal with
  | |- context [saveFrom loc1 t ?fT (saveFrom loc1 u ?fU ?us2)] =>
      assert (sameSocial (saveFrom loc1 t fT (saveFrom loc1 u fU us2)) loc1)
        as Hfin
  end.
  { apply (sameSocial_saved loc1 (users st) _ u t mf); try done;
      [|by right].
    destruct (bool_decide (0 < _)); [apply sameSocial_roll|].
    eapply sameSocial_trans; [apply sameSocial_increment|apply sameSocial_roll]. }
  destruct (queueEmpty _); [exact Hfin|].
  after_thenShow. exact Hfin.
Qed.

Lemma socialMove_sendMessage c u text ok st :
  socialMove (users st) (users (sendMessage c u text ok st).1).
Proof.
  unfold sendMessage.
  destruct (messageTargetId (session (sessions st) u)) as [t|]; [|by left].
  destruct (bool_decide (t = 0)); [by left|].
  destruct (users st !! u) as [me|] eqn:Hu; [|by left].
  destruct (users st !! t) as [them|] eqn:Ht.
  2:{ left. by after_thenShow. }
  right. left. exists u, t. split; [by eexists|]. split; [by eexists|].
  pose proof (recordLike_lookup u t (users st)) as Hloc.
  assert (u = t → (recordLike u t (users st)).2 = true) as Hself.
  { intros <-. by apply (recordLike_self u _ me). }
  destruct (recordLike u t (users st)) as [loc1 mf]. cbn [fst snd] in *.
  rewrite (surjective_pairing (getAvailableSwipes c u (users st))).
  rewrite getAvailableSwipes_roll.
  set (r2 := if ok then _ else _).
  assert (sameSocial r2.1 (users st)) as Hav2.
  { subst r2. destruct ok; [apply sameSocial_roll|].
    rewrite getAvailableSwipes_roll.
    eapply sameSocial_trans; apply sameSocial_roll. }
  destruct r2 as [us2 av2]. cbn [fst] in Hav2.
  match goal with
  | |- context [saveFrom loc1 t ?fT (saveFrom loc1 u ?fU us2)] =>
      assert (sameSocial (saveFrom loc1 t fT (saveFrom loc1 u fU us2)) loc1)
        as Hfin
  end.
  { apply (sameSocial_saved loc1 (users st) _ u t mf); try done.
    left. intros src q. by destruct mf. }
  destruct (bool_decide (total av2 ≤ 0)); [exact Hfin|].
  after_thenShow. exact Hfin.
Qed.

Lemma socialMove_handle c e st :
  socialMove (users st) (users (handle c e st).1).
Proof.
  destruct e as [u|u|u t|u t|u|u text ok]; cbn [handle].
  - left. apply sameSocial_showNext.
  - left. apply sameSocial_onSkip.
  - left. apply sameSocial_onMessage.
  - apply socialMove_onLike.
  - left. unfold onDeleteCommand. by destruct (users st !! u).
  - unfold onText. destruct (isCommand text); [by left|].
    destruct (waitingForDeletionReason _).
    + unfold deleteAccount. cbn [users with_sessions].
      destruct (users st !! u); [|by left].
      right. right. left. by exists u.
    + destruct (step _); [|by left].
      apply (socialMove_sendMessage c u text ok
               (with_sessions (getSession u (sessions st)) st)).
Qed.

Lemma socialMove_act c a w :
  socialMove (users (engine w)) (users (engine (act c a w).1)).
Proof.
  destruct a as [e|u g|u l|u payload|u t|u]; cbn [act liftEngine fst engine].
  - pose proof (socialMove_handle c e (engine w)) as H.
    by destruct (handle c e (engine w)).
  - left. unfold onEditGender.
    destruct (users (engine w) !! u) as [p|] eqn:Hp; [|done].
    eapply sameSocial_trans; [apply sameSocial_thenNext|].
    by apply (sameSocial_insert _ _ p).
  - left. unfold onEditLooking.
    destruct (users (engine w) !! u) as [p|] eqn:Hp; [|done].
    eapply sameSocial_trans; [apply sameSocial_thenNext|].
    by apply (sameSocial_insert _ _ p).
  - left. unfold onSuccessfulPayment.
    destruct (swipesToAdd payload); [|done].
    destruct (users (engine w) !! u) as [p|] eqn:Hp; [|done].
    rewrite (surjective_pairing (getAvailableSwipes c u _)).
    rewrite getAvailableSwipes_roll.
    assert (sameSocial
              (alter (roll c) u
                 (alter (with_purchasedSwipes (purchasedSwipes p + z)) u
                    (users (engine w)))) (users (engine w))) as Hs.
    { eapply sameSocial_trans; [apply sameSocial_roll|].
      by apply sameSocial_alter. }
    destruct (queueEmpty _); [done|].
    match goal with
    | |- context [showCandidate c u ?s] =>
        pose proof (sameSocial_showCandidate c u s) as Hc;
        destruct (showCandidate c u s)
    end.
    cbn [fst users] in *. by eapply sameSocial_trans.
  - left. unfold onReport.
    destruct (users (engine w) !! u); [|done].
    destruct (users (engine w) !! t); [|done].
    destruct (existingReport _ _ _); [done|].
    pose proof (sameSocial_showCandidate c u (engine w)) as Hc.
    by destruct (showCandidate c u (engine w)).
  - unfold onMatches.
    destruct (users (engine w) !! u); [|by left].
    destruct (_ && _); [by left|]. cbn [fst users with_users].
    destruct (bool_decide (recentLikesProfiles _ _ _ ≠ [])); [|by left].
    right. right. right. by exists u.
Qed.

(** ** Arrays without duplicates *)

Lemma NoDup_pushNew (x : Z) l : NoDup l → NoDup (pushNew x l).
Proof.
  intros Hnd. unfold pushNew. case_bool_decide; [done|].
  apply NoDup_app. split_and!; [done| |apply NoDup_singleton].
  intros y Hy ->%list_elem_of_singleton. done.
Qed.

Lemma duplicateFree_same us' us :
  sameSocial us' us → duplicateFree us → duplicateFree us'.
Proof.
  intros Hs Hd k p' Hp'. pose proof (Hs k) as Hk. rewrite Hp' in Hk.
  destruct (us !! k) as [p|] eqn:Hp; [|done].
  injection Hk as -> -> ->. by apply (Hd k).
Qed.

Lemma duplicateFree_move us us' :
  socialMove us us' → duplicateFree us → duplicateFree us'.
Proof.
  intros [Hs|[(u & t & _ & _ & Hs)|[[u ->]|[u Hs]]]] Hd.
  - by apply (duplicateFree_same _ us).
  - apply (duplicateFree_same _ _ Hs). intros k p'.
    rewrite recordLike_lookup. destruct (us !! k) as [p|] eqn:Hp; [|done].
    intros [= <-]. destruct (Hd k p Hp) as (Hl & Hm & Hr). unfold liked. cbn.
    split_and!.
    + case_decide; [by apply NoDup_pushNew|done].
    + destruct (recordLike u t us).2; [|done].
      repeat case_decide; cbn; repeat apply NoDup_pushNew; done.
    + destruct (recordLike u t us).2; [done|]. case_decide; [|done].
      apply NoDup_app. split_and!; [by apply NoDup_filter| |apply NoDup_singleton].
      intros y Hy ->%list_elem_of_singleton.
      apply list_elem_of_filter in Hy as [Hy _]. done.
  - intros k p'. unfold without.
    destruct (decide (k = u)) as [->|Hk]; [by rewrite lookup_delete_eq|].
    rewrite lookup_delete_ne, map_lookup_imap by done.
    destruct (us !! k) as [p|] eqn:Hp; [|done]. cbn.
    rewrite decide_False by done. intros [= <-].
    destruct (Hd k p Hp) as (Hl & Hm & Hr). cbn.
    split_and!; by apply NoDup_filter.
  - apply (duplicateFree_same _ _ Hs). intros k p'.
    rewrite lookup_alter_fmap. destruct (us !! k) as [p|] eqn:Hp; [|done].
    cbn. intros [= <-]. destruct (Hd k p Hp) as (Hl & Hm & Hr).
    case_decide; [|done]. cbn. split_and!; [done..|apply NoDup_nil_2].
Qed.

(** X20.  The arrays stay free of duplicates: if no [likes], [matches]
    or [recentLikes] array of the store names a user twice, none does
    after any run of the handlers (likes, messages, skips, deletions,
    edits, payments, reports and the overviews). *)
Theorem arrays_stay_duplicate_free acts w :
  duplicateFree (users (engine w)) →
  duplicateFree (users (engine (serve acts w))).
Proof.
  revert w. induction acts as [|[c a] acts IH]; intros w Hd; [done|].
  cbn [serve]. apply IH.
  by apply (duplicateFree_move _ _ (socialMove_act c a w)).
Qed.

Lemma arrays_stay_duplicate_free_witness :
  duplicateFree (users (engine matchedState))
  ∧ duplicateFree
      (users (engine (serve [(noon, AEngine (ELike 1 2)); (noon, AMatches 2)]
                        matchedState))).
Proof.
  assert (duplicateFree (users (engine matchedState))) as Hd.
  { intros k p Hp.
    assert (map_Forall (λ _ q, bool_decide (NoDup (likes q))
                               && bool_decide (NoDup (matches q))
                               && bool_decide (NoDup (recentLikes q)) = true)
              (users (engine matchedState))) as Hall
      by (apply (bool_decide_unpack _); vm_compute; exact I).
    specialize (Hall k p Hp).
    rewrite !andb_true_iff, !bool_decide_eq_true in Hall. naive_solver. }
  split; [exact Hd|].
  exact (arrays_stay_duplicate_free
           [(noon, AEngine (ELike 1 2)); (noon, AMatches 2)] matchedState Hd).
Defined.

(** ** Matches and the likes behind them *)





(** ** The counters under every handler *)

Lemma countersOk_roll c p : countersOk p → countersOk (roll c p).
Proof.
  unfold countersOk, roll. case_decide; [done|]. cbn. lia.
Qed.

Lemma balancesOk_alter f u us :
  balancesOk us → (∀ p, us !! u = Some p → countersOk p → countersOk (f p)) →
  balancesOk (alter f u us).
Proof.
  intros Hok Hf k p'. rewrite lookup_alter_fmap.
  destruct (us !! k) as [p|] eqn:Hp; [|done]. cbn. intros [= <-].
  destruct (decide (u = k)) as [->|Hne]; cbn.
  - apply Hf; [done|]. by apply (Hok k).
  - by apply (Hok k).
Qed.

Lemma balancesOk_roll c u us : balancesOk us → balancesOk (alter (roll c) u us).
Proof.
  intros Hok. apply balancesOk_alter; [done|]. intros p _. apply countersOk_roll.
Qed.

Lemma balancesOk_insert us u p p' :
  balancesOk us → us !! u = Some p → (countersOk p → countersOk p') →
  balancesOk (<[u := p']> us).
Proof.
  intros Hok Hp Hc k q. destruct (decide (u = k)) as [<-|Hne].
  - rewrite lookup_insert_eq. intros [= <-]. apply Hc. by apply (Hok u).
  - rewrite lookup_insert_ne by done. apply Hok.
Qed.

Lemma balancesOk_saveFrom loc t f us :
  balancesOk us → (∀ src q, countersOk q → countersOk (f src q)) →
  balancesOk (saveFrom loc t f us).
Proof.
  intros Hok Hf. unfold saveFrom. destruct (loc !! t); [|done].
  apply balancesOk_alter; [done|]. intros p _. apply Hf.
Qed.

Lemma balancesOk_showCandidate c u st :
  balancesOk (users st) → balancesOk (users (showCandidate c u st).1).
Proof.
  destruct (showCandidate_users c u st) as [-> _]. apply balancesOk_roll.
Qed.

Lemma balancesOk_thenShow c u out st :
  balancesOk (users st) → balancesOk (users (thenShow c u out st).1).
Proof. destruct (thenShow_users c u out st) as [-> _]. apply balancesOk_roll. Qed.

Lemma balancesOk_showNext c u st :
  balancesOk (users st) → balancesOk (users (showNext c u st).1).
Proof.
  destruct (showNext_users c u st) as [[-> | ->] _];
    [done|apply balancesOk_roll].
Qed.

Lemma balancesOk_thenNext c u out st :
  balancesOk (users st) → balancesOk (users (thenNext c u out st).1).
Proof.
  unfold thenNext. pose proof (balancesOk_showNext c u st) as H.
  by destruct (showNext c u st).
Qed.

(** One swipe taken from a profile with swipes left: the credit if there
    is one, a free swipe otherwise. *)
Lemma balancesOk_increment c u us p :
  balancesOk us → us !! u = Some p →
  ¬ (Z.max 0 (20 - dailySwipes (roll c p)) + purchasedSwipes p ≤ 0) →
  ¬ (0 < purchasedSwipes p) →
  balancesOk (incrementDailySwipes c u (alter (roll c) u us)).1.
Proof.
  intros Hok Hp Htot Hpur. unfold incrementDailySwipes. cbn [fst].
  rewrite check_roll, alter_roll_idem.
  apply balancesOk_alter; [by apply balancesOk_roll|].
  intros q. rewrite lookup_alter_eq, Hp. cbn. intros [= <-] Hq.
  unfold countersOk in *. cbn. lia.
Qed.

Lemma balancesOk_onSkip c u st :
  balancesOk (users st) → balancesOk (users (onSkip c u st).1).
Proof.
  intros Hok. unfold onSkip. destruct (users st !! u) as [p|] eqn:Hp; [|done].
  rewrite (getAvailableSwipes_value c u _ p Hp). cbn [total].
  case_bool_decide as Htot; [by apply balancesOk_roll|].
  match goal with
  | |- balancesOk (users (showCaught c u ?o ?s).1) =>
      destruct (showCaught_users c u o s) as [-> _]
  end.
  apply balancesOk_roll. cbn [users].
  case_bool_decide as Hpur.
  - apply balancesOk_alter; [by apply balancesOk_roll|].
    intros q. rewrite lookup_alter_eq, Hp. cbn. intros [= <-] Hq.
    destruct (roll_social c p) as (_ & _ & _ & _ & _ & Hsame).
    unfold countersOk in *. cbn. lia.
  - by apply (balancesOk_increment c u _ p).
Qed.

Lemma balancesOk_onMessage c u t st :
  balancesOk (users st) → balancesOk (users (onMessage c u t st).1).
Proof.
  intros Hok. unfold onMessage. destruct (users st !! u); [|done].
  rewrite (surjective_pairing (getAvailableSwipes c u (users st))).
  rewrite getAvailableSwipes_roll.
  destruct (bool_decide (total _ ≤ 0)); [by apply balancesOk_roll|].
  destruct (alter (roll c) u (users st) !! t); [by apply balancesOk_roll|].
  apply balancesOk_thenShow. by apply balancesOk_roll.
Qed.

Lemma balancesOk_onLike c u t st :
  balancesOk (users st) → balancesOk (users (onLike c u t st).1).
Proof.
  intros Hok. unfold onLike.
  destruct (users st !! u) as [me|] eqn:Hu; [|done].
  destruct (users st !! t) as [them|] eqn:Ht.
  2:{ destruct (queueEmpty _); [done|]. by apply balancesOk_thenShow. }
  rewrite (getAvailableSwipes_value c u _ me Hu). cbn [total].
  case_bool_decide as Htot; [by apply balancesOk_roll|].
  destruct (recordLike u t (users st)) as [loc1 mf].
  pose proof (Hok u me Hu) as Hme.
  match goal with
  | |- context [saveFrom loc1 t ?fT (saveFrom loc1 u ?fU ?us2)] =>
      assert (balancesOk (saveFrom loc1 t fT (saveFrom loc1 u fU us2))) as Hfin
  end.
  { apply balancesOk_saveFrom; [|by intros src q].
    apply balancesOk_saveFrom.
    - case_bool_decide as Hpur; [by apply balancesOk_roll|].
      by apply (balancesOk_increment c u _ me).
    - intros src q Hq. unfold countersOk in *. cbn. case_bool_decide; lia. }
  destruct (queueEmpty _); [exact Hfin|]. by apply balancesOk_thenShow.
Qed.

Lemma balancesOk_sendMessage c u text ok st :
  balancesOk (users st) → balancesOk (users (sendMessage c u text ok st).1).
Proof.
  intros Hok. unfold sendMessage.
  destruct (messageTargetId (session (sessions st) u)) as [t|]; [|done].
  destruct (bool_decide (t = 0)); [done|].
  destruct (users st !! u) as [me|] eqn:Hu; [|done].
  destruct (users st !! t) as [them|] eqn:Ht.
  2:{ by apply balancesOk_thenShow. }
  destruct (recordLike u t (users st)) as [loc1 mf].
  rewrite (surjective_pairing (getAvailableSwipes c u (users st))).
  rewrite getAvailableSwipes_roll.
  set (r2 := if ok then _ else _).
  assert (balancesOk r2.1) as Hav2.
  { subst r2. destruct ok; [by apply balancesOk_roll|].
    rewrite getAvailableSwipes_roll. by do 2 apply balancesOk_roll. }
  destruct r2 as [us2 av2]. cbn [fst] in Hav2.
  match goal with
  | |- context [saveFrom loc1 t ?fT (saveFrom loc1 u ?fU us2)] =>
      assert (balancesOk (saveFrom loc1 t fT (saveFrom loc1 u fU us2))) as Hfin
  end.
  { apply balancesOk_saveFrom; [|intros src q; by destruct mf].
    by apply balancesOk_saveFrom. }
  destruct (bool_decide (total av2 ≤ 0)); [exact Hfin|].
  by apply balancesOk_thenShow.
Qed.

Lemma balancesOk_handle c e st :
  balancesOk (users st) → balancesOk (users (handle c e st).1).
Proof.
  intros Hok. destruct e as [u|u|u t|u t|u|u text ok]; cbn [handle].
  - by apply balancesOk_showNext.
  - by apply balancesOk_onSkip.
  - by apply balancesOk_onMessage.
  - by apply balancesOk_onLike.
  - unfold onDeleteCommand. by destruct (users st !! u).
  - unfold onText. destruct (isCommand text); [done|].
    destruct (waitingForDeletionReason _).
    + unfold deleteAccount. cbn [users with_sessions].
      destruct (users st !! u); [|done]. cbn [fst users].
      intros k p'. destruct (decide (k = u)) as [->|Hk];
        [by rewrite lookup_delete_eq|].
      rewrite lookup_delete_ne, map_lookup_imap by done.
      destruct (users st !! k) as [p|] eqn:Hp; [|done]. cbn.
      destruct (decide (k = u)); [done|]. intros [= <-].
      exact (Hok k p Hp).
    + destruct (step _); [|done].
      by apply (balancesOk_sendMessage c u text ok
                  (with_sessions (getSession u (sessions st)) st)).
Qed.

Lemma balancesOk_act c a w :
  balancesOk (users (engine w)) → balancesOk (users (engine (act c a w).1)).
Proof.
  intros Hok. destruct a as [e|u g|u l|u payload|u t|u];
    cbn [act liftEngine fst engine].
  - pose proof (balancesOk_handle c e (engine w) Hok) as H.
    by destruct (handle c e (engine w)).
  - unfold onEditGender.
    destruct (users (engine w) !! u) as [p|] eqn:Hp; [|done].
    apply balancesOk_thenNext. by apply (balancesOk_insert _ _ p).
  - unfold onEditLooking.
    destruct (users (engine w) !! u) as [p|] eqn:Hp; [|done].
    apply balancesOk_thenNext. by apply (balancesOk_insert _ _ p).
  - unfold onSuccessfulPayment.
    destruct (swipesToAdd payload) as [n|] eqn:Hn; [|done].
    destruct (users (engine w) !! u) as [p|] eqn:Hp; [|done].
    rewrite (surjective_pairing (getAvailableSwipes c u _)).
    rewrite getAvailableSwipes_roll.
    apply swipesToAdd_Some in Hn as [Hn _].
    assert (balancesOk
              (alter (roll c) u
                 (alter (with_purchasedSwipes (purchasedSwipes p + n)) u
                    (users (engine w))))) as Hs.
    { apply balancesOk_roll. apply balancesOk_alter; [done|].
      intros q Hq Hc. assert (q = p) as -> by congruence.
      unfold countersOk in *. cbn. lia. }
    destruct (queueEmpty _); [done|].
    match goal with
    | |- context [showCandidate c u ?s] =>
        pose proof (balancesOk_showCandidate c u s Hs) as Hc;
        destruct (showCandidate c u s)
    end.
    done.
  - unfold onReport.
    destruct (users (engine w) !! u); [|done].
    destruct (users (engine w) !! t); [|done].
    destruct (existingReport _ _ _); [done|].
    pose proof (balancesOk_showCandidate c u (engine w) Hok) as Hc.
    by destruct (showCandidate c u (engine w)).
  - unfold onMatches.
    destruct (users (engine w) !! u); [|done].
    destruct (_ && _); [done|]. cbn [fst users with_users].
    destruct (bool_decide (recentLikesProfiles _ _ _ ≠ [])); [|done].
    by apply balancesOk_alter.
Qed.

(** X22.  The counters stay within their bounds: if every profile of the
    store has between 0 and 20 free swipes counted for the day and no
    negative balance of purchased swipes, this is still so after any run
    of the handlers.  No handler counts a 21st free swipe or takes a
    credit that is not there. *)
Theorem counters_stay_bounded acts w :
  balancesOk (users (engine w)) →
  balancesOk (users (engine (serve acts w))).
Proof.
  revert w. induction acts as [|[c a] acts IH]; intros w Hok; [done|].
  cbn [serve]. apply IH. by apply balancesOk_act.
Qed.

Lemma counters_stay_bounded_witness :
  balancesOk (users (engine busyWorld))
  ∧ (dailySwipes <$>
       users (engine (serve [(noon, AEngine (ELike 1 2));
                             (noon, AEngine (ESkip 1));
                             (noon, AEngine (ELike 1 3))] busyWorld)) !! 1)
    = Some 20
  ∧ balancesOk
      (users (engine (serve [(noon, AEngine (ELike 1 2));
                             (noon, AEngine (ESkip 1));
                             (noon, AEngine (ELike 1 3))] busyWorld))).
Proof.
  assert (balancesOk (users (engine busyWorld))) as Hok.
  { intros k p Hp.
    assert (map_Forall (λ _ q, bool_decide (0 ≤ dailySwipes q ≤ 20)
                               && bool_decide (0 ≤ purchasedSwipes q) = true)
              (users (engine busyWorld))) as Hall
      by (apply (bool_decide_unpack _); vm_compute; exact I).
    specialize (Hall k p Hp).
    rewrite andb_true_iff, !bool_decide_eq_true in Hall. exact Hall. }
  split; [exact Hok|]. split; [vm_compute; reflexivity|].
  exact (counters_stay_bounded _ busyWorld Hok).
Defined.

(** ** Profiles are not created on the way *)

Lemma sameSocial_is_Some us' us k :
  sameSocial us' us → is_Some (us' !! k) → is_Some (us !! k).
Proof.
  intros Hs [p Hp]. specialize (Hs k). rewrite Hp in Hs.
  destruct (us !! k); [by eexists|done].
Qed.

Lemma socialMove_is_Some us us' k :
  socialMove us us' → is_Some (us' !! k) → is_Some (us !! k).
Proof.
  intros [Hs|[(u & t & _ & _ & Hs)|[[u ->]|[u Hs]]]] Hk.
  - by apply (sameSocial_is_Some us').
  - apply (sameSocial_is_Some _ _ _ Hs) in Hk.
    rewrite recordLike_lookup in Hk. by apply fmap_is_Some in Hk.
  - unfold without in Hk.
    destruct (decide (k = u)) as [->|Hne].
    + rewrite lookup_delete_eq in Hk. by destruct Hk.
    + rewrite lookup_delete_ne, map_lookup_imap in Hk by done.
      destruct (us !! k); [by eexists|]. by destruct Hk.
  - apply (sameSocial_is_Some _ _ _ Hs) in Hk.
    rewrite lookup_alter_fmap in Hk. by apply fmap_is_Some in Hk.
Qed.

(** X23.  Outside the create dialogue no handler adds a profile: an id
    without a profile has none after any run of likes, messages, skips,
    deletions, edits, payments, reports and overviews, also when it is
    the target of a like or the sender of a payment. *)
Theorem profiles_never_appear acts w k :
  users (engine w) !! k = None →
  users (engine (serve acts w)) !! k = None.
Proof.
  revert w. induction acts as [|[c a] acts IH]; intros w Hk; [done|].
  cbn [serve]. apply IH. apply eq_None_not_Some. intros Hsome.
  apply (socialMove_is_Some _ _ _ (socialMove_act c a w)) in Hsome.
  rewrite Hk in Hsome. by destruct Hsome.
Qed.

Lemma profiles_never_appear_witness :
  users (engine quietWorld) !! 9 = None
  ∧ users (engine (serve [(noon, AEngine (ELike 1 9));
                          (noon, APayment 9
                                   (swipesPrefix ++ package40 ++ underscore ++ hi));
                          (noon, AEditGender 9 male)] quietWorld)) !! 9 = None.
Proof.
  assert (users (engine quietWorld) !! 9 = None) as Hk by reflexivity.
  split; [exact Hk|].
  exact (profiles_never_appear _ quietWorld 9 Hk).
Defined.

(** ** The message dialogue *)

Lemma dialogue_build us u ex ss :
  dialogue (session (buildCandidateQueue us u ex ss).1 u)
  = dialogue (session ss u).
Proof.
  destruct (us !! u) as [me|] eqn:Hu; [|by rewrite buildCandidateQueue_none].
  destruct ex.
  - destruct (buildCandidateQueue_true_cases us u me ss Hu)
      as [(_ & _ & ->)|[_ ->]]; cbn [fst].
    + by rewrite session_setSession.
    + by rewrite session_getSession.
  - rewrite (buildCandidateQueue_false us u me ss Hu). cbn [fst].
    by rewrite session_getSession.
Qed.

Lemma dialogue_rebuild us u ex ss :
  dialogue (session (rebuildQueue us u ex ss) u) = dialogue (session ss u).
Proof.
  unfold rebuildQueue. pose proof (dialogue_build us u ex ss) as H.
  destruct (buildCandidateQueue us u ex ss) as [ss1 q]. cbn [fst] in H.
  by rewrite session_setSession.
Qed.

Lemma dialogue_queue q s : dialogue (with_queue q s) = dialogue s.
Proof. done. Qed.

Lemma dialogue_shown l s : dialogue (with_shown l s) = dialogue s.
Proof. done. Qed.

Lemma dialogue_lastPreference o s : dialogue (with_lastPreference o s) = dialogue s.
Proof. done. Qed.

Ltac dialogue_same :=
  repeat first
    [ rewrite dialogue_rebuild
    | rewrite session_setSession
    | rewrite session_getSession
    | rewrite dialogue_queue
    | rewrite dialogue_shown
    | rewrite dialogue_lastPreference
    | progress cbn [fst snd sessions with_sessions with_users] ].

Lemma dialogue_refill us u ss :
  match refillQueue us u ss with
  | inl (ss', _) | inr ss' => dialogue (session ss' u) = dialogue (session ss u)
  end.
Proof.
  unfold refillQueue. repeat case_match; simplify_eq; dialogue_same; done.
Qed.

Lemma dialogue_showCandidateN n c u st :
  dialogue (session (sessions (showCandidateN n c u st).1) u)
  = dialogue (session (sessions st) u).
Proof.
  revert st. induction n as [|n IH]; intros st; [done|].
  simpl. unfold showCandidateBody.
  destruct (users st !! u); [|done].
  destruct (getAvailableSwipes c u (users st)) as [us1 av].
  case_bool_decide; [done|].
  pose proof (dialogue_refill us1 u (getSession u (sessions st))) as Hre.
  rewrite session_getSession in Hre.
  destruct (refillQueue us1 u (getSession u (sessions st))) as [[ss out]|ss];
    [done|].
  repeat case_match; rewrite ?IH; dialogue_same; done.
Qed.

Lemma dialogue_thenShow c u out st :
  dialogue (session (sessions (thenShow c u out st).1) u)
  = dialogue (session (sessions st) u).
Proof.
  unfold thenShow. pose proof (dialogue_showCandidateN 2 c u st) as H.
  fold showCandidate in H. by destruct (showCandidate c u st).
Qed.

Lemma dialogue_showCaught c u out st :
  dialogue (session (sessions (showCaught c u out st).1) u)
  = dialogue (session (sessions st) u).
Proof.
  unfold showCaught. pose proof (dialogue_showCandidateN 2 c u st) as H.
  fold showCandidate in H. destruct (showCandidate c u st) as [st1 out1].
  cbn [fst] in H. case_bool_decide; [|done]. case_match.
  - cbn [fst sessions with_sessions]. by rewrite dialogue_rebuild.
  - rewrite dialogue_thenShow. cbn [sessions with_sessions].
    by rewrite dialogue_rebuild.
Qed.

Lemma dialogue_clearMessageStep s :
  step (clearMessageStep s) = None
  ∧ waitingForDeletionReason (clearMessageStep s) = waitingForDeletionReason s.
Proof. unfold clearMessageStep. by destruct (step s) eqn:E. Qed.

Lemma dialogue_onSkip c u st p :
  users st !! u = Some p →
  0 < total (getAvailableSwipes c u (users st)).2 →
  dialogue (session (sessions (onSkip c u st).1) u)
  = dialogue (clearMessageStep (session (sessions st) u)).
Proof.
  intros Hp Htot. unfold onSkip. rewrite Hp.
  destruct (getAvailableSwipes c u (users st)) as [us1 av]. cbn [snd] in Htot.
  rewrite bool_decide_eq_false_2 by lia.
  rewrite dialogue_showCaught. cbn [sessions].
  by rewrite session_setSession, session_getSession.
Qed.

Lemma dialogue_onLike c u t st p :
  users st !! u = Some p → is_Some (users st !! t) →
  0 < total (getAvailableSwipes c u (users st)).2 →
  dialogue (session (sessions (onLike c u t st).1) u)
  = dialogue (clearMessageStep (session (sessions st) u)).
Proof.
  intros Hp [pt Ht] Htot. unfold onLike. rewrite Hp, Ht.
  destruct (getAvailableSwipes c u (users st)) as [us1 av]. cbn [snd] in Htot.
  rewrite bool_decide_eq_false_2 by lia.
  destruct (recordLike u t (users st)) as [loc1 mf].
  case_match.
  - cbn [fst sessions]. rewrite dialogue_rebuild.
    by rewrite session_setSession, session_getSession.
  - rewrite dialogue_thenShow. cbn [sessions]. rewrite dialogue_rebuild.
    by rewrite session_setSession, session_getSession.
Qed.

Lemma onText_idle c u text ok st :
  isCommand text = false →
  waitingForDeletionReason (session (sessions st) u) = false →
  step (session (sessions st) u) = None →
  onText c u text ok st = (with_sessions (getSession u (sessions st)) st, []).
Proof.
  intros Hcmd Hw Hs. unfold onText. rewrite Hcmd. cbn [sessions with_sessions].
  by rewrite session_getSession, Hw, Hs.
Qed.

(** X24.  A skip or a like that goes through cancels a pending message:
    the step is cleared, and a text that follows (not a command, no
    deletion pending) is neither forwarded nor answered, and changes no
    profile. *)
Theorem swipe_cancels_message c c' u text ok st p st1 :
  users st !! u = Some p →
  0 < total (getAvailableSwipes c u (users st)).2 →
  waitingForDeletionReason (session (sessions st) u) = false →
  isCommand text = false →
  st1 = (onSkip c u st).1
  ∨ (∃ t, is_Some (users st !! t) ∧ st1 = (onLike c u t st).1) →
  step (session (sessions st1) u) = None
  ∧ onText c' u text ok st1
    = (with_sessions (getSession u (sessions st1)) st1, []).
Proof.
  intros Hp Htot Hw Hcmd Hst1.
  assert (dialogue (session (sessions st1) u)
          = dialogue (clearMessageStep (session (sessions st) u))) as Hd.
  { destruct Hst1 as [->|(t & Ht & ->)].
    - by apply (dialogue_onSkip c u st p).
    - by apply (dialogue_onLike c u t st p). }
  destruct (dialogue_clearMessageStep (session (sessions st) u)) as [Hs Hw'].
  unfold dialogue in Hd. injection Hd as Hd1 Hd2 _.
  rewrite Hs in Hd2. rewrite Hw', Hw in Hd1.
  split; [done|]. by apply onText_idle.
Qed.

Lemma swipe_cancels_message_witness :
  step (session (sessions (chatState 0)) 1) = Some 2
  ∧ step (session (sessions (onSkip noon 1 (chatState 0)).1) 1) = None
  ∧ onText noon 1 hi true (onSkip noon 1 (chatState 0)).1
    = (with_sessions (getSession 1 (sessions (onSkip noon 1 (chatState 0)).1))
         (onSkip noon 1 (chatState 0)).1, []).
Proof.
  split; [reflexivity|].
  refine (swipe_cancels_message noon noon 1 hi true (chatState 0) (sender 0) _
            _ _ _ _ (or_introl eq_refl)).
  - reflexivity.
  - vm_compute. reflexivity.
  - reflexivity.
  - reflexivity.
Defined.

(** X25.  The message dialogue, for a user with swipes left and a target
    with a profile.  The message button asks for the text and changes no
    profile (but for the daily rollover).  The text that follows, when it
    is not a command and no deletion is pending, is forwarded to that
    target, after the notification of the like or the match; the step is
    then over, so the same text sent again is not forwarded again. *)
Theorem message_reaches_target c c' u t text st p :
  users st !! u = Some p → is_Some (users st !! t) → t ≠ 0 →
  0 < total (getAvailableSwipes c u (users st)).2 →
  waitingForDeletionReason (session (sessions st) u) = false →
  isCommand text = false →
  let r1 := onMessage c u t st in
  let r2 := onText c' u text true r1.1 in
  r1.2 = [OAskMessage t]
  ∧ users r1.1 = alter (roll c) u (users st)
  ∧ (∃ n out, r2.2 = n :: OForward t text :: out
              ∧ (n = ONotifyMatch t ∨ n = ONotifyLike t))
  ∧ dialogue (session (sessions r2.1) u) = (false, None, None)
  ∧ onText c' u text true r2.1
    = (with_sessions (getSession u (sessions r2.1)) r2.1, []).
Proof.
  intros Hp [pt Ht] Ht0 Htot Hw Hcmd r1 r2.
  assert (r1 = (mkState (alter (roll c) u (users st)) (deletionReasons st)
                  (setSession u
                     (λ s, with_messageTargetId (Some t) (with_step (Some t) s))
                     (getSession u (sessions st))),
                [OAskMessage t])) as Hr1.
  { subst r1. unfold onMessage. rewrite Hp.
    pose proof (getAvailableSwipes_roll c u (users st)) as Hroll.
    destruct (getAvailableSwipes c u (users st)) as [us1 av].
    cbn [fst snd] in *. subst us1.
    rewrite bool_decide_eq_false_2 by lia.
    rewrite lookup_alter_fmap, Ht. done. }
  assert (dialogue (session (sessions r2.1) u) = (false, None, None)
          ∧ ∃ n out, r2.2 = n :: OForward t text :: out
                     ∧ (n = ONotifyMatch t ∨ n = ONotifyLike t)) as [Hd Hout].
  { subst r2. rewrite Hr1. cbn [fst]. unfold onText. rewrite Hcmd.
    cbn [sessions with_sessions].
    rewrite session_getSession, session_setSession, session_getSession.
    cbn [waitingForDeletionReason with_messageTargetId with_step step].
    rewrite Hw. unfold sendMessage. cbn [sessions with_sessions users].
    rewrite session_getSession, session_setSession, session_getSession.
    cbn [messageTargetId with_messageTargetId].
    rewrite bool_decide_eq_false_2 by done.
    rewrite !lookup_alter_fmap, Hp, Ht. cbn [fmap option_fmap option_map].
    destruct (recordLike u t _) as [loc1 mf].
    destruct (getAvailableSwipes c' u _) as [us1 av].
    case_bool_decide.
    - cbn [fst snd sessions]. rewrite session_setSession.
      split.
      + unfold dialogue. cbn. rewrite session_getSession, session_setSession.
        cbn. by rewrite session_getSession, Hw.
      + destruct mf; eauto 6.
    - rewrite dialogue_thenShow. cbn [sessions]. rewrite dialogue_rebuild.
      rewrite session_setSession. split.
      + unfold dialogue. cbn. rewrite session_getSession, session_setSession.
        cbn. by rewrite session_getSession, Hw.
      + unfold thenShow. destruct (showCandidate _ _ _) as [st2 out2].
        cbn [snd]. destruct mf; eauto 6. }
  split; [by rewrite Hr1|]. split; [by rewrite Hr1|]. split; [exact Hout|].
  split; [exact Hd|].
  unfold dialogue in Hd. injection Hd as Hd1 Hd2 _. by apply onText_idle.
Qed.

Lemma message_reaches_target_witness :
  users pairState !! 1 = Some sampleUser
  ∧ (onMessage noon 1 2 pairState).2 = [OAskMessage 2]
  ∧ ∃ n out, (onText noon 1 hi true (onMessage noon 1 2 pairState).1).2
             = n :: OForward 2 hi :: out.
Proof.
  assert (users pairState !! 1 = Some sampleUser) as Hp by reflexivity.
  assert (is_Some (users pairState !! 2)) as Ht by (eexists; reflexivity).
  assert (0 < total (getAvailableSwipes noon 1 (users pairState)).2) as Htot
    by (vm_compute; reflexivity).
  destruct (message_reaches_target noon noon 1 2 hi pairState sampleUser
              Hp Ht ltac:(lia) Htot eq_refl eq_refl)
    as (H1 & _ & (n & out & H2 & _) & _).
  split; [exact Hp|]. split; [exact H1|]. by exists n, out.
Defined.
